(** * ServicesAI_AsistentePedagogico: the ML service's RPC transport and
    analysis pipeline, as a shallow embedding.

    Source files embedded here (all under [services_ML/app]):
    - [core/tcp/protocol.py]: [TCPAction], [TCPRequest], [TCPResponse],
      [encode_message], [decode_message];
    - [core/tcp/server.py]: [TCPServer.process_request],
      [TCPServer.handle_client];
    - [core/tcp/handlers.py]: the handlers and their registration;
    - [core/database/connection.py]: the connection pool, for what the
      driver hands over for a column of type [uuid] or [vector];
    - [features/clustering/infrastructure/adapters/persistence_adapter.py]:
      the SQL of [PersistenceAdapter];
    - [features/clustering/infrastructure/adapters/hdbscan_adapter.py]:
      [get_cluster_statistics], [get_cluster_centroids];
    - the use cases [cluster_documents.py], [recommend_similar.py],
      [update_visualization.py], [get_clusters.py].

    Python values are modelled as follows.  A [bytes] object is a
    [list byte]; a [str] is a [string] holding the UTF-8 bytes of the text;
    an [int] is a [Z] (or an [N] where it is a length); a [float] is a
    rational [Q]; a raised exception is the [Raise] branch of [res]. *)

From Stdlib Require Import ZArith NArith QArith Qround Qabs List Sorted String Ascii Lia.
From Stdlib.Strings Require Import Byte.
From stdpp Require Import base option list gmap strings pretty.

Import ListNotations.
Local Open Scope string_scope.
Local Open Scope list_scope.

(** ** Exceptions *)

(** The exception classes that the modelled code raises or catches. *)
Inductive exn_class : Set :=
  | ValueError
  | TypeError
  | IndexError
  | KeyError
  | OverflowError
  | UnicodeDecodeError
  | JSONDecodeError
  | ValidationError
  | IncompleteReadError
  | DatabaseError
  | LibraryError.

(** An exception: its class and the text that [str(e)] returns. *)
Record exn : Set := Exn { exn_cls : exn_class; exn_msg : string }.

(** [str(e)] *)
Definition str_exn (e : exn) : string := exn_msg e.

(** The outcome of a Python expression: a value, or a raised exception. *)
Inductive res (A : Type) : Type :=
  | Ret (a : A)
  | Raise (e : exn).
Arguments Ret {A} a.
Arguments Raise {A} e.

#[global] Instance res_ret : MRet res := fun A a => Ret a.
#[global] Instance res_bind : MBind res := fun A B k r =>
  match r with
  | Ret a => k a
  | Raise e => Raise e
  end.
#[global] Instance res_fmap : FMap res := fun A B f r =>
  match r with
  | Ret a => Ret (f a)
  | Raise e => Raise e
  end.

(** ** Bytes and the length prefix ([core/tcp/protocol.py]) *)

Module Wire.

(** The byte of value [n mod 256]. *)
Definition byte_of_N (n : N) : byte :=
  match Byte.of_N (n mod 256) with
  | Some b => b
  | None => x00
  end.

(** [int.from_bytes(bs, byteorder="big")] *)
Definition int_from_bytes (bs : list byte) : N :=
  fold_left (fun acc b => (acc * 256 + Byte.to_N b)%N) bs 0%N.

(** [n.to_bytes(4, byteorder="big")]: Python raises [OverflowError] when
    [n] does not fit in 4 bytes. *)
Definition int_to_bytes4 (n : N) : res (list byte) :=
  if (n <? 2 ^ 32)%N then
    Ret [ byte_of_N (n / 2 ^ 24); byte_of_N (n / 2 ^ 16);
          byte_of_N (n / 2 ^ 8); byte_of_N n ]
  else Raise (Exn OverflowError "int too big to convert").

(** [len(bs)] as a Python integer. *)
Definition len {A} (l : list A) : N := N.of_nat (length l).

(** The slice [data[a : a + n]]. *)
Definition slice {A} (a n : N) (data : list A) : list A :=
  firstn (N.to_nat n) (skipn (N.to_nat a) data).

(** The two guards at the head of [decode_message]: the buffer has its 4
    length bytes, and the slice after them has the declared length.  The
    result is the JSON bytes of the message. *)
Definition decode_frame (data : list byte) : res (list byte) :=
  if (len data <? 4)%N then
    Raise (Exn ValueError "Mensaje incompleto: faltan bytes de longitud")
  else
    let length := int_from_bytes (firstn 4 data) in
    let json_bytes := slice 4 length data in
    if (len json_bytes <? length)%N then
      Raise (Exn ValueError
               ("Mensaje incompleto: esperaba " +:+ pretty length
                +:+ " bytes, recibió " +:+ pretty (len json_bytes)))
    else Ret json_bytes.

End Wire.

(** ** JSON values and the Python runtime *)

(** A JSON value, as [json.loads] returns it and as pydantic dumps it.  A
    JSON object is the list of its items in insertion order (a Python
    [dict]); [JNan] is the float [nan]. *)
#[warnings="-register-all"] Inductive json : Type :=
  | JNull
  | JBool (b : bool)
  | JInt (n : Z)
  | JFloat (q : Q)
  | JNan
  | JStr (s : string)
  | JArr (items : list json)
  | JObj (fields : list (string * json)).

(** A Python [Dict[str, Any]] holding JSON values. *)
Definition pydict : Type := list (string * json).

(** [d.get(key)]: [None] when the key is absent. *)
Fixpoint dict_get (key : string) (d : pydict) : option json :=
  match d with
  | [] => None
  | (k, v) :: rest => if String.eqb k key then Some v else dict_get key rest
  end.

(** [key in d] *)
Definition dict_has (key : string) (d : pydict) : bool :=
  match dict_get key d with
  | Some _ => true
  | None => false
  end.

(** The library functions the protocol calls and whose code is not part of
    the repository: the JSON printer behind pydantic's [model_dump_json],
    the JSON parser behind [json.loads] and [model_validate_json] (taken to
    be one parser), and the text of a pydantic validation error. *)
Record PyRuntime : Type := {
  json_dumps : json -> string;
  json_loads : string -> res json;
  validation_error_text : string -> string -> string
}.

(** ** UTF-8 *)

Module Utf8.

Definition in_range (lo hi : N) (b : byte) : bool :=
  ((lo <=? Byte.to_N b) && (Byte.to_N b <=? hi))%N.

Definition cont (b : byte) : bool := in_range 128 191 b.

(** Well-formed UTF-8 byte sequences (Unicode, table 3-7): what
    [bytes.decode("utf-8")] accepts. *)
Fixpoint valid (bs : list byte) : bool :=
  match bs with
  | [] => true
  | b0 :: r0 =>
    if in_range 0 127 b0 then valid r0
    else match r0 with
    | [] => false
    | b1 :: r1 =>
      if in_range 194 223 b0 then cont b1 && valid r1
      else match r1 with
      | [] => false
      | b2 :: r2 =>
        if in_range 224 224 b0 then in_range 160 191 b1 && cont b2 && valid r2
        else if in_range 225 236 b0 || in_range 238 239 b0
             then cont b1 && cont b2 && valid r2
        else if in_range 237 237 b0 then in_range 128 159 b1 && cont b2 && valid r2
        else match r2 with
        | [] => false
        | b3 :: r3 =>
          if in_range 240 240 b0
          then in_range 144 191 b1 && cont b2 && cont b3 && valid r3
          else if in_range 241 243 b0
          then cont b1 && cont b2 && cont b3 && valid r3
          else if in_range 244 244 b0
          then in_range 128 143 b1 && cont b2 && cont b3 && valid r3
          else false
        end
      end
    end
  end.

(** [s.encode("utf-8")] *)
Definition encode (s : string) : list byte := list_byte_of_string s.

(** [bs.decode("utf-8")] *)
Definition decode (bs : list byte) : res string :=
  if valid bs then Ret (string_of_list_byte bs)
  else Raise (Exn UnicodeDecodeError "'utf-8' codec can't decode bytes").

End Utf8.

(** ** Messages ([core/tcp/protocol.py]) *)

(** [class TCPAction(str, Enum)] *)
Inductive TCPAction : Set :=
  | CLUSTER_DOCUMENTS | UPDATE_CLUSTERS | GET_CLUSTERS | GET_CLUSTER_DETAILS
  | EXTRACT_TOPICS | UPDATE_TOPICS | GET_TOPICS | GET_TOPIC_TRENDS
  | RECOMMEND_SIMILAR | GET_RECOMMENDATIONS
  | UPDATE_VISUALIZATION | GET_VISUALIZATION
  | ANALYZE_TRENDS | GET_TEMPORAL_PATTERNS
  | PING | STATUS.

Definition all_actions : list TCPAction :=
  [ CLUSTER_DOCUMENTS; UPDATE_CLUSTERS; GET_CLUSTERS; GET_CLUSTER_DETAILS;
    EXTRACT_TOPICS; UPDATE_TOPICS; GET_TOPICS; GET_TOPIC_TRENDS;
    RECOMMEND_SIMILAR; GET_RECOMMENDATIONS;
    UPDATE_VISUALIZATION; GET_VISUALIZATION;
    ANALYZE_TRENDS; GET_TEMPORAL_PATTERNS; PING; STATUS ].

(** [action.value] *)
Definition action_value (a : TCPAction) : string :=
  match a with
  | CLUSTER_DOCUMENTS => "cluster_documents"
  | UPDATE_CLUSTERS => "update_clusters"
  | GET_CLUSTERS => "get_clusters"
  | GET_CLUSTER_DETAILS => "get_cluster_details"
  | EXTRACT_TOPICS => "extract_topics"
  | UPDATE_TOPICS => "update_topics"
  | GET_TOPICS => "get_topics"
  | GET_TOPIC_TRENDS => "get_topic_trends"
  | RECOMMEND_SIMILAR => "recommend_similar"
  | GET_RECOMMENDATIONS => "get_recommendations"
  | UPDATE_VISUALIZATION => "update_visualization"
  | GET_VISUALIZATION => "get_visualization"
  | ANALYZE_TRENDS => "analyze_trends"
  | GET_TEMPORAL_PATTERNS => "get_temporal_patterns"
  | PING => "ping"
  | STATUS => "status"
  end.

(** [TCPAction(s)]: the member whose value is [s], if any. *)
Definition action_of_value (s : string) : option TCPAction :=
  List.find (fun a => String.eqb (action_value a) s) all_actions.

#[global] Instance TCPAction_eq_dec : EqDecision TCPAction.
Proof. solve_decision. Defined.

(** [class TCPRequest(BaseModel)] *)
Record TCPRequest : Type := mkRequest {
  action : TCPAction;
  data : pydict;
  request_id : option string
}.

(** [class TCPResponse(BaseModel)] *)
Record TCPResponse : Type := mkResponse {
  status : string;
  result : option pydict;
  error : option string;
  response_id : option string
}.

(** [TCPRequest | TCPResponse] *)
Inductive message : Type :=
  | Req (r : TCPRequest)
  | Resp (r : TCPResponse).

(** [TCPResponse.success(result, request_id)] *)
Definition success (result : pydict) (request_id : option string) : TCPResponse :=
  mkResponse "success" (Some result) None request_id.

(** [TCPResponse.create_error(error_message, request_id)] *)
Definition create_error (error_message : string) (request_id : option string)
  : TCPResponse :=
  mkResponse "error" None (Some error_message) request_id.

Module Protocol.

(** An [Optional[str]] field in a dumped model. *)
Definition json_of_opt_str (o : option string) : json :=
  match o with
  | Some s => JStr s
  | None => JNull
  end.

(** The JSON value that [model_dump_json] prints for a request: one item
    per declared field, in declaration order. *)
Definition request_to_json (r : TCPRequest) : json :=
  JObj [ ("action", JStr (action_value (action r)));
         ("data", JObj (data r));
         ("request_id", json_of_opt_str (request_id r)) ].

(** The JSON value that [model_dump_json] prints for a response. *)
Definition response_to_json (r : TCPResponse) : json :=
  JObj [ ("status", JStr (status r));
         ("result", match result r with Some d => JObj d | None => JNull end);
         ("error", json_of_opt_str (error r));
         ("request_id", json_of_opt_str (response_id r)) ].

(** The JSON value dumped for a message. *)
Definition message_to_json (m : message) : json :=
  match m with
  | Req r => request_to_json r
  | Resp r => response_to_json r
  end.

(** Validation of an [Optional[str]] field with default [None]. *)
Definition opt_str_field (key : string) (d : pydict) : option (option string) :=
  match dict_get key d with
  | None | Some JNull => Some None
  | Some (JStr s) => Some (Some s)
  | Some _ => None
  end.

(** pydantic's validation of a parsed JSON value against [TCPRequest]:
    [action] is required and must be the value of a [TCPAction] member,
    [data] defaults to [{}] and must be an object, [request_id] is an
    optional string.  [None] stands for a [ValidationError]. *)
Definition validate_request (j : json) : option TCPRequest :=
  match j with
  | JObj d =>
    match dict_get "action" d with
    | Some (JStr s) =>
      a ← action_of_value s;
      dat ← match dict_get "data" d with
            | None => Some []
            | Some (JObj dd) => Some dd
            | Some _ => None
            end;
      rid ← opt_str_field "request_id" d;
      Some (mkRequest a dat rid)
    | _ => None
    end
  | _ => None
  end.

(** pydantic's validation against [TCPResponse]: [status] is a required
    string, the other three fields are optional. *)
Definition validate_response (j : json) : option TCPResponse :=
  match j with
  | JObj d =>
    match dict_get "status" d with
    | Some (JStr st) =>
      r ← match dict_get "result" d with
          | None | Some JNull => Some None
          | Some (JObj dd) => Some (Some dd)
          | Some _ => None
          end;
      err ← opt_str_field "error" d;
      rid ← opt_str_field "request_id" d;
      Some (mkResponse st r err rid)
    | _ => None
    end
  | _ => None
  end.

Section WithRuntime.
Context (rt : PyRuntime).

(** [message.to_json()] *)
Definition to_json (m : message) : string := json_dumps rt (message_to_json m).

(** [cls.model_validate_json(json_str)] for a model with validator
    [validate]; text that is not JSON fails validation too. *)
Definition model_validate_json {A} (model : string) (validate : json -> option A)
    (json_str : string) : res A :=
  match json_loads rt json_str with
  | Ret j =>
    match validate j with
    | Some a => Ret a
    | None => Raise (Exn ValidationError (validation_error_text rt model json_str))
    end
  | Raise _ => Raise (Exn ValidationError (validation_error_text rt model json_str))
  end.

(** [TCPRequest.from_json] *)
Definition request_from_json : string -> res TCPRequest :=
  model_validate_json "TCPRequest" validate_request.

(** [TCPResponse.from_json] *)
Definition response_from_json : string -> res TCPResponse :=
  model_validate_json "TCPResponse" validate_response.

(** [type(v).__name__] for a value that [json.loads] returned. *)
Definition type_name (v : json) : string :=
  match v with
  | JNull => "NoneType"
  | JBool _ => "bool"
  | JInt _ => "int"
  | JFloat _ | JNan => "float"
  | JStr _ => "str"
  | JArr _ => "list"
  | JObj _ => "dict"
  end.

(** The test ["action" in json_data], for whatever value [json.loads]
    returned: key membership in a dict, element membership in a list,
    substring test in a string, [TypeError] otherwise. *)
Definition contains_action (json_data : json) : res bool :=
  match json_data with
  | JObj d => Ret (dict_has "action" d)
  | JArr items =>
    Ret (existsb (fun x => match x with
                           | JStr s => String.eqb s "action"
                           | _ => false
                           end) items)
  | JStr s => Ret (match String.index 0 "action" s with Some _ => true | None => false end)
  | _ =>
    Raise (Exn TypeError
             ("argument of type '" +:+ type_name json_data +:+ "' is not iterable"))
  end.

(** [encode_message]: the frame [[LENGTH:4 bytes][JSON:N bytes]]. *)
Definition encode_message (m : message) : res (list byte) :=
  let json_str := to_json m in
  let json_bytes := Utf8.encode json_str in
  let length := Wire.len json_bytes in
  length_bytes ← Wire.int_to_bytes4 length;
  Ret (length_bytes ++ json_bytes).

(** [decode_message] *)
Definition decode_message (data : list byte) : res message :=
  json_bytes ← Wire.decode_frame data;
  json_str ← Utf8.decode json_bytes;
  json_data ← json_loads rt json_str;
  is_request ← contains_action json_data;
  if is_request : bool then Req <$> request_from_json json_str
  else Resp <$> response_from_json json_str.

End WithRuntime.
End Protocol.

(** ** The database *)

(** An embedding vector, and a point of the reduced space. *)
Definition vec : Type := list Q.

(** ** Values of the type [uuid] *)

Module Uuid.

(** A value of the PostgreSQL type [uuid], which psycopg loads as a Python
    [uuid.UUID]: the number that its 128 bits spell. *)
Definition t : Type := N.

Definition hex_digit (c : ascii) : option N :=
  let n := N_of_ascii c in
  if ((48 <=? n) && (n <=? 57))%N then Some (n - 48)%N
  else if ((97 <=? n) && (n <=? 102))%N then Some (n - 87)%N
  else if ((65 <=? n) && (n <=? 70))%N then Some (n - 55)%N
  else None.

(** The loop of PostgreSQL's input function of the type: [k] bytes are
    still to be read, each of two hexadecimal digits; a hyphen may follow
    every second byte but the last. *)
Fixpoint bytes_in (k : nat) (s : string) (acc : N) : option (N * string) :=
  match k with
  | O => Some (acc, s)
  | S k' =>
    match s with
    | String c1 (String c2 rest) =>
      match hex_digit c1, hex_digit c2 with
      | Some h, Some l =>
        let rest' :=
          match rest with
          | String "-" r => if Nat.odd k && (1 <? k)%nat then r else rest
          | _ => rest
          end in
        bytes_in k' rest' (acc * 256 + h * 16 + l)%N
      | _, _ => None
      end
    | _ => None
    end
  end.

(** The value that a text spells, if it is in the input syntax of the type:
    32 hexadecimal digits with the optional hyphens, optionally in braces. *)
Definition of_text (s : string) : option t :=
  let '(braces, body) :=
    match s with
    | String "{" r => (true, r)
    | _ => (false, s)
    end in
  match bytes_in 16 body 0%N with
  | Some (value, rest) =>
    if String.eqb rest (if braces : bool then "}" else "") then Some value else None
  | None => None
  end.

(** [text::uuid]: the cast fails on a text outside the input syntax. *)
Definition cast (s : string) : res t :=
  match of_text s with
  | Some u => Ret u
  | None =>
    Raise (Exn DatabaseError
             ("invalid input syntax for type uuid: " +:+ String (ascii_of_nat 34) s
              +:+ String (ascii_of_nat 34) ""))
  end.

(** [text::uuid = u], for a text whose cast succeeds. *)
Definition text_is (s : string) (u : t) : bool :=
  match of_text s with
  | Some v => N.eqb v u
  | None => false
  end.

End Uuid.

(** A key of a Python dict of documents: a [str], or the [uuid.UUID] that
    psycopg builds for a column of type [uuid].  A [str] and a [UUID] never
    compare equal. *)
Definition dict_key : Type := string + N.

(** ** numpy arrays *)

Module Np.

(** What psycopg hands to Python for a value of a column of type [vector]:
    [core/database/connection.py] registers no adapter for the type, so the
    value arrives as the [str] that pgvector prints for the vector (such as
    "[0.1,0.2]"), not as a sequence of floats.  [text_of v] is that text. *)
Inductive vector_text : Type :=
  | text_of (v : vec).

(** A numpy array, by the number of its axes.  [np.array] of a list of
    [str], and of the empty list, has one axis; the arrays that UMAP takes
    and returns have two, and are given by their rows. *)
Inductive ndarray : Type :=
  | Array1 (items : list vector_text)
  | Array2 (rows : list vec).

(** The shape of an array with one axis is a 1-tuple, which has no item 1. *)
Definition no_axis_1 : exn := Exn IndexError "tuple index out of range".

(** [a.shape[1]] *)
Definition shape_1 (a : ndarray) : res nat :=
  match a with
  | Array1 _ => Raise no_axis_1
  | Array2 rows => Ret (match rows with row :: _ => length row | [] => 0%nat end)
  end.

(** [a[indices]] for a list of positions of [a]. *)
Definition take (indices : list nat) (a : ndarray) : ndarray :=
  match a with
  | Array1 items => Array1 (omap (nth_error items) indices)
  | Array2 rows => Array2 (omap (nth_error rows) indices)
  end.

(** [len(a)] *)
Definition len (a : ndarray) : nat :=
  match a with
  | Array1 items => length items
  | Array2 rows => length rows
  end.

End Np.

Module Store.

(** The table declarations are not part of the source.  Each table has the
    columns that the queries of [persistence_adapter.py] and
    [recommend_similar.py] name; a table is the list of its rows in storage
    order, which is the order of a [SELECT] without [ORDER BY]. *)

Record collection_row : Type := {
  col_uuid : string;
  col_name : string
}.

Record embedding_row : Type := {
  emb_id : string;
  emb_collection_id : string;
  emb_document : option string;
  emb_embedding : vec
}.

(** [documents.id] is of type [uuid]: the queries compare it with text
    columns cast by [::uuid]. *)
Record document_row : Type := {
  doc_id : Uuid.t;
  doc_filename : string
}.

(** [ml_clusters]: [cl_id] is the generated key that
    [ml_document_clusters.cluster_id] refers to; [(user_id, cluster_id)] is
    the conflict target of the upsert. *)
Record cluster_row : Type := {
  cl_id : Z;
  cl_user_id : string;
  cl_cluster_id : Z;
  cl_label : string;
  cl_size : Z;
  cl_keywords : list string;
  cl_centroid : vec
}.

Record document_cluster_row : Type := {
  dc_document_id : string;
  dc_cluster_id : option Z;
  dc_probability : option Q;
  dc_is_outlier : bool
}.

Record visualization_row : Type := {
  vz_user_id : string;
  vz_document_id : string;
  vz_x : Q;
  vz_y : Q;
  vz_cluster_id : Z
}.

Record recommendation_row : Type := {
  rc_document_id : string;
  rc_recommended_document_id : string;
  rc_similarity_score : Q;
  rc_rank : Z
}.

Record store : Type := {
  langchain_pg_collection : list collection_row;
  langchain_pg_embedding : list embedding_row;
  documents : list document_row;
  ml_clusters : list cluster_row;
  ml_clusters_seq : Z;
  ml_document_clusters : list document_cluster_row;
  ml_visualizations : list visualization_row;
  ml_recommendations : list recommendation_row
}.

Definition set_ml_clusters (rows : list cluster_row) (seq : Z) (st : store) : store :=
  {| langchain_pg_collection := langchain_pg_collection st;
     langchain_pg_embedding := langchain_pg_embedding st;
     documents := documents st;
     ml_clusters := rows;
     ml_clusters_seq := seq;
     ml_document_clusters := ml_document_clusters st;
     ml_visualizations := ml_visualizations st;
     ml_recommendations := ml_recommendations st |}.

Definition set_ml_document_clusters (rows : list document_cluster_row) (st : store)
  : store :=
  {| langchain_pg_collection := langchain_pg_collection st;
     langchain_pg_embedding := langchain_pg_embedding st;
     documents := documents st;
     ml_clusters := ml_clusters st;
     ml_clusters_seq := ml_clusters_seq st;
     ml_document_clusters := rows;
     ml_visualizations := ml_visualizations st;
     ml_recommendations := ml_recommendations st |}.

Definition set_ml_visualizations (rows : list visualization_row) (st : store) : store :=
  {| langchain_pg_collection := langchain_pg_collection st;
     langchain_pg_embedding := langchain_pg_embedding st;
     documents := documents st;
     ml_clusters := ml_clusters st;
     ml_clusters_seq := ml_clusters_seq st;
     ml_document_clusters := ml_document_clusters st;
     ml_visualizations := rows;
     ml_recommendations := ml_recommendations st |}.

Definition set_ml_recommendations (rows : list recommendation_row) (st : store)
  : store :=
  {| langchain_pg_collection := langchain_pg_collection st;
     langchain_pg_embedding := langchain_pg_embedding st;
     documents := documents st;
     ml_clusters := ml_clusters st;
     ml_clusters_seq := ml_clusters_seq st;
     ml_document_clusters := ml_document_clusters st;
     ml_visualizations := ml_visualizations st;
     ml_recommendations := rows |}.

End Store.

(** ** SQL building blocks *)

Module Sql.

(** [column = %s] for a text column and a Python parameter: a parameter
    [None] is bound as [NULL], which equals nothing. *)
Definition eq_param (column : string) (param : option string) : bool :=
  match param with
  | Some p => String.eqb column p
  | None => false
  end.

(** [column = ANY(%s)] *)
Definition eq_any (column : string) (params : list string) : bool :=
  existsb (String.eqb column) params.

(** Insertion of a row into a list sorted by [le], before the first row it
    precedes or ties with. *)
Fixpoint insert_by {A} (le : A -> A -> bool) (x : A) (l : list A) : list A :=
  match l with
  | [] => [x]
  | y :: rest => if le x y then x :: l else y :: insert_by le x rest
  end.

(** [ORDER BY]: a stable sort, so that rows that tie keep their storage
    order. *)
Definition order_by {A} (le : A -> A -> bool) (rows : list A) : list A :=
  fold_right (insert_by le) [] rows.

(** [DISTINCT ON (key)] over sorted rows: the first row of every run of
    rows with the same key. *)
Fixpoint distinct_from {A} (key : A -> string) (prev : option string)
    (rows : list A) : list A :=
  match rows with
  | [] => []
  | r :: rest =>
    if match prev with Some k => String.eqb k (key r) | None => false end
    then distinct_from key prev rest
    else r :: distinct_from key (Some (key r)) rest
  end.

Definition distinct_on {A} (key : A -> string) (rows : list A) : list A :=
  distinct_from key None rows.

(** [LIMIT %s] over the rows of a query that may fail while it produces
    them: PostgreSQL rejects a negative limit before it reads a row, and
    reads no row for the limit 0; for a positive limit over sorted rows it
    reads them all. *)
Definition limit {A} (n : Z) (rows : res (list A)) : res (list A) :=
  if (n <? 0)%Z then Raise (Exn DatabaseError "LIMIT must not be negative")
  else if (n =? 0)%Z then Ret []
  else rows ← rows; Ret (firstn (Z.to_nat n) rows).

(** [l LEFT JOIN r ON on]: every row of [l], with each matching row of [r],
    or with [NULL]s when none matches. *)
Definition left_join {A B} (on : A -> B -> bool) (l : list A) (r : list B)
  : list (A * option B) :=
  flat_map (fun a =>
    match List.filter (on a) r with
    | [] => [(a, None)]
    | ms => map (fun b => (a, Some b)) ms
    end) l.

(** [l LEFT JOIN r ON l.text::uuid = r.id]: the cast is evaluated for every
    row of [l], and the first one that fails fails the query. *)
Definition left_join_uuid {A B} (text : A -> string) (id : B -> Uuid.t)
    (l : list A) (r : list B) : res (list (A * option B)) :=
  _ ← mapM (M := res) (fun a => Uuid.cast (text a)) l;
  Ret (left_join (fun a b => Uuid.text_is (text a) (id b)) l r).

(** [INSERT ... ON CONFLICT (key) DO UPDATE]: a row with a new key is
    appended.  The row with the same key is replaced by its updated
    version, which PostgreSQL writes as a new row version: a [SELECT]
    without [ORDER BY] returns it after the rows that were not touched. *)
Definition upsert {A} (same_key : A -> bool) (update : A -> A) (new : A)
    (rows : list A) : list A :=
  match List.find same_key rows with
  | Some r => List.filter (fun r' => negb (same_key r')) rows ++ [update r]
  | None => rows ++ [new]
  end.

End Sql.

(** ** [PersistenceAdapter] ([persistence_adapter.py]) *)

(** One element of [cluster_data], as [ClusterDocumentsUseCase.execute]
    builds it. *)
Record cluster_info : Type := {
  ci_cluster_id : Z;
  ci_label : string;
  ci_size : Z;
  ci_keywords : list string;
  ci_centroid : vec
}.

(** One recommendation, as [_calculate_similarity] returns it. *)
Record recommendation : Type := {
  ri_document_id : string;
  ri_filename : string;
  ri_similarity_score : Q
}.

(** A row of a result of [get_recommendations]. *)
Record cached_recommendation : Type := {
  cr_document_id : string;
  cr_similarity_score : Q;
  cr_rank : Z;
  cr_filename : option string
}.

(** A row of a result of [get_visualization]. *)
Record visualization_point : Type := {
  vp_document_id : string;
  vp_x : Q;
  vp_y : Q;
  vp_cluster_id : Z;
  vp_cluster_label : option string;
  vp_filename : option string
}.

(** The text of numpy's [IndexError] for an index beyond an axis. *)
Definition out_of_bounds (i axis size : nat) : exn :=
  Exn IndexError ("index " +:+ pretty i +:+ " is out of bounds for axis " +:+ pretty axis
                  +:+ " with size " +:+ pretty size).

(** [a[i]] on a numpy array of one axis, for a position [i] counted from
    the start: [IndexError] out of range. *)
Definition index {A} (a : list A) (i : nat) : res A :=
  match nth_error a i with
  | Some x => Ret x
  | None => Raise (out_of_bounds i 0 (length a))
  end.

(** [a[i, j]] on a numpy array of two axes, given by its rows. *)
Definition index2 (a : list vec) (i j : nat) : res Q :=
  match nth_error a i with
  | Some row =>
    match nth_error row j with
    | Some x => Ret x
    | None => Raise (out_of_bounds j 1 (length row))
    end
  | None => Raise (out_of_bounds i 0 (length a))
  end.

(** [l[i]] on a Python list. *)
Definition list_index {A} (l : list A) (i : nat) : res A :=
  match nth_error l i with
  | Some x => Ret x
  | None => Raise (Exn IndexError "list index out of range")
  end.

(** Modelled from the spec: the table declarations are not in the source;
    section 3 makes [owner_id] part of the key of Cluster and of
    VisualizationPoint, and [document_id] part of the key of
    RecommendationCacheEntry.  A key column refuses [NULL], which is what
    binding the Python parameter [None] would insert. *)
Definition key_param (p : option string) : res string :=
  match p with
  | Some s => Ret s
  | None => Raise (Exn DatabaseError "null value in column violates not-null constraint")
  end.

Module PersistenceAdapter.
Import Store.

(** The sort key of [ORDER BY lpe.document, lpe.id DESC]. *)
Definition by_document_id_desc (r1 r2 : string * embedding_row) : bool :=
  String.ltb (fst r1) (fst r2)
  || (String.eqb (fst r1) (fst r2) && String.leb (emb_id (snd r2)) (emb_id (snd r1))).

(** The rows of [langchain_pg_embedding] with a non-null [document], each
    paired with its document. *)
Definition with_document (rows : list embedding_row) : list (string * embedding_row) :=
  flat_map (fun lpe => match emb_document lpe with
                       | Some d => [(d, lpe)]
                       | None => []
                       end) rows.

(** [get_embeddings_by_user]: one embedding per document of the collection
    named [user_id], the one with the greatest [id], in document order.
    The second component is [np.array([row["embedding"] for row in
    results])], an array of one axis whose items are the texts of the
    vectors; so is [np.array([])], which is returned when there is no
    row. *)
Definition get_embeddings_by_user (st : store) (user_id : option string)
  : list string * Np.ndarray :=
  let in_collection (r : string * embedding_row) :=
    existsb (fun lpc => String.eqb (emb_collection_id (snd r)) (col_uuid lpc)
                        && Sql.eq_param (col_name lpc) user_id)
            (langchain_pg_collection st) in
  let results :=
    Sql.distinct_on fst
      (Sql.order_by by_document_id_desc
         (List.filter in_collection (with_document (langchain_pg_embedding st)))) in
  (map fst results, Np.Array1 (map (fun r => Np.text_of (emb_embedding (snd r))) results)).

(** [get_document_metadata]: the dict [{id: {filename, ...}}], of which the
    model keeps the filename.  The parameter of [WHERE id = ANY(%s)] is
    read as an array of [uuid]: a text outside the input syntax fails the
    query.  The keys of the dict are the values [row["id"]], which are
    [uuid.UUID] objects. *)
Definition get_document_metadata (st : store) (document_ids : list string)
  : res (gmap dict_key string) :=
  match document_ids with
  | [] => Ret ∅
  | _ =>
    ids ← mapM (M := res) Uuid.cast document_ids;
    Ret (fold_left (fun metadata row =>
                      <[(inr (doc_id row) : dict_key) := doc_filename row]> metadata)
           (List.filter (fun row => existsb (N.eqb (doc_id row)) ids) (documents st))
           ∅)
  end.

(** One [INSERT INTO ml_clusters ... ON CONFLICT (user_id, cluster_id) DO
    UPDATE] of the loop of [save_clusters].  The generated key is drawn
    from the sequence for the proposed row. *)
Definition insert_cluster (user_id : string) (tbl : list cluster_row * Z)
    (cluster : cluster_info) : list cluster_row * Z :=
  let '(rows, seq) := tbl in
  let same_key r :=
    String.eqb (cl_user_id r) user_id && (cl_cluster_id r =? ci_cluster_id cluster)%Z in
  let update r :=
    {| cl_id := cl_id r; cl_user_id := cl_user_id r; cl_cluster_id := cl_cluster_id r;
       cl_label := ci_label cluster; cl_size := ci_size cluster;
       cl_keywords := ci_keywords cluster; cl_centroid := ci_centroid cluster |} in
  let new :=
    {| cl_id := seq; cl_user_id := user_id; cl_cluster_id := ci_cluster_id cluster;
       cl_label := ci_label cluster; cl_size := ci_size cluster;
       cl_keywords := ci_keywords cluster; cl_centroid := ci_centroid cluster |} in
  (Sql.upsert same_key update new rows, (seq + 1)%Z).

(** [save_clusters] *)
Definition save_clusters (st : store) (user_id : option string)
    (cluster_data : list cluster_info) (delete_existing : bool) : res store :=
  let rows :=
    if delete_existing
    then List.filter (fun r => negb (Sql.eq_param (cl_user_id r) user_id)) (ml_clusters st)
    else ml_clusters st in
  match cluster_data with
  | [] => Ret (set_ml_clusters rows (ml_clusters_seq st) st)
  | _ =>
    u ← key_param user_id;
    let '(rows', seq') := fold_left (insert_cluster u) cluster_data (rows, ml_clusters_seq st) in
    Ret (set_ml_clusters rows' seq' st)
  end.

(** The dict [cluster_id_map] of [save_document_clusters], filled from
    [SELECT id, cluster_id FROM ml_clusters]: a later row replaces the
    entry of an earlier row with the same [cluster_id]. *)
Definition cluster_id_map (st : store) : gmap Z Z :=
  fold_left (fun m row => <[cl_cluster_id row := cl_id row]> m) (ml_clusters st) ∅.

(** The loop of [save_document_clusters], from index [i] on. *)
Fixpoint insert_assignments (cluster_id_map : gmap Z Z) (labels : list Z)
    (probabilities : option (list Q)) (i : nat) (document_ids : list string)
    (rows : list document_cluster_row) : res (list document_cluster_row) :=
  match document_ids with
  | [] => Ret rows
  | doc :: rest =>
    cluster_label ← index labels i;
    let is_outlier := (cluster_label =? -1)%Z in
    prob ← match probabilities with
           | Some ps => Some <$> index ps i
           | None => Ret None
           end;
    let cluster_pk := cluster_id_map !! cluster_label in
    if bool_decide (cluster_pk = None) && negb is_outlier
    then insert_assignments cluster_id_map labels probabilities (S i) rest rows
    else
      let new := {| dc_document_id := doc; dc_cluster_id := cluster_pk;
                    dc_probability := prob; dc_is_outlier := is_outlier |} in
      insert_assignments cluster_id_map labels probabilities (S i) rest
        (Sql.upsert (fun r => String.eqb (dc_document_id r) doc) (fun _ => new) new rows)
  end.

(** [save_document_clusters] *)
Definition save_document_clusters (st : store) (document_ids : list string)
    (labels : list Z) (probabilities : option (list Q)) : res store :=
  rows ← insert_assignments (cluster_id_map st) labels probabilities 0 document_ids
            (ml_document_clusters st);
  Ret (set_ml_document_clusters rows st).

(** Modelled from the spec: [get_clusters_by_user] reads the view
    [v_cluster_summary], whose declaration is not in the source; it is taken
    to show the persisted clusters of the owner (the Result Store's read of
    Cluster, section 6), here in [cluster_id] order as the query asks. *)
Definition get_clusters_by_user (st : store) (user_id : option string)
  : list cluster_row :=
  Sql.order_by (fun r1 r2 => (cl_cluster_id r1 <=? cl_cluster_id r2)%Z)
    (List.filter (fun r => Sql.eq_param (cl_user_id r) user_id) (ml_clusters st)).

(** [get_document_cluster_labels]: the cluster number of every document,
    [-1] for a document without a cluster of this user. *)
Definition get_document_cluster_labels (st : store) (user_id : option string)
    (document_ids : list string) : gmap string Z :=
  let results :=
    flat_map (fun dc =>
      flat_map (fun c =>
        if bool_decide (dc_cluster_id dc = Some (cl_id c))
           && Sql.eq_param (cl_user_id c) user_id
           && Sql.eq_any (dc_document_id dc) document_ids
        then [(dc_document_id dc, cl_cluster_id c)] else [])
        (ml_clusters st))
      (ml_document_clusters st) in
  let cluster_map :=
    fold_left (fun m row => <[fst row := snd row]> m) results (∅ : gmap string Z) in
  fold_left (fun m doc => match m !! doc with
                          | Some _ => m
                          | None => <[doc := (-1)%Z]> m
                          end) document_ids cluster_map.

(** The loop of [save_visualization], from index [i] on. *)
Fixpoint insert_points (user_id : string) (coordinates_2d : list vec)
    (labels : list Z) (i : nat) (document_ids : list string)
    (rows : list visualization_row) : res (list visualization_row) :=
  match document_ids with
  | [] => Ret rows
  | doc :: rest =>
    x ← index2 coordinates_2d i 0;
    y ← index2 coordinates_2d i 1;
    cluster_id ← index labels i;
    let new := {| vz_user_id := user_id; vz_document_id := doc;
                  vz_x := x; vz_y := y; vz_cluster_id := cluster_id |} in
    insert_points user_id coordinates_2d labels (S i) rest
      (Sql.upsert (fun r => String.eqb (vz_user_id r) user_id
                            && String.eqb (vz_document_id r) doc)
                  (fun _ => new) new rows)
  end.

(** [save_visualization] *)
Definition save_visualization (st : store) (user_id : option string)
    (document_ids : list string) (coordinates_2d : list vec) (labels : list Z)
  : res store :=
  match document_ids with
  | [] => Ret st
  | _ =>
    u ← key_param user_id;
    rows ← insert_points u coordinates_2d labels 0 document_ids (ml_visualizations st);
    Ret (set_ml_visualizations rows st)
  end.

(** [get_visualization]: the points of the owner, joined with the label of
    their cluster and, through [v.document_id::uuid = d.id], with the
    filename of their document. *)
Definition get_visualization (st : store) (user_id : option string)
  : res (list visualization_point) :=
  let v_rows := List.filter (fun v => Sql.eq_param (vz_user_id v) user_id)
                  (ml_visualizations st) in
  let v_c := Sql.left_join
               (fun v c => (vz_cluster_id v =? cl_cluster_id c)%Z
                           && String.eqb (cl_user_id c) (vz_user_id v))
               v_rows (ml_clusters st) in
  v_c_d ← Sql.left_join_uuid (fun vc => vz_document_id (fst vc)) doc_id v_c (documents st);
  Ret (map (fun '(v, c, d) =>
              {| vp_document_id := vz_document_id v; vp_x := vz_x v; vp_y := vz_y v;
                 vp_cluster_id := vz_cluster_id v;
                 vp_cluster_label := cl_label <$> c;
                 vp_filename := doc_filename <$> d |}) v_c_d).

(** The loop of [save_recommendations]: [enumerate(recommendations,
    start=rank)]. *)
Fixpoint insert_recommendations (document_id : string) (rank : Z)
    (recommendations : list recommendation) (rows : list recommendation_row)
  : list recommendation_row :=
  match recommendations with
  | [] => rows
  | rec :: rest =>
    insert_recommendations document_id (rank + 1)%Z rest
      (rows ++ [ {| rc_document_id := document_id;
                    rc_recommended_document_id := ri_document_id rec;
                    rc_similarity_score := ri_similarity_score rec;
                    rc_rank := rank |} ])
  end.

(** [save_recommendations] *)
Definition save_recommendations (st : store) (document_id : option string)
    (recommendations : list recommendation) : res store :=
  let rows := List.filter (fun r => negb (Sql.eq_param (rc_document_id r) document_id))
                (ml_recommendations st) in
  match recommendations with
  | [] => Ret (set_ml_recommendations rows st)
  | _ =>
    d ← key_param document_id;
    Ret (set_ml_recommendations (insert_recommendations d 1 recommendations rows) st)
  end.

(** [get_recommendations]: the cached rows of the document, joined through
    [r.recommended_document_id::uuid = d.id] with the filename of the
    recommended document, by rank. *)
Definition get_recommendations (st : store) (document_id : option string)
    (top_k : Z) : res (list cached_recommendation) :=
  let r_rows := List.filter (fun r => Sql.eq_param (rc_document_id r) document_id)
                  (ml_recommendations st) in
  let ordered :=
    r_d ← Sql.left_join_uuid rc_recommended_document_id doc_id r_rows (documents st);
    Ret (Sql.order_by (fun a b => (rc_rank (fst a) <=? rc_rank (fst b))%Z) r_d) in
  rows ← Sql.limit top_k ordered;
  Ret (map (fun '(r, d) =>
              {| cr_document_id := rc_recommended_document_id r;
                 cr_similarity_score := rc_similarity_score r;
                 cr_rank := rc_rank r;
                 cr_filename := doc_filename <$> d |}) rows).

End PersistenceAdapter.

(** ** Numbers *)

Module Py.

(** [round(x, ndigits)] on a float, for [ndigits >= 0]: to the nearest
    multiple of [10 ** -ndigits], ties to even. *)
Definition round (x : Q) (ndigits : Z) : Q :=
  let scale := (10 ^ ndigits)%Z in
  let scaled := (x * inject_Z scale)%Q in
  let lower := Qfloor scaled in
  let rest := (scaled - inject_Z lower)%Q in
  let nearest :=
    match (rest ?= 1 # 2)%Q with
    | Lt => lower
    | Gt => (lower + 1)%Z
    | Eq => if Z.even lower then lower else (lower + 1)%Z
    end in
  (inject_Z nearest / inject_Z scale)%Q.

(** [x or y] on integers. *)
Definition or_int (x y : Z) : Z := if (x =? 0)%Z then y else x.

(** [f"{x}"] for an optional string. *)
Definition fmt_opt (x : option string) : string :=
  match x with
  | Some s => s
  | None => "None"
  end.

(** [np.unique(a)]: the sorted distinct values. *)
Definition unique (a : list Z) : list Z :=
  fold_right (fun x acc => match acc with
                           | y :: _ => if (x =? y)%Z then acc else x :: acc
                           | [] => [x]
                           end) [] (Sql.order_by Z.leb a).

(** [np.sum(a == v)] *)
Definition count_eq (v : Z) (a : list Z) : Z :=
  Z.of_nat (length (List.filter (Z.eqb v) a)).

(** [a[mask]] for the boolean mask [labels == v]: numpy raises [IndexError]
    when the mask and the array differ in length. *)
Definition select_eq {A} (labels : list Z) (v : Z) (a : list A) : res (list A) :=
  if (length labels =? length a)%nat
  then Ret (map snd (List.filter (fun p => (fst p =? v)%Z) (combine labels a)))
  else Raise (Exn IndexError
                ("boolean index did not match indexed array along axis 0; size of axis is "
                 +:+ pretty (length a) +:+ " but size of corresponding boolean axis is "
                 +:+ pretty (length labels))).

(** [np.mean(rows, axis=0)] for a non-empty block of rows of one width. *)
Definition mean_rows (rows : list vec) : vec :=
  match rows with
  | [] => []
  | r :: rest =>
    map (fun s => (s / inject_Z (Z.of_nat (length rows)))%Q)
        (fold_left (fun acc row => map (fun p => (fst p + snd p)%Q) (combine acc row)) rest r)
  end.

End Py.

(** ** [HDBSCANAdapter] ([hdbscan_adapter.py]) *)

Module HDBSCANAdapter.

(** The dict that [get_cluster_statistics] returns; [outlier_percentage]
    is [None] when the division by [len(labels)] yields [nan]. *)
Record statistics : Type := {
  num_clusters : Z;
  num_outliers : Z;
  total_documents : Z;
  outlier_percentage : option Q;
  cluster_sizes : gmap Z Z;
  cluster_ids : list Z
}.

(** [unique_labels[unique_labels >= 0]] *)
Definition clusters_of (labels : list Z) : list Z :=
  List.filter (fun l => (0 <=? l)%Z) (Py.unique labels).

(** [get_cluster_statistics] *)
Definition get_cluster_statistics (labels : list Z) : statistics :=
  let clusters := clusters_of labels in
  {| num_clusters := Z.of_nat (length clusters);
     num_outliers := Py.count_eq (-1) labels;
     total_documents := Z.of_nat (length labels);
     outlier_percentage :=
       match labels with
       | [] => None
       | _ => Some (inject_Z (Py.count_eq (-1) labels)
                    / inject_Z (Z.of_nat (length labels)) * 100)%Q
       end;
     cluster_sizes :=
       fold_left (fun sizes c => <[c := Py.count_eq c labels]> sizes) clusters ∅;
     cluster_ids := clusters |}.

(** [get_cluster_centroids] *)
Definition get_cluster_centroids (labels : list Z) (embeddings : list vec)
  : res (gmap Z vec) :=
  fold_left (fun acc c =>
               centroids ← acc;
               cluster_embeddings ← Py.select_eq labels c embeddings;
               Ret (<[c := Py.mean_rows cluster_embeddings]> centroids))
            (clusters_of labels) (Ret ∅).

End HDBSCANAdapter.

(** ** The world of a handler: the database and the calls to the ML
    libraries *)

(** A call to one of the two external algorithms. *)
Inductive ml_call : Type :=
  | UmapFitTransform (n_components : Z) (embeddings : list vec)
  | HdbscanFit (embeddings : list vec).

Record world : Type := {
  db : Store.store;
  ml_calls : list ml_call
}.

(** A computation that reads and writes the world and may raise. *)
Definition M (A : Type) : Type := world -> res A * world.

#[global] Instance M_ret : MRet M := fun A a w => (Ret a, w).
#[global] Instance M_bind : MBind M := fun A B k m w =>
  match m w with
  | (Ret a, w') => k a w'
  | (Raise e, w') => (Raise e, w')
  end.

(** A query that only reads. *)
Definition query {A} (q : Store.store -> A) : M A := fun w => (Ret (q (db w)), w).

(** A query that may fail. *)
Definition query_res {A} (q : Store.store -> res A) : M A := fun w => (q (db w), w).

(** A method that writes and commits; when it raises, its transaction is
    rolled back and the database is unchanged. *)
Definition transaction (t : Store.store -> res Store.store) : M unit := fun w =>
  match t (db w) with
  | Ret st => (Ret (), {| db := st; ml_calls := ml_calls w |})
  | Raise e => (Raise e, w)
  end.

(** An expression that may raise and touches nothing. *)
Definition lift {A} (r : res A) : M A := fun w => (r, w).

(** [try: body  except Exception as e: return {"success": False, "error":
    str(e)}], the frame of every use case's [execute]. *)
Definition failure (message : string) : pydict :=
  [ ("success", JBool false); ("error", JStr message) ].

Definition orchestrate (body : M pydict) : M pydict := fun w =>
  match body w with
  | (Ret r, w') => (Ret r, w')
  | (Raise e, w') => (Ret (failure (str_exn e)), w')
  end.

(** The settings the pipeline reads ([core/config/settings.py]). *)
Record Settings : Type := {
  umap_n_components_cluster : Z;
  umap_n_components_viz : Z
}.

Definition default_settings : Settings :=
  {| umap_n_components_cluster := 5; umap_n_components_viz := 2 |}.

(** What the pipeline calls and the model does not define: the [umap] and
    [hdbscan] libraries, pgvector's cosine distance [<=>], the filename
    labeler of [ClusterDocumentsUseCase] ([_generate_cluster_labels] and
    [_extract_keywords_from_filenames], which no property below depends on),
    the bodies of the two use cases that are not embedded, and
    [untyped_try_block]: what the [try] block of the use case of an action
    does when an argument that the handler read from [data] is not of the
    type that the signature of [execute] declares (how psycopg adapts such
    a parameter and how PostgreSQL types the query are not part of the
    source). *)
Record Env : Type := {
  settings : Settings;
  umap_fit_transform : Z -> list vec -> res (list vec);
  hdbscan_fit_predict : list vec -> res (list Z * list Q);
  cosine_distance : vec -> vec -> Q;
  generate_cluster_labels :
    list string -> list Z -> gmap dict_key string -> gmap Z string;
  extract_keywords_from_filenames :
    list string -> list Z -> Z -> gmap dict_key string -> list string;
  get_clusters_body : option string -> M pydict;
  extract_topics_body : option string -> option Z -> option (list string) -> M pydict;
  untyped_try_block : TCPAction -> pydict -> M pydict
}.

(** [UMAPAdapter(n_components=n).fit_transform(embeddings)]; the
    constructor replaces a zero [n] by the clustering default.  The method
    starts with a log line that reads [embeddings.shape[1]], which raises
    for an array of one axis before the library is called. *)
Definition umap (env : Env) (n_components : Z) (embeddings : Np.ndarray) : M (list vec) :=
  match embeddings with
  | Np.Array1 _ => lift (Raise Np.no_axis_1)
  | Np.Array2 rows =>
    fun w =>
      let n := Py.or_int n_components (umap_n_components_cluster (settings env)) in
      (umap_fit_transform env n rows,
       {| db := db w; ml_calls := ml_calls w ++ [UmapFitTransform n rows] |})
  end.

(** [HDBSCANAdapter().fit(embeddings)] *)
Definition hdbscan (env : Env) (embeddings : list vec) : M (list Z * list Q) :=
  fun w =>
    (hdbscan_fit_predict env embeddings,
     {| db := db w; ml_calls := ml_calls w ++ [HdbscanFit embeddings] |}).

(** ** [ClusterDocumentsUseCase] ([cluster_documents.py]) *)

Module ClusterDocumentsUseCase.
Import Store.

Section WithEnv.
Context (env : Env).

(** The filter of step 1: [if document_ids:] keeps the positions of
    [doc_ids] whose document is in [document_ids]; [None] and the empty
    list keep everything. *)
Definition filter_documents (document_ids : option (list string))
    (doc_ids : list string) (embeddings : Np.ndarray) : list string * Np.ndarray :=
  match document_ids with
  | None | Some [] => (doc_ids, embeddings)
  | Some ids =>
    let indices :=
      map fst (List.filter (fun p => existsb (String.eqb (snd p)) ids)
                 (combine (seq 0 (length doc_ids)) doc_ids)) in
    (omap (nth_error doc_ids) indices, Np.take indices embeddings)
  end.

(** Step 6: the list [cluster_data]. *)
Definition build_cluster_data (stats : HDBSCANAdapter.statistics)
    (cluster_labels : gmap Z string) (centroids : gmap Z vec)
    (doc_ids : list string) (labels : list Z) (metadata : gmap dict_key string)
  : res (list cluster_info) :=
  mapM (M := res) (fun cluster_id =>
    size ← match HDBSCANAdapter.cluster_sizes stats !! cluster_id with
           | Some s => Ret s
           | None => Raise (Exn KeyError (pretty cluster_id))
           end;
    centroid ← match centroids !! cluster_id with
               | Some c => Ret c
               | None => Raise (Exn KeyError (pretty cluster_id))
               end;
    Ret {| ci_cluster_id := cluster_id;
           ci_label := default ("Cluster " +:+ pretty cluster_id)
                         (cluster_labels !! cluster_id);
           ci_size := size;
           ci_keywords := extract_keywords_from_filenames env doc_ids labels
                            cluster_id metadata;
           ci_centroid := centroid |})
    (HDBSCANAdapter.cluster_ids stats).

(** The value of the key ["clusters"] of the result. *)
Definition clusters_json (cluster_data : list cluster_info) : json :=
  JArr (map (fun c => JObj [ ("cluster_id", JInt (ci_cluster_id c));
                             ("label", JStr (ci_label c));
                             ("size", JInt (ci_size c));
                             ("keywords", JArr (map JStr (ci_keywords c))) ])
            cluster_data).

(** Step 7: [save_clusters(user_id, cluster_data,
    delete_existing=force_recluster)], then [save_document_clusters(doc_ids,
    labels, probabilities)]; each of the two commits on its own. *)
Definition persist (user_id : option string) (cluster_data : list cluster_info)
    (doc_ids : list string) (labels : list Z) (probabilities : list Q)
    (force_recluster : bool) : M unit :=
  _ ← transaction (fun st =>
        PersistenceAdapter.save_clusters st user_id cluster_data force_recluster);
  transaction (fun st =>
    PersistenceAdapter.save_document_clusters st doc_ids labels (Some probabilities)).

(** The log line between the filter and step 2, which reads
    [embeddings.shape[1]], and steps 2 to 8 of [execute]. *)
Definition reduce_and_cluster (user_id : option string) (doc_ids : list string)
    (embeddings : Np.ndarray) (force_recluster : bool) : M pydict :=
  _ ← lift (Np.shape_1 embeddings);
  reduced_embeddings ← umap env (umap_n_components_cluster (settings env)) embeddings;
  '(labels, probabilities) ← hdbscan env reduced_embeddings;
  let stats := HDBSCANAdapter.get_cluster_statistics labels in
  centroids ← lift (HDBSCANAdapter.get_cluster_centroids labels reduced_embeddings);
  metadata ← query_res (fun st => PersistenceAdapter.get_document_metadata st doc_ids);
  let cluster_labels := generate_cluster_labels env doc_ids labels metadata in
  cluster_data ← lift (build_cluster_data stats cluster_labels centroids doc_ids
                          labels metadata);
  _ ← persist user_id cluster_data doc_ids labels probabilities force_recluster;
  mret [ ("success", JBool true);
         ("user_id", Protocol.json_of_opt_str user_id);
         ("total_documents", JInt (Z.of_nat (length doc_ids)));
         ("num_clusters", JInt (HDBSCANAdapter.num_clusters stats));
         ("num_outliers", JInt (HDBSCANAdapter.num_outliers stats));
         ("outlier_percentage",
          match HDBSCANAdapter.outlier_percentage stats with
          | Some p => JFloat (Py.round p 2)
          | None => JNan
          end);
         ("clusters", clusters_json cluster_data) ].

(** The two error results of step 1. *)
Definition no_documents (user_id : option string) : pydict :=
  failure ("No se encontraron documentos para user_id=" +:+ Py.fmt_opt user_id).

Definition insufficient_documents (found : nat) : pydict :=
  failure ("Se necesitan al menos 3 documentos para clustering (encontrados: "
           +:+ pretty found +:+ ")").

(** The [try] block of [execute]. *)
Definition try_block (user_id : option string) (document_ids : option (list string))
    (force_recluster : bool) : M pydict :=
  '(doc_ids, embeddings) ←
    query (fun st => PersistenceAdapter.get_embeddings_by_user st user_id);
  if (length doc_ids =? 0)%nat then mret (no_documents user_id)
  else if (length doc_ids <? 3)%nat then mret (insufficient_documents (length doc_ids))
  else
    let '(doc_ids, embeddings) := filter_documents document_ids doc_ids embeddings in
    reduce_and_cluster user_id doc_ids embeddings force_recluster.

(** [ClusterDocumentsUseCase.execute] *)
Definition execute (user_id : option string) (document_ids : option (list string))
    (force_recluster : bool) : M pydict :=
  orchestrate (try_block user_id document_ids force_recluster).

End WithEnv.
End ClusterDocumentsUseCase.

(** ** [RecommendSimilarUseCase] ([recommend_similar.py]) *)

Module RecommendSimilarUseCase.
Import Store.

Section WithEnv.
Context (env : Env).

(** A candidate row of [query_similar]: the document, the joined filename
    and the cosine distance to the base embedding. *)
Record candidate : Type := {
  cand_document : string;
  cand_filename : option string;
  cand_distance : Q
}.

(** The sort key [ORDER BY lpe.document, lpe.embedding <=> %s::vector]. *)
Definition by_document_then_distance (c1 c2 : candidate) : bool :=
  String.ltb (cand_document c1) (cand_document c2)
  || (String.eqb (cand_document c1) (cand_document c2)
      && Qle_bool (cand_distance c1) (cand_distance c2)).

(** The [FROM ... WHERE] part of [query_similar]: the rows of the
    collection with another document, joined through [lpe.document::uuid =
    d.id] with the filename of the document. *)
Definition candidates (st : store) (base_embedding : vec) (collection_id : string)
    (document_id : option string) : res (list candidate) :=
  let lpe_rows :=
    List.filter (fun r => String.eqb (emb_collection_id (snd r)) collection_id
                          && match document_id with
                             | Some d => negb (String.eqb (fst r) d)
                             | None => false
                             end)
      (PersistenceAdapter.with_document (langchain_pg_embedding st)) in
  lpe_d ← Sql.left_join_uuid fst doc_id lpe_rows (documents st);
  Ret (map (fun '(lpe, d) =>
              {| cand_document := fst lpe;
                 cand_filename := doc_filename <$> d;
                 cand_distance :=
                   cosine_distance env (emb_embedding (snd lpe)) base_embedding |})
           lpe_d).

(** [r["filename"] or "Sin nombre"] *)
Definition filename_or_default (f : option string) : string :=
  match f with
  | None | Some "" => "Sin nombre"
  | Some s => s
  end.

(** [_calculate_similarity] *)
Definition _calculate_similarity (st : store) (document_id : option string)
    (top_k : Z) (user_id : option string) : res (list recommendation) :=
  match List.find (fun r => match emb_document r with
                            | Some d => Sql.eq_param d document_id
                            | None => false
                            end) (langchain_pg_embedding st) with
  | None => Ret []
  | Some base_result =>
    let base_embedding := emb_embedding base_result in
    let collection_id := emb_collection_id base_result in
    results ← Sql.limit top_k
                (rows ← candidates st base_embedding collection_id document_id;
                 Ret (Sql.distinct_on cand_document
                        (Sql.order_by by_document_then_distance rows)));
    Ret (map (fun r => {| ri_document_id := cand_document r;
                          ri_filename := filename_or_default (cand_filename r);
                          ri_similarity_score := (1 - cand_distance r)%Q |}) results)
  end.

(** The result of a cache hit. *)
Definition cached_result (document_id : option string)
    (cached_recs : list cached_recommendation) : pydict :=
  [ ("success", JBool true);
    ("document_id", Protocol.json_of_opt_str document_id);
    ("recommendations",
     JArr (map (fun r => JObj [ ("document_id", JStr (cr_document_id r));
                                ("filename", Protocol.json_of_opt_str (cr_filename r));
                                ("similarity_score", JFloat (Py.round (cr_similarity_score r) 4));
                                ("rank", JInt (cr_rank r)) ])
               cached_recs)) ].

(** The result of a computed ranking. *)
Definition computed_result (document_id : option string)
    (recommendations : list recommendation) : pydict :=
  [ ("success", JBool true);
    ("document_id", Protocol.json_of_opt_str document_id);
    ("recommendations",
     JArr (map (fun r => JObj [ ("document_id", JStr (ri_document_id r));
                                ("filename", JStr (ri_filename r));
                                ("similarity_score", JFloat (Py.round (ri_similarity_score r) 4)) ])
               recommendations)) ].

(** The [try] block of [execute]. *)
Definition try_block (document_id : option string) (top_k : Z)
    (user_id : option string) : M pydict :=
  cached_recs ← query_res (fun st =>
                   PersistenceAdapter.get_recommendations st document_id top_k);
  match cached_recs with
  | _ :: _ => mret (cached_result document_id cached_recs)
  | [] =>
    recommendations ← query_res (fun st =>
                         _calculate_similarity st document_id top_k user_id);
    match recommendations with
    | [] => mret (failure "No se encontraron documentos similares")
    | _ :: _ =>
      _ ← transaction (fun st =>
            PersistenceAdapter.save_recommendations st document_id recommendations);
      mret (computed_result document_id recommendations)
    end
  end.

(** [RecommendSimilarUseCase.execute] *)
Definition execute (document_id : option string) (top_k : Z) (user_id : option string)
  : M pydict :=
  orchestrate (try_block document_id top_k user_id).

End WithEnv.
End RecommendSimilarUseCase.

(** ** [UpdateVisualizationUseCase] ([update_visualization.py]) *)

Module UpdateVisualizationUseCase.
Import Store.

Section WithEnv.
Context (env : Env).

(** [_format_response] *)
Definition _format_response (user_id : option string)
    (viz_data : list visualization_point) : pydict :=
  [ ("success", JBool true);
    ("user_id", Protocol.json_of_opt_str user_id);
    ("total_points", JInt (Z.of_nat (length viz_data)));
    ("points",
     JArr (map (fun v => JObj [ ("document_id", JStr (vp_document_id v));
                                ("x", JFloat (vp_x v));
                                ("y", JFloat (vp_y v));
                                ("cluster_id", JInt (vp_cluster_id v));
                                ("cluster_label", Protocol.json_of_opt_str (vp_cluster_label v));
                                ("filename", Protocol.json_of_opt_str (vp_filename v)) ])
               viz_data)) ].

(** Step 3: the cluster number of every document, [-1] where the user has
    no clusters. *)
Definition cluster_labels_for (st : store) (user_id : option string)
    (doc_ids : list string) : list Z :=
  match PersistenceAdapter.get_clusters_by_user st user_id with
  | _ :: _ =>
    let cluster_map := PersistenceAdapter.get_document_cluster_labels st user_id doc_ids in
    map (fun doc => default (-1)%Z (cluster_map !! doc)) doc_ids
  | [] => repeat (-1)%Z (length doc_ids)
  end.

(** Steps 1 to 5: the computation of a new visualization. *)
Definition compute_visualization (user_id : option string) : M pydict :=
  '(doc_ids, embeddings) ←
    query (fun st => PersistenceAdapter.get_embeddings_by_user st user_id);
  if (length doc_ids =? 0)%nat
  then mret (failure ("No se encontraron documentos para user_id=" +:+ Py.fmt_opt user_id))
  else
    coordinates_2d ← umap env (umap_n_components_viz (settings env)) embeddings;
    labels ← query (fun st => cluster_labels_for st user_id doc_ids);
    _ ← transaction (fun st =>
          PersistenceAdapter.save_visualization st user_id doc_ids coordinates_2d labels);
    viz_data ← query_res (fun st => PersistenceAdapter.get_visualization st user_id);
    mret (_format_response user_id viz_data).

(** The [try] block of [execute]. *)
Definition try_block (user_id : option string) (force_update : bool) : M pydict :=
  if force_update then compute_visualization user_id
  else
    existing_viz ← query_res (fun st => PersistenceAdapter.get_visualization st user_id);
    match existing_viz with
    | _ :: _ => mret (_format_response user_id existing_viz)
    | [] => compute_visualization user_id
    end.

(** [UpdateVisualizationUseCase.execute] *)
Definition execute (user_id : option string) (force_update : bool) : M pydict :=
  orchestrate (try_block user_id force_update).

End WithEnv.
End UpdateVisualizationUseCase.

(** ** The use cases that are not embedded *)

Module GetClustersUseCase.
(** [GetClustersUseCase.execute]: the [try]/[except] frame around a body
    left to the environment. *)
Definition try_block (env : Env) (user_id : option string) : M pydict :=
  get_clusters_body env user_id.

Definition execute (env : Env) (user_id : option string) : M pydict :=
  orchestrate (try_block env user_id).
End GetClustersUseCase.

Module ExtractTopicsUseCase.
(** [ExtractTopicsUseCase.execute]: the [try]/[except] frame around a body
    left to the environment. *)
Definition try_block (env : Env) (user_id : option string) (num_topics : option Z)
    (document_ids : option (list string)) : M pydict :=
  extract_topics_body env user_id num_topics document_ids.

Definition execute (env : Env) (user_id : option string) (num_topics : option Z)
    (document_ids : option (list string)) : M pydict :=
  orchestrate (try_block env user_id num_topics document_ids).
End ExtractTopicsUseCase.

(** ** Handlers ([core/tcp/handlers.py]) *)

(** A registered handler: [async def handler(data) -> dict]. *)
Definition handler : Type := pydict -> M pydict.

Module Handlers.

(** A handler passes the values [data.get(key)] to [execute] as they are:
    nothing checks them against the signature of [execute].  The functions
    below read such a value at the type that the signature declares for the
    parameter, and return [None] for a value of another type. *)

(** [data.get(key)] for a parameter declared [str]; an absent key and
    [null] give [None]. *)
Definition get_str (key : string) (data : pydict) : option (option string) :=
  match dict_get key data with
  | None | Some JNull => Some None
  | Some (JStr s) => Some (Some s)
  | Some _ => None
  end.

(** [data.get(key, False)] for a parameter declared [bool], of which
    [execute] only tests the truth; [None] is falsy too. *)
Definition get_bool (key : string) (data : pydict) : option bool :=
  match dict_get key data with
  | None | Some JNull => Some false
  | Some (JBool b) => Some b
  | Some _ => None
  end.

(** [data.get(key)] for a parameter declared [Optional[int]]. *)
Definition get_int (key : string) (data : pydict) : option (option Z) :=
  match dict_get key data with
  | None | Some JNull => Some None
  | Some (JInt n) => Some (Some n)
  | Some _ => None
  end.

(** [data.get(key, default)] for a parameter declared [int]. *)
Definition get_int_default (key : string) (default : Z) (data : pydict) : option Z :=
  match dict_get key data with
  | None => Some default
  | Some (JInt n) => Some n
  | Some _ => None
  end.

(** [data.get(key)] for a parameter declared [Optional[List[str]]]. *)
Definition get_str_list (key : string) (data : pydict) : option (option (list string)) :=
  match dict_get key data with
  | None | Some JNull => Some None
  | Some (JArr items) =>
    Some <$> mapM (M := option) (fun x => match x with
                                          | JStr s => Some s
                                          | _ => None
                                          end) items
  | Some _ => None
  end.

Section WithEnv.
Context (env : Env).

(** [handle_cluster_documents]: [use_case.execute(user_id=data.get("user_id"),
    document_ids=data.get("document_ids"),
    force_recluster=data.get("force_recluster", False))] *)
Definition handle_cluster_documents : handler := fun data =>
  match get_str "user_id" data, get_str_list "document_ids" data,
        get_bool "force_recluster" data with
  | Some user_id, Some document_ids, Some force_recluster =>
    ClusterDocumentsUseCase.execute env user_id document_ids force_recluster
  | _, _, _ => orchestrate (untyped_try_block env CLUSTER_DOCUMENTS data)
  end.

(** [handle_get_clusters] *)
Definition handle_get_clusters : handler := fun data =>
  match get_str "user_id" data with
  | Some user_id => GetClustersUseCase.execute env user_id
  | None => orchestrate (untyped_try_block env GET_CLUSTERS data)
  end.

(** [handle_extract_topics] *)
Definition handle_extract_topics : handler := fun data =>
  match get_str "user_id" data, get_int "num_topics" data,
        get_str_list "document_ids" data with
  | Some user_id, Some num_topics, Some document_ids =>
    ExtractTopicsUseCase.execute env user_id num_topics document_ids
  | _, _, _ => orchestrate (untyped_try_block env EXTRACT_TOPICS data)
  end.

(** [handle_recommend_similar]: [top_k=data.get("top_k", 5)] *)
Definition handle_recommend_similar : handler := fun data =>
  match get_str "document_id" data, get_int_default "top_k" 5 data,
        get_str "user_id" data with
  | Some document_id, Some top_k, Some user_id =>
    RecommendSimilarUseCase.execute env document_id top_k user_id
  | _, _, _ => orchestrate (untyped_try_block env RECOMMEND_SIMILAR data)
  end.

(** [handle_update_visualization] *)
Definition handle_update_visualization : handler := fun data =>
  match get_str "user_id" data, get_bool "force_update" data with
  | Some user_id, Some force_update =>
    UpdateVisualizationUseCase.execute env user_id force_update
  | _, _ => orchestrate (untyped_try_block env UPDATE_VISUALIZATION data)
  end.

(** [handle_get_visualization]: [use_case.execute(user_id=data.get("user_id"),
    force_update=False)] of the use case of [update_visualization]. *)
Definition handle_get_visualization : handler := fun data =>
  match get_str "user_id" data with
  | Some user_id => UpdateVisualizationUseCase.execute env user_id false
  | None => orchestrate (untyped_try_block env GET_VISUALIZATION data)
  end.

(** [handle_analyze_trends]: the use case is not implemented. *)
Definition handle_analyze_trends : handler := fun data =>
  mret [ ("success", JBool false);
         ("error", JStr "Análisis temporal no implementado aún") ].

(** The [try] block of the use case that the handler of [action] runs on
    [data], for the six handlers that call a use case: the block of the
    use case at the arguments read from [data] when they are of the
    declared types, and what the environment makes of the block
    otherwise. *)
Definition use_case_try_block (action : TCPAction) (data : pydict) : option (M pydict) :=
  match action with
  | CLUSTER_DOCUMENTS =>
    Some match get_str "user_id" data, get_str_list "document_ids" data,
               get_bool "force_recluster" data with
         | Some user_id, Some document_ids, Some force_recluster =>
           ClusterDocumentsUseCase.try_block env user_id document_ids force_recluster
         | _, _, _ => untyped_try_block env action data
         end
  | GET_CLUSTERS =>
    Some match get_str "user_id" data with
         | Some user_id => GetClustersUseCase.try_block env user_id
         | None => untyped_try_block env action data
         end
  | EXTRACT_TOPICS =>
    Some match get_str "user_id" data, get_int "num_topics" data,
               get_str_list "document_ids" data with
         | Some user_id, Some num_topics, Some document_ids =>
           ExtractTopicsUseCase.try_block env user_id num_topics document_ids
         | _, _, _ => untyped_try_block env action data
         end
  | RECOMMEND_SIMILAR =>
    Some match get_str "document_id" data, get_int_default "top_k" 5 data,
               get_str "user_id" data with
         | Some document_id, Some top_k, Some user_id =>
           RecommendSimilarUseCase.try_block env document_id top_k user_id
         | _, _, _ => untyped_try_block env action data
         end
  | UPDATE_VISUALIZATION =>
    Some match get_str "user_id" data, get_bool "force_update" data with
         | Some user_id, Some force_update =>
           UpdateVisualizationUseCase.try_block env user_id force_update
         | _, _ => untyped_try_block env action data
         end
  | GET_VISUALIZATION =>
    Some match get_str "user_id" data with
         | Some user_id => UpdateVisualizationUseCase.try_block env user_id false
         | None => untyped_try_block env action data
         end
  | _ => None
  end.

End WithEnv.
End Handlers.

(** ** The server ([core/tcp/server.py]) *)

Definition action_index (a : TCPAction) : nat :=
  match a with
  | CLUSTER_DOCUMENTS => 0 | UPDATE_CLUSTERS => 1 | GET_CLUSTERS => 2
  | GET_CLUSTER_DETAILS => 3 | EXTRACT_TOPICS => 4 | UPDATE_TOPICS => 5
  | GET_TOPICS => 6 | GET_TOPIC_TRENDS => 7 | RECOMMEND_SIMILAR => 8
  | GET_RECOMMENDATIONS => 9 | UPDATE_VISUALIZATION => 10 | GET_VISUALIZATION => 11
  | ANALYZE_TRENDS => 12 | GET_TEMPORAL_PATTERNS => 13 | PING => 14 | STATUS => 15
  end.

#[global] Program Instance TCPAction_countable : Countable TCPAction :=
  inj_countable' action_index (fun i => default PING (nth_error all_actions i)) _.
Next Obligation. by intros []. Qed.

Module TCPServer.

(** [class TCPServer]: of its fields the model keeps the dict [handlers]. *)
Record t : Type := { handlers : gmap TCPAction handler }.

(** [TCPServer(host, port)] *)
Definition new : t := {| handlers := ∅ |}.

(** [register_handler] *)
Definition register_handler (server : t) (action : TCPAction) (h : handler) : t :=
  {| handlers := <[action := h]> (handlers server) |}.

(** [handle_ping] *)
Definition handle_ping : handler := fun data =>
  mret [ ("message", JStr "pong"); ("status", JStr "healthy") ].

(** [handle_status] *)
Definition handle_status : handler := fun data =>
  mret [ ("service", JStr "services_ML");
         ("version", JStr "1.0.0");
         ("status", JStr "running");
         ("features", JArr [ JStr "clustering"; JStr "topic_modeling";
                             JStr "recommendations"; JStr "visualization";
                             JStr "temporal_analysis" ]) ].

(** [create_tcp_server] *)
Definition create_tcp_server : t :=
  register_handler (register_handler new PING handle_ping) STATUS handle_status.

(** [register_tcp_handlers] of [handlers.py] *)
Definition register_tcp_handlers (env : Env) (tcp_server : t) : t :=
  let s := register_handler tcp_server CLUSTER_DOCUMENTS (Handlers.handle_cluster_documents env) in
  let s := register_handler s GET_CLUSTERS (Handlers.handle_get_clusters env) in
  let s := register_handler s EXTRACT_TOPICS (Handlers.handle_extract_topics env) in
  let s := register_handler s RECOMMEND_SIMILAR (Handlers.handle_recommend_similar env) in
  let s := register_handler s UPDATE_VISUALIZATION (Handlers.handle_update_visualization env) in
  let s := register_handler s GET_VISUALIZATION (Handlers.handle_get_visualization env) in
  register_handler s ANALYZE_TRENDS Handlers.handle_analyze_trends.

(** The server that [main.py] starts. *)
Definition main_server (env : Env) : t := register_tcp_handlers env create_tcp_server.

(** [process_request]: it returns a response on every path. *)
Definition process_request (server : t) (request : TCPRequest)
  : world -> TCPResponse * world := fun w =>
  match (handlers server !! action request : option handler) with
  | None =>
    (create_error ("Acción no soportada: " +:+ action_value (action request))
       (request_id request), w)
  | Some h =>
    match h (data request) w with
    | (Ret result, w') => (success result (request_id request), w')
    | (Raise e, w') => (create_error (str_exn e) (request_id request), w')
    end
  end.

(** [await reader.readexactly(n)] on the bytes that the peer sends before
    it closes: the first [n] bytes and the rest, or [IncompleteReadError]. *)
Definition readexactly (n : N) (stream : list byte) : res (list byte * list byte) :=
  if (Wire.len stream <? n)%N
  then Raise (Exn IncompleteReadError "bytes read on a total of expected bytes")
  else Ret (firstn (N.to_nat n) stream, skipn (N.to_nat n) stream).

(** The two reads at the head of [handle_client]: the 4 length bytes, then
    as many bytes as they declare; [full_message] is their concatenation. *)
Definition read_message (stream : list byte) : res (list byte) :=
  '(length_bytes, rest) ← readexactly 4 stream;
  let message_length := Wire.int_from_bytes length_bytes in
  '(message_bytes, _) ← readexactly message_length rest;
  Ret (length_bytes ++ message_bytes).

Section WithRuntime.
Context (rt : PyRuntime).

(** [writer.write(encode_message(response))] inside an [except] clause: an
    exception raised here leaves the connection without a response. *)
Definition write_error (response : TCPResponse) : list byte :=
  match Protocol.encode_message rt (Resp response) with
  | Ret response_bytes => response_bytes
  | Raise _ => []
  end.

(** The [try] block of [handle_client]: the bytes written, or the exception
    that leaves the block. *)
Definition serve (server : t) (stream : list byte) (w : world)
  : res (list byte) * world :=
  match read_message stream with
  | Raise e => (Raise e, w)
  | Ret full_message =>
    match Protocol.decode_message rt full_message with
    | Raise e => (Raise e, w)
    | Ret (Resp _) =>
      (Raise (Exn ValueError "Mensaje recibido no es una solicitud válida"), w)
    | Ret (Req request) =>
      let '(response, w') := process_request server request w in
      (Protocol.encode_message rt (Resp response), w')
    end
  end.

(** [handle_client]: the bytes written to the connection before it is
    closed, and the world afterwards. *)
Definition handle_client (server : t) (stream : list byte) (w : world)
  : list byte * world :=
  match serve server stream w with
  | (Ret response_bytes, w') => (response_bytes, w')
  | (Raise e, w') =>
    match exn_cls e with
    | IncompleteReadError =>
      (write_error (create_error "Conexión cerrada inesperadamente" None), w')
    | _ =>
      (write_error (create_error ("Error del servidor: " +:+ str_exn e) None), w')
    end
  end.

End WithRuntime.
End TCPServer.

(** ** A reference runtime

    An executable stand-in for the libraries, used to run the model on
    concrete requests: a compact JSON printer and a JSON parser for the
    output of that printer (no exponents, no [\u] escapes), and small
    deterministic stand-ins for the ML libraries. *)

Module Reference.

Definition dquote : ascii := ascii_of_nat 34.
Definition backslash : ascii := ascii_of_nat 92.

Definition char (c : ascii) : string := String c "".

(** A string literal: the quote and the backslash are escaped. *)
Fixpoint escape (s : string) : string :=
  match s with
  | "" => ""
  | String c rest =>
    if Ascii.eqb c dquote || Ascii.eqb c backslash
    then String backslash (String c (escape rest))
    else String c (escape rest)
  end.

Definition quote (s : string) : string := char dquote +:+ escape s +:+ char dquote.

(** The decimals of [num / den], for [0 <= num < den]: at most [fuel] of
    them, and none after the last one that is not zero. *)
Fixpoint decimals (fuel : nat) (num den : Z) : string :=
  match fuel with
  | O => ""
  | S fuel =>
    if (num =? 0)%Z then ""
    else
      let digit := (num * 10 / den)%Z in
      pretty digit +:+ decimals fuel (num * 10 - digit * den)%Z den
  end.

(** A float in positional notation, with the decimals it needs and at
    least one: [1.0], [0.5], [0.1234].  A value with more than 17 decimals
    is cut after the 17th. *)
Definition print_float (q : Q) : string :=
  let num := Z.abs (Qnum q) in
  let den := Zpos (Qden q) in
  let fraction := decimals 17 (num mod den)%Z den in
  (if Qle_bool 0 q then "" else "-")
  +:+ pretty (num / den)%Z +:+ "."
  +:+ (if String.eqb fraction "" then "0" else fraction).

(** The printer: pydantic prints a float that is not a number as [null]. *)
Fixpoint print (j : json) : string :=
  match j with
  | JNull => "null"
  | JBool true => "true"
  | JBool false => "false"
  | JInt n => pretty n
  | JFloat q => print_float q
  | JNan => "null"
  | JStr s => quote s
  | JArr items => "[" +:+ String.concat "," (map print items) +:+ "]"
  | JObj fields =>
    "{" +:+ String.concat ","
              (map (fun kv => quote (fst kv) +:+ ":" +:+ print (snd kv)) fields)
    +:+ "}"
  end.

Definition is_ws (c : ascii) : bool :=
  Ascii.eqb c " "%char || Ascii.eqb c (ascii_of_nat 10)
  || Ascii.eqb c (ascii_of_nat 13) || Ascii.eqb c (ascii_of_nat 9).

Fixpoint skip_ws (s : string) : string :=
  match s with
  | String c rest => if is_ws c then skip_ws rest else s
  | "" => ""
  end.

Definition digit_of (c : ascii) : option Z :=
  let n := nat_of_ascii c in
  if (48 <=? n)%nat && (n <=? 57)%nat then Some (Z.of_nat (n - 48)) else None.

(** The digits at the head of [s]: their value, their number, the rest. *)
Fixpoint parse_digits (s : string) (acc : Z) (count : nat) : Z * nat * string :=
  match s with
  | String c rest =>
    match digit_of c with
    | Some d => parse_digits rest (acc * 10 + d)%Z (S count)
    | None => (acc, count, s)
    end
  | "" => (acc, count, s)
  end.

(** An unsigned number: an integer, or a decimal fraction. *)
Definition parse_number (s : string) : option (json * string) :=
  match parse_digits s 0 0 with
  | (_, O, _) => None
  | (n, _, String "." rest) =>
    match parse_digits rest 0 0 with
    | (_, O, _) => None
    | (f, k, rest') =>
      Some (JFloat (Qmake (n * 10 ^ Z.of_nat k + f) (Z.to_pos (10 ^ Z.of_nat k))), rest')
    end
  | (n, _, rest) => Some (JInt n, rest)
  end.

Definition negate (j : json) : json :=
  match j with
  | JInt n => JInt (- n)
  | JFloat q => JFloat (- q)
  | _ => j
  end.

(** The characters of a string literal after its opening quote. *)
Fixpoint parse_chars (s : string) (acc : list ascii) : option (string * string) :=
  match s with
  | "" => None
  | String c rest =>
    if Ascii.eqb c dquote then Some (string_of_list_ascii (rev acc), rest)
    else if Ascii.eqb c backslash then
      match rest with
      | String e rest' =>
        if Ascii.eqb e dquote || Ascii.eqb e backslash || Ascii.eqb e "/"%char
        then parse_chars rest' (e :: acc)
        else if Ascii.eqb e "n"%char then parse_chars rest' (ascii_of_nat 10 :: acc)
        else if Ascii.eqb e "t"%char then parse_chars rest' (ascii_of_nat 9 :: acc)
        else if Ascii.eqb e "r"%char then parse_chars rest' (ascii_of_nat 13 :: acc)
        else None
      | "" => None
      end
    else parse_chars rest (c :: acc)
  end.

(** [d[key] = value] *)
Fixpoint dict_set (key : string) (value : json) (d : pydict) : pydict :=
  match d with
  | [] => [(key, value)]
  | (k, v) :: rest =>
    if String.eqb k key then (k, value) :: rest else (k, v) :: dict_set key value rest
  end.

Definition literal (word : string) (value : json) (s : string) : option (json * string) :=
  if String.prefix word s
  then Some (value, String.substring (String.length word)
                      (String.length s - String.length word) s)
  else None.

Fixpoint parse_value (fuel : nat) (s : string) : option (json * string) :=
  match fuel with
  | O => None
  | S fuel =>
    match skip_ws s with
    | "" => None
    | String c rest =>
      if Ascii.eqb c "{"%char then
        match skip_ws rest with
        | String "}" rest' => Some (JObj [], rest')
        | _ => '(fields, rest') ← parse_members fuel rest []; Some (JObj fields, rest')
        end
      else if Ascii.eqb c "["%char then
        match skip_ws rest with
        | String "]" rest' => Some (JArr [], rest')
        | _ => '(items, rest') ← parse_elements fuel rest; Some (JArr items, rest')
        end
      else if Ascii.eqb c dquote then
        '(str, rest') ← parse_chars rest []; Some (JStr str, rest')
      else if Ascii.eqb c "-"%char then
        '(num, rest') ← parse_number rest; Some (negate num, rest')
      else if Ascii.eqb c "t"%char then literal "true" (JBool true) (String c rest)
      else if Ascii.eqb c "f"%char then literal "false" (JBool false) (String c rest)
      else if Ascii.eqb c "n"%char then literal "null" JNull (String c rest)
      else if Ascii.eqb c "N"%char then literal "NaN" JNan (String c rest)
      else parse_number (String c rest)
    end
  end
with parse_elements (fuel : nat) (s : string) : option (list json * string) :=
  match fuel with
  | O => None
  | S fuel =>
    '(item, rest) ← parse_value fuel s;
    match skip_ws rest with
    | String "," rest' => '(items, rest'') ← parse_elements fuel rest'; Some (item :: items, rest'')
    | String "]" rest' => Some ([item], rest')
    | _ => None
    end
  end
with parse_members (fuel : nat) (s : string) (acc : pydict) : option (pydict * string) :=
  match fuel with
  | O => None
  | S fuel =>
    match skip_ws s with
    | String c rest =>
      if Ascii.eqb c dquote then
        '(key, rest1) ← parse_chars rest [];
        match skip_ws rest1 with
        | String ":" rest2 =>
          '(value, rest3) ← parse_value fuel rest2;
          let acc := dict_set key value acc in
          match skip_ws rest3 with
          | String "," rest4 => parse_members fuel rest4 acc
          | String "}" rest4 => Some (acc, rest4)
          | _ => None
          end
        | _ => None
        end
      else None
    | "" => None
    end
  end.

(** [json.loads] *)
Definition loads (s : string) : res json :=
  match parse_value (2 * String.length s + 2) s with
  | Some (j, rest) =>
    match skip_ws rest with
    | "" => Ret j
    | _ => Raise (Exn JSONDecodeError "Extra data")
    end
  | None => Raise (Exn JSONDecodeError "Expecting value")
  end.

Definition runtime : PyRuntime :=
  {| json_dumps := print;
     json_loads := loads;
     validation_error_text := fun model _ => "1 validation error for " +:+ model |}.

(** The framed bytes that a client sends for a JSON text, as
    [MLTCPClient.send_request] builds them. *)
Definition frame (json_str : string) : list byte :=
  let json_bytes := Utf8.encode json_str in
  match Wire.int_to_bytes4 (Wire.len json_bytes) with
  | Ret length_bytes => length_bytes ++ json_bytes
  | Raise _ => []
  end.

(** Stand-ins for the ML libraries: UMAP keeps the first [n_components]
    coordinates, HDBSCAN puts every point in cluster 0 with probability 1,
    and the cosine distance is [1 - a.b], which is exact on vectors of norm
    1. *)
Definition dot (a b : vec) : Q :=
  fold_left Qplus (map (fun p => (fst p * snd p)%Q) (combine a b)) 0%Q.

Definition env : Env :=
  {| settings := default_settings;
     umap_fit_transform := fun n embeddings => Ret (map (firstn (Z.to_nat n)) embeddings);
     hdbscan_fit_predict := fun points =>
       Ret (map (fun _ => 0%Z) points, map (fun _ => 1%Q) points);
     cosine_distance := fun a b => (1 - dot a b)%Q;
     generate_cluster_labels := fun _ _ _ => ∅;
     extract_keywords_from_filenames := fun _ _ _ _ => [];
     get_clusters_body := fun _ => mret [ ("success", JBool true) ];
     extract_topics_body := fun _ _ _ => mret [ ("success", JBool true) ];
     untyped_try_block := fun _ _ =>
       lift (Raise (Exn DatabaseError "cannot adapt the parameter")) |}.

Definition empty_store : Store.store :=
  {| Store.langchain_pg_collection := [];
     Store.langchain_pg_embedding := [];
     Store.documents := [];
     Store.ml_clusters := [];
     Store.ml_clusters_seq := 1;
     Store.ml_document_clusters := [];
     Store.ml_visualizations := [];
     Store.ml_recommendations := [] |}.

Definition world_of (st : Store.store) : world := {| db := st; ml_calls := [] |}.

End Reference.

(** ** Views of the store, used to state what a run leaves behind *)

Module Views.
Import Store.


(** The rows of [ml_clusters] of an owner, in storage order. *)
Definition owner_rows (st : store) (user_id : string) : list cluster_row :=
  List.filter (fun r => String.eqb (cl_user_id r) user_id) (ml_clusters st).


(** The row of [ml_clusters] with the key [(user_id, cluster_id)]. *)
Definition find_row (rows : list cluster_row) (user_id : string) (cluster_id : Z)
  : option cluster_row :=
  List.find (fun r => String.eqb (cl_user_id r) user_id
                      && (cl_cluster_id r =? cluster_id)%Z) rows.





(** The order of two candidate rows of [query_similar] by document id. *)
Definition before (c1 c2 : RecommendSimilarUseCase.candidate) : Prop :=
  String.ltb (RecommendSimilarUseCase.cand_document c1)
             (RecommendSimilarUseCase.cand_document c2) = true.

(** The assignment row of a document. *)
Definition find_assignment (st : store) (document_id : string)
  : option document_cluster_row :=
  List.find (fun a => String.eqb (dc_document_id a) document_id)
    (ml_document_clusters st).

End Views.

(** ** Example data *)

Module Examples.
Import Store.

(** A request with a non-ASCII payload. *)
Definition sample_request : message :=
  Req (mkRequest CLUSTER_DOCUMENTS
         [ ("user_id", JStr "alice");
           ("document_ids", JArr [ JStr "d1"; JStr "canción.pdf" ]);
           ("force_recluster", JBool true);
           ("empty", JObj []) ]
         (Some "req-1")).

(** A buffer that declares 5 payload bytes and holds 1. *)
Definition truncated_buffer : list byte := [ x00; x00; x00; x05; x7b ].

(** A framed request whose action is not a member of [TCPAction]. *)
Definition unknown_action_text : string :=
  Reference.print (JObj [ ("action", JStr "does_not_exist"); ("data", JObj []) ]).

Definition unknown_action_stream : list byte := Reference.frame unknown_action_text.

(** A framed request whose action is a member without a handler. *)
Definition unregistered_request : TCPRequest :=
  mkRequest UPDATE_CLUSTERS [] (Some "req-7").

Definition unregistered_stream : list byte :=
  Reference.frame (Protocol.to_json Reference.runtime (Req unregistered_request)).

(** Document ids: the texts of [uuid] values, as [documents.id] holds
    them. *)
Definition d1 : string := "00000000-0000-0000-0000-0000000000d1".
Definition d2 : string := "00000000-0000-0000-0000-0000000000d2".
Definition d3 : string := "00000000-0000-0000-0000-0000000000d3".

(** Three documents of one user, with embeddings of norm 1. *)
Definition alice_store : store :=
  {| langchain_pg_collection := [ {| col_uuid := "c-alice"; col_name := "alice" |} ];
     langchain_pg_embedding :=
       [ {| emb_id := "e1"; emb_collection_id := "c-alice";
            emb_document := Some d1; emb_embedding := [1; 0; 0]%Q |};
         {| emb_id := "e2"; emb_collection_id := "c-alice";
            emb_document := Some d2; emb_embedding := [0; 1; 0]%Q |};
         {| emb_id := "e3"; emb_collection_id := "c-alice";
            emb_document := Some d3; emb_embedding := [0; 0; 1]%Q |} ];
     documents :=
       [ {| doc_id := 209%N; doc_filename := "algebra_1.pdf" |};
         {| doc_id := 210%N; doc_filename := "algebra_2.pdf" |};
         {| doc_id := 211%N; doc_filename := "historia.pdf" |} ];
     ml_clusters := [];
     ml_clusters_seq := 1;
     ml_document_clusters := [];
     ml_visualizations := [];
     ml_recommendations := [] |}.

(** Two documents of one user. *)
Definition two_docs_store : store :=
  {| langchain_pg_collection := [ {| col_uuid := "c-bob"; col_name := "bob" |} ];
     langchain_pg_embedding :=
       [ {| emb_id := "e1"; emb_collection_id := "c-bob";
            emb_document := Some "b1"; emb_embedding := [1; 0; 0]%Q |};
         {| emb_id := "e2"; emb_collection_id := "c-bob";
            emb_document := Some "b2"; emb_embedding := [0; 1; 0]%Q |} ];
     documents := [];
     ml_clusters := [];
     ml_clusters_seq := 1;
     ml_document_clusters := [];
     ml_visualizations := [];
     ml_recommendations := [] |}.



(** Two owners who have both clustered before: each has a cluster 0. *)
Definition shared_store : store :=
  set_ml_clusters
    [ {| cl_id := 1; cl_user_id := "alice"; cl_cluster_id := 0; cl_label := "Algebra";
         cl_size := 3; cl_keywords := [ "algebra" ]; cl_centroid := [1; 0; 0]%Q |};
      {| cl_id := 2; cl_user_id := "bob"; cl_cluster_id := 0; cl_label := "Fisica";
         cl_size := 4; cl_keywords := [ "fisica" ]; cl_centroid := [0; 1; 0]%Q |} ]
    3 alice_store.

(** A collection of three documents: [doc_b] has the embedding of the base
    document [doc_0], [doc_a] is orthogonal to it. *)
Definition doc_0 : string := "00000000-0000-0000-0000-000000000000".
Definition doc_a : string := "00000000-0000-0000-0000-00000000000a".
Definition doc_b : string := "00000000-0000-0000-0000-00000000000b".

Definition doc_c : string := "00000000-0000-0000-0000-00000000000c".

Definition library_store : store :=
  {| langchain_pg_collection := [ {| col_uuid := "c-1"; col_name := "carol" |} ];
     langchain_pg_embedding :=
       [ {| emb_id := "e0"; emb_collection_id := "c-1";
            emb_document := Some doc_0; emb_embedding := [1; 0]%Q |};
         {| emb_id := "e1"; emb_collection_id := "c-1";
            emb_document := Some doc_b; emb_embedding := [1; 0]%Q |};
         {| emb_id := "e2"; emb_collection_id := "c-1";
            emb_document := Some doc_a; emb_embedding := [0; 1]%Q |} ];
     documents :=
       [ {| doc_id := 0%N; doc_filename := "base.pdf" |};
         {| doc_id := 10%N; doc_filename := "otro.pdf" |};
         {| doc_id := 11%N; doc_filename := "copia.pdf" |} ];
     ml_clusters := [];
     ml_clusters_seq := 1;
     ml_document_clusters := [];
     ml_visualizations := [];
     ml_recommendations := [] |}.



Definition cluster_alice : TCPRequest :=
  mkRequest CLUSTER_DOCUMENTS [ ("user_id", JStr "alice") ] (Some "req-2").

End Examples.

(** ** The request builders ([core/tcp/protocol.py]) *)

Module RequestBuilders.

(** An [Optional[List[str]]] and an [Optional[int]] field in a dumped
    model. *)
Definition json_of_opt_str_list (o : option (list string)) : json :=
  match o with
  | Some l => JArr (map JStr l)
  | None => JNull
  end.

Definition json_of_opt_int (o : option Z) : json :=
  match o with
  | Some n => JInt n
  | None => JNull
  end.

(** [ClusterDocumentsRequest(...).model_dump()]: one item per declared
    field, in declaration order. *)
Definition cluster_documents_data (user_id : string)
    (document_ids : option (list string)) (force_recluster : bool) : pydict :=
  [ ("user_id", JStr user_id);
    ("document_ids", json_of_opt_str_list document_ids);
    ("force_recluster", JBool force_recluster) ].

(** [create_cluster_request] *)
Definition create_cluster_request (user_id : string)
    (document_ids : option (list string)) (force_recluster : bool) : TCPRequest :=
  mkRequest CLUSTER_DOCUMENTS
    (cluster_documents_data user_id document_ids force_recluster) None.

(** [ExtractTopicsRequest(...).model_dump()] *)
Definition extract_topics_data (user_id : string) (num_topics : option Z)
    (document_ids : option (list string)) : pydict :=
  [ ("user_id", JStr user_id);
    ("num_topics", json_of_opt_int num_topics);
    ("document_ids", json_of_opt_str_list document_ids) ].

(** [create_topics_request] *)
Definition create_topics_request (user_id : string) (num_topics : option Z)
    (document_ids : option (list string)) : TCPRequest :=
  mkRequest EXTRACT_TOPICS (extract_topics_data user_id num_topics document_ids) None.

(** [RecommendSimilarRequest(...).model_dump()] *)
Definition recommend_similar_data (document_id : string) (top_k : Z)
    (user_id : option string) : pydict :=
  [ ("document_id", JStr document_id);
    ("top_k", JInt top_k);
    ("user_id", Protocol.json_of_opt_str user_id) ].

(** [create_recommendation_request] *)
Definition create_recommendation_request (document_id : string) (top_k : Z)
    (user_id : option string) : TCPRequest :=
  mkRequest RECOMMEND_SIMILAR (recommend_similar_data document_id top_k user_id) None.

End RequestBuilders.

(** ** The client of [services_LLM] ([shared/ml_client/tcp_client.py]) *)

Module MLTCPClient.

(** The library functions of the client process: [json.dumps],
    [json.loads], and [repr] of a value that is neither a string nor
    [None]. *)
Record ClientRuntime : Type := {
  dumps : json -> string;
  loads : string -> res json;
  repr : json -> string
}.

(** How a call of [send_request] ends, once the connection is open and the
    peer answers in time: with a value, with an exception of the classes of
    [exn_class], or with the [AttributeError] of [response.get] on a
    response that is not a JSON object. *)
Inductive outcome (A : Type) : Type :=
  | Returns (a : A)
  | Raises (e : exn)
  | RaisesAttributeError.
Arguments Returns {A} a.
Arguments Raises {A} e.
Arguments RaisesAttributeError {A}.

Section WithRuntime.
Context (crt : ClientRuntime).

(** [f"{x}"] for a value that [json.loads] returned. *)
Definition format_value (x : json) : string :=
  match x with
  | JStr s => s
  | JNull => "None"
  | _ => repr crt x
  end.

(** [response.get("status") == "error"] *)
Definition is_error (response : pydict) : bool :=
  match dict_get "status" response with
  | Some (JStr s) => String.eqb s "error"
  | _ => false
  end.

(** The second half of [send_request]: the two reads of the response, its
    decoding and the check of its status, on the bytes that the peer wrote
    before closing. *)
Definition receive (stream : list byte) : outcome json :=
  match TCPServer.readexactly 4 stream with
  | Raise e => Raises e
  | Ret (response_length_bytes, rest) =>
    let response_length := Wire.int_from_bytes response_length_bytes in
    match TCPServer.readexactly response_length rest with
    | Raise e => Raises e
    | Ret (response_bytes, _) =>
      match Utf8.decode response_bytes with
      | Raise e => Raises e
      | Ret response_str =>
        match loads crt response_str with
        | Raise e => Raises e
        | Ret (JObj response) =>
          if is_error response
          then Raises (Exn ValueError
                         ("Error del servidor ML: "
                          +:+ format_value (default JNull (dict_get "error" response))))
          else Returns (default (JObj []) (dict_get "result" response))
        | Ret _ => RaisesAttributeError
        end
      end
    end
  end.

(** [send_request]: [peer] is what the process at the other end of the
    connection does with the bytes it is sent. *)
Definition send_request (peer : list byte -> world -> list byte * world)
    (action : string) (data : pydict) : world -> outcome json * world := fun w =>
  let request := JObj [ ("action", JStr action); ("data", JObj data) ] in
  let json_str := dumps crt request in
  let json_bytes := Utf8.encode json_str in
  let length := Wire.len json_bytes in
  match Wire.int_to_bytes4 length with
  | Raise e => (Raises e, w)
  | Ret length_bytes =>
    let message := length_bytes ++ json_bytes in
    let '(stream, w') := peer message w in
    (receive stream, w')
  end.

(** The convenience methods. *)
Definition cluster_documents (peer : list byte -> world -> list byte * world)
    (user_id : string) (document_ids : option (list string)) (force_recluster : bool)
  : world -> outcome json * world :=
  send_request peer "cluster_documents"
    [ ("user_id", JStr user_id);
      ("document_ids", RequestBuilders.json_of_opt_str_list document_ids);
      ("force_recluster", JBool force_recluster) ].

Definition extract_topics (peer : list byte -> world -> list byte * world)
    (user_id : string) (num_topics : option Z) (document_ids : option (list string))
  : world -> outcome json * world :=
  send_request peer "extract_topics"
    [ ("user_id", JStr user_id);
      ("num_topics", RequestBuilders.json_of_opt_int num_topics);
      ("document_ids", RequestBuilders.json_of_opt_str_list document_ids) ].

Definition recommend_similar (peer : list byte -> world -> list byte * world)
    (document_id : string) (top_k : Z) (user_id : option string)
  : world -> outcome json * world :=
  send_request peer "recommend_similar"
    [ ("document_id", JStr document_id);
      ("top_k", JInt top_k);
      ("user_id", Protocol.json_of_opt_str user_id) ].

Definition update_visualization (peer : list byte -> world -> list byte * world)
    (user_id : string) (force_update : bool) : world -> outcome json * world :=
  send_request peer "update_visualization"
    [ ("user_id", JStr user_id); ("force_update", JBool force_update) ].

Definition analyze_trends (peer : list byte -> world -> list byte * world)
    (user_id : string) (window_days : Z) : world -> outcome json * world :=
  send_request peer "analyze_trends"
    [ ("user_id", JStr user_id); ("window_days", JInt window_days) ].

Definition ping (peer : list byte -> world -> list byte * world)
  : world -> outcome json * world :=
  send_request peer "ping" [].

Definition get_status (peer : list byte -> world -> list byte * world)
  : world -> outcome json * world :=
  send_request peer "status" [].

End WithRuntime.
End MLTCPClient.

(** ** [get_cluster_details] ([persistence_adapter.py]) *)

Module ClusterDetails.
Import Store.

(** The row that [get_cluster_details] fetches: the columns of the cluster
    and the array [document_ids]. *)
Record cluster_details : Type := {
  cd_cluster : cluster_row;
  cd_document_ids : list (option string)
}.

(** [get_cluster_details]: the rows of [ml_clusters] with the key
    [cluster_id], left-joined with their assignments and grouped by the key;
    [fetchone] returns the group, or [None] when there is none.  A cluster
    without assignment is joined with one row of [NULL]s. *)
Definition get_cluster_details (st : store) (cluster_id : Z) : option cluster_details :=
  let joined :=
    Sql.left_join (fun c dc => bool_decide (dc_cluster_id dc = Some (cl_id c)))
      (List.filter (fun c => (cl_id c =? cluster_id)%Z) (ml_clusters st))
      (ml_document_clusters st) in
  match joined with
  | [] => None
  | (c, _) :: _ =>
    Some {| cd_cluster := c;
            cd_document_ids := map (fun p => dc_document_id <$> snd p) joined |}
  end.

End ClusterDetails.

(** ** The REST controllers ([features/*/infrastructure/http/controllers.py]) *)

Module Controllers.

(** How a route function ends: it returns a body, or raises
    [HTTPException(status_code, detail)]. *)
Inductive http (A : Type) : Type :=
  | Returned (body : A)
  | HTTPException (status_code : Z) (detail : json).
Arguments Returned {A} body.
Arguments HTTPException {A} status_code detail.

(** [bool(x)] for a JSON value. *)
Definition truthy (x : json) : bool :=
  match x with
  | JNull => false
  | JBool b => b
  | JInt n => negb (n =? 0)%Z
  | JFloat q => negb (Qeq_bool q 0)
  | JNan => true
  | JStr s => negb (String.eqb s "")
  | JArr items => match items with [] => false | _ => true end
  | JObj fields => match fields with [] => false | _ => true end
  end.

(** [if not result.get("success"): raise HTTPException(status_code=...,
    detail=result.get("error", default_detail))] and [return result]. *)
Definition answer (status_code : Z) (default_detail : string) (result : pydict)
  : http pydict :=
  if truthy (default JNull (dict_get "success" result)) then Returned result
  else HTTPException status_code (default (JStr default_detail) (dict_get "error" result)).

Section WithEnv.
Context (env : Env).

(** [analyze_documents] of the clustering router; the arguments are the
    fields of the validated [ClusterRequest]. *)
Definition analyze_documents (user_id : string) (document_ids : option (list string))
    (force_recluster : bool) : M (http pydict) :=
  result ← ClusterDocumentsUseCase.execute env (Some user_id) document_ids force_recluster;
  mret (answer 400 "Error desconocido" result).

(** [get_clusters] of the clustering router *)
Definition get_clusters (user_id : string) : M (http pydict) :=
  result ← GetClustersUseCase.execute env (Some user_id);
  mret (answer 404 "Clusters no encontrados" result).

(** [get_cluster_details] of the clustering router *)
Definition get_cluster_details (cluster_id : Z) : M (http ClusterDetails.cluster_details) :=
  cluster_details ← query (fun st => ClusterDetails.get_cluster_details st cluster_id);
  match cluster_details with
  | None => mret (HTTPException 404 (JStr "Cluster no encontrado"))
  | Some details => mret (Returned details)
  end.

(** [recommend_similar] of the recommendations router *)
Definition recommend_similar (document_id : string) (top_k : Z) (user_id : option string)
  : M (http pydict) :=
  result ← RecommendSimilarUseCase.execute env (Some document_id) top_k user_id;
  mret (answer 404 "No se encontraron recomendaciones" result).

(** [update_visualization] of the visualization router *)
Definition update_visualization (user_id : string) (force_update : bool)
  : M (http pydict) :=
  result ← UpdateVisualizationUseCase.execute env (Some user_id) force_update;
  mret (answer 400 "Error generando visualización" result).

(** [get_visualization] of the visualization router *)
Definition get_visualization (user_id : string) : M (http pydict) :=
  result ← UpdateVisualizationUseCase.execute env (Some user_id) false;
  mret (answer 404 "Visualización no encontrada" result).

(** [extract_topics] of the topic modeling router *)
Definition extract_topics (user_id : string) (num_topics : option Z)
    (document_ids : option (list string)) : M (http pydict) :=
  result ← ExtractTopicsUseCase.execute env (Some user_id) num_topics document_ids;
  mret (answer 400 "Error desconocido" result).

End WithEnv.
End Controllers.

(** ** The labels and keywords of a cluster ([cluster_documents.py]) *)

Module FilenameLabels.

(** The methods of [str] and the compiled pattern that [_find_common_words]
    uses, which follow the Unicode tables: [str.lower], [str.title],
    [str.isdigit], and [re.split(r"[-_\s]+", s)]. *)
Record PyStr : Type := {
  lower : string -> string;
  title : string -> string;
  isdigit : string -> bool;
  split_words : string -> list string
}.

(** [len(s)]: the number of code points, which are the bytes of the UTF-8
    text that are not continuation bytes. *)
Definition str_len (s : string) : Z :=
  Z.of_nat (length (List.filter (fun b => negb (Utf8.cont b)) (Utf8.encode s))).

(** The text before the last ["."] of [s], if [s] has one. *)
Fixpoint before_last_dot (s : string) : option string :=
  match s with
  | "" => None
  | String c rest =>
    match before_last_dot rest with
    | Some head => Some (String c head)
    | None => if Ascii.eqb c "."%char then Some "" else None
    end
  end.

(** [filename.rsplit(".", 1)[0]] *)
Definition rsplit_dot_head (filename : string) : string :=
  default filename (before_last_dot filename).

(** [counter[w] += 1] on a [Counter], which keeps its keys in the order of
    first insertion. *)
Fixpoint counter_add (w : string) (counter : list (string * nat)) : list (string * nat) :=
  match counter with
  | [] => [(w, 1%nat)]
  | (k, n) :: rest =>
    if String.eqb k w then (k, S n) :: rest else (k, n) :: counter_add w rest
  end.

(** [Counter(words)] *)
Definition Counter (words : list string) : list (string * nat) :=
  fold_left (fun counter w => counter_add w counter) words [].

(** [counter.most_common(n)]: the [n] items with the greatest counts,
    greatest first; items with equal counts stay in the order of first
    insertion (the sort is stable). *)
Definition most_common (n : nat) (counter : list (string * nat)) : list (string * nat) :=
  firstn n (Sql.order_by (fun a b => (snd b <=? snd a)%nat) counter).

Section WithStr.
Context (py : PyStr).

(** The words of a filename that [_find_common_words] counts. *)
Definition words_of (min_length : Z) (filename : string) : list string :=
  let name := rsplit_dot_head filename in
  let words := split_words py (lower py name) in
  List.filter (fun w => (min_length <=? str_len w)%Z && negb (isdigit py w)) words.

(** [_find_common_words] *)
Definition _find_common_words (filenames : list string) (min_length : Z) : list string :=
  let all_words := flat_map (words_of min_length) filenames in
  let word_counts := Counter all_words in
  map fst (most_common 3 word_counts).

(** [[doc_ids[i] for i, label in enumerate(labels) if label == cluster_id]] *)
Definition cluster_doc_ids (doc_ids : list string) (labels : list Z) (cluster_id : Z)
  : res (list string) :=
  mapM (M := res) (fun i => list_index doc_ids i)
    (map fst (List.filter (fun p => (snd p =? cluster_id)%Z)
                (combine (seq 0 (length labels)) labels))).

(** [[metadata.get(doc_id, {}).get("filename", "") for doc_id in
    cluster_doc_ids if doc_id in metadata]]: the lookups are by the [str]
    [doc_id]. *)
Definition cluster_filenames (metadata : gmap dict_key string) (ids : list string)
  : list string :=
  omap (fun doc_id => metadata !! (inl doc_id : dict_key)) ids.

(** The label that [_generate_cluster_labels] gives to one cluster. *)
Definition label_of (cluster_id : Z) (filenames : list string) : string :=
  match filenames with
  | [] => "Cluster " +:+ pretty cluster_id
  | _ =>
    match _find_common_words filenames 4 with
    | w :: _ => title py w
    | [] => "Documentos - Grupo " +:+ pretty cluster_id
    end
  end.

(** [_generate_cluster_labels] *)
Definition _generate_cluster_labels (doc_ids : list string) (labels : list Z)
    (metadata : gmap dict_key string) : res (gmap Z string) :=
  fold_left (fun acc cluster_id =>
               cluster_labels ← acc;
               ids ← cluster_doc_ids doc_ids labels cluster_id;
               let filenames := cluster_filenames metadata ids in
               Ret (<[cluster_id := label_of cluster_id filenames]> cluster_labels))
            (HDBSCANAdapter.clusters_of labels) (Ret ∅).

(** [_extract_keywords_from_filenames] *)
Definition _extract_keywords_from_filenames (doc_ids : list string) (labels : list Z)
    (cluster_id : Z) (metadata : gmap dict_key string) : res (list string) :=
  ids ← cluster_doc_ids doc_ids labels cluster_id;
  let filenames := cluster_filenames metadata ids in
  let keywords := _find_common_words filenames 3 in
  Ret (firstn 10 keywords).

End WithStr.
End FilenameLabels.

(** ** [BERTopicAdapter.get_topic_statistics] ([bertopic_adapter.py]) *)

Module BERTopicAdapter.

(** The dict that [get_topic_statistics] returns. *)
Record topic_statistics : Type := {
  num_topics : Z;
  num_outliers : Z;
  total_documents : Z;
  outlier_percentage : Q;
  topic_distribution : gmap Z Z;
  avg_docs_per_topic : Q
}.

(** What [get_topic_statistics] raises: [ValueError("Debe ejecutar fit()
    primero")], or the [ZeroDivisionError] of a division of integers. *)
Inductive raised : Set :=
  | NotFitted
  | ZeroDivisionError.

(** [sum(d.values())] *)
Definition sum_values (d : gmap Z Z) : Z := map_fold (fun _ v acc => (v + acc)%Z) 0%Z d.

(** [get_topic_statistics]; [topics] is the attribute [self.topics], which
    is [None] before [fit]. *)
Definition get_topic_statistics (topics : option (list Z)) : raised + topic_statistics :=
  match topics with
  | None => inl NotFitted
  | Some topics =>
    let unique_topics : gset Z := list_to_set topics in
    let num_topics :=
      (Z.of_nat (size unique_topics)
       - (if bool_decide ((-1)%Z ∈ unique_topics) then 1 else 0))%Z in
    let num_outliers := Py.count_eq (-1) topics in
    let topic_distribution :=
      set_fold (fun topic_id dist =>
                  if (topic_id =? -1)%Z then dist
                  else <[topic_id := Py.count_eq topic_id topics]> dist)
               (∅ : gmap Z Z) unique_topics in
    match topics with
    | [] => inl ZeroDivisionError
    | _ =>
      inr {| num_topics := num_topics;
             num_outliers := num_outliers;
             total_documents := Z.of_nat (length topics);
             outlier_percentage :=
               (inject_Z num_outliers / inject_Z (Z.of_nat (length topics)) * 100)%Q;
             topic_distribution := topic_distribution;
             avg_docs_per_topic :=
               if bool_decide (topic_distribution = ∅) then 0%Q
               else (inject_Z (sum_values topic_distribution)
                     / inject_Z (Z.of_nat (size topic_distribution)))%Q |}
    end
  end.

End BERTopicAdapter.

(** ** More of the reference runtime and of the example data *)

Module Samples.
Import Store.

(** The client's JSON library: the reference printer and parser. *)
Definition client_runtime : MLTCPClient.ClientRuntime :=
  {| MLTCPClient.dumps := Reference.print;
     MLTCPClient.loads := Reference.loads;
     MLTCPClient.repr := Reference.print |}.

(** The connection to the reference server. *)
Definition peer : list byte -> world -> list byte * world :=
  TCPServer.handle_client Reference.runtime (TCPServer.main_server Reference.env).

End Samples.

(** ** Observations used to state what the code does *)

Module Observations.
Import Store.

(** The two shapes of the result of a use case: the failure dict, or a
    dict whose [success] is [True]. *)
Definition uniform_result (r : pydict) : Prop :=
  (exists message, r = failure message) \/ dict_get "success" r = Some (JBool true).

(** What a REST route made of a use case: its body when the use case
    succeeded, and the exception with [status_code] and the message of the
    failure otherwise. *)
Definition maps_failure (status_code : Z) (use_case : M pydict) (w : world)
    (outcome : res (Controllers.http pydict) * world) : Prop :=
  match outcome with
  | (Ret (Controllers.Returned body), w') =>
    use_case w = (Ret body, w') /\ dict_get "success" body = Some (JBool true)
  | (Ret (Controllers.HTTPException code detail), w') =>
    code = status_code
    /\ exists message, detail = JStr message /\ use_case w = (Ret (failure message), w')
  | (Raise _, _) => False
  end.

(** An embedding row of the collection named [user_id]. *)
Definition in_collection_of (st : store) (user_id : string) (lpe : embedding_row) : Prop :=
  exists lpc, In lpc (langchain_pg_collection st)
              /\ emb_collection_id lpe = col_uuid lpc /\ col_name lpc = user_id.

(** The constraints of [ml_clusters]: the generated key [id] is unique and
    below the sequence, and [(user_id, cluster_id)] is unique. *)
Definition clusters_well_keyed (st : store) : Prop :=
  List.NoDup (map cl_id (ml_clusters st))
  /\ List.Forall (fun r => (cl_id r < ml_clusters_seq st)%Z) (ml_clusters st)
  /\ List.NoDup (map (fun r => (cl_user_id r, cl_cluster_id r)) (ml_clusters st)).

(** The row of [ml_visualizations] with the key [(user_id, document_id)]. *)
Definition find_point (st : store) (user_id document_id : string)
  : option visualization_row :=
  List.find (fun r => String.eqb (vz_user_id r) user_id
                      && String.eqb (vz_document_id r) document_id)
    (ml_visualizations st).

(** The rows that [get_recommendations] reads for a list stored by
    [save_recommendations], from rank [rank] on. *)
Fixpoint cached_entries (st : store) (rank : Z) (recommendations : list recommendation)
  : list cached_recommendation :=
  match recommendations with
  | [] => []
  | rec :: rest =>
    {| cr_document_id := ri_document_id rec;
       cr_similarity_score := ri_similarity_score rec;
       cr_rank := rank;
       cr_filename :=
         doc_filename <$> List.find (fun d => Uuid.text_is (ri_document_id rec) (doc_id d))
                            (documents st) |}
    :: cached_entries st (rank + 1) rest
  end.

End Observations.

(** * Properties *)

(** ** The length prefix *)

Module WireFacts.
Import Wire.

Lemma to_N_byte_of_N (n : N) : Byte.to_N (byte_of_N n) = (n mod 256)%N.
Proof.
  unfold byte_of_N.
  destruct (Byte.of_N (n mod 256)) as [b|] eqn:E.
  - by apply Byte.to_of_N.
  - apply Byte.of_N_None_iff in E.
    pose proof (N.mod_upper_bound n 256). lia.
Qed.

(** Four big-endian bytes hold every length below [2 ^ 32]. *)
Lemma int_from_bytes_to_bytes4 (n : N) (bs : list byte) :
  int_to_bytes4 n = Ret bs -> int_from_bytes bs = n /\ length bs = 4%nat.
Proof.
  unfold int_to_bytes4.
  destruct (n <? 2 ^ 32)%N eqn:E; [|discriminate].
  apply N.ltb_lt in E. intros [= <-]. split; [|reflexivity].
  unfold int_from_bytes. cbn [fold_left].
  rewrite !to_N_byte_of_N.
  change (2 ^ 24)%N with (256 * 256 * 256)%N. change (2 ^ 16)%N with (256 * 256)%N.
  change (2 ^ 8)%N with 256%N. change (2 ^ 32)%N with 4294967296%N in E.
  rewrite <- !N.Div0.div_div.
  pose proof (N.Div0.div_mod n 256) as H0.
  pose proof (N.mod_upper_bound n 256 ltac:(done)) as B0.
  generalize dependent (n mod 256)%N. generalize dependent (n / 256)%N.
  intros a r0 H0 B0.
  pose proof (N.Div0.div_mod a 256) as H1.
  pose proof (N.mod_upper_bound a 256 ltac:(done)) as B1.
  generalize dependent (a mod 256)%N. generalize dependent (a / 256)%N.
  intros b r1 H1 B1.
  pose proof (N.Div0.div_mod b 256) as H2.
  pose proof (N.mod_upper_bound b 256 ltac:(done)) as B2.
  generalize dependent (b mod 256)%N. generalize dependent (b / 256)%N.
  intros c r2 H2 B2.
  rewrite (N.mod_small c 256) by lia. lia.
Qed.

Lemma int_to_bytes4_fits (n : N) :
  (n < 2 ^ 32)%N -> exists bs, int_to_bytes4 n = Ret bs.
Proof.
  intros H. unfold int_to_bytes4.
  apply N.ltb_lt in H. rewrite H. eauto.
Qed.

Lemma int_to_bytes4_overflow (n : N) :
  (2 ^ 32 <= n)%N ->
  int_to_bytes4 n = Raise (Exn OverflowError "int too big to convert").
Proof.
  intros H. unfold int_to_bytes4.
  apply N.ltb_ge in H. by rewrite H.
Qed.

Lemma len_app {A} (l1 l2 : list A) : len (l1 ++ l2) = (len l1 + len l2)%N.
Proof. unfold len. rewrite length_app. lia. Qed.

(** A complete frame decodes to its payload. *)
Lemma decode_frame_complete (n : N) (length_bytes json_bytes : list byte) :
  int_to_bytes4 n = Ret length_bytes ->
  n = len json_bytes ->
  decode_frame (length_bytes ++ json_bytes) = Ret json_bytes.
Proof.
  intros Hbytes ->.
  apply int_from_bytes_to_bytes4 in Hbytes as [Hint Hlen].
  unfold decode_frame.
  assert ((len (length_bytes ++ json_bytes) <? 4)%N = false) as ->.
  { apply N.ltb_ge. rewrite len_app. unfold len. lia. }
  assert (firstn 4 (length_bytes ++ json_bytes) = length_bytes) as ->.
  { rewrite <- Hlen. by rewrite take_app_length. }
  rewrite Hint.
  assert (slice 4 (len json_bytes) (length_bytes ++ json_bytes) = json_bytes) as ->.
  { unfold slice, len.
    replace (N.to_nat 4) with (length length_bytes) by (rewrite Hlen; reflexivity).
    rewrite drop_app_length. rewrite Nat2N.id. apply firstn_all. }
  by rewrite N.ltb_irrefl.
Qed.

(** The two guards of [decode_message]. *)
Lemma decode_frame_short (data : list byte) :
  (length data < 4)%nat ->
  decode_frame data
  = Raise (Exn ValueError "Mensaje incompleto: faltan bytes de longitud").
Proof.
  intros H. unfold decode_frame.
  assert ((len data <? 4)%N = true) as ->; [|done].
  apply N.ltb_lt. unfold len. lia.
Qed.

Lemma decode_frame_truncated (data : list byte) :
  (4 <= length data)%nat ->
  (N.of_nat (length data - 4) < int_from_bytes (firstn 4 data))%N ->
  decode_frame data
  = Raise (Exn ValueError
             ("Mensaje incompleto: esperaba " +:+ pretty (int_from_bytes (firstn 4 data))
              +:+ " bytes, recibió " +:+ pretty (N.of_nat (length data - 4)))).
Proof.
  intros H4 Hdecl. unfold decode_frame.
  assert ((len data <? 4)%N = false) as ->.
  { apply N.ltb_ge. unfold len. lia. }
  set (declared := int_from_bytes (firstn 4 data)) in *.
  assert (len (slice 4 declared data) = N.of_nat (length data - 4)) as ->.
  { unfold len, slice. rewrite length_take, length_drop.
    replace (N.to_nat 4) with 4%nat by reflexivity. lia. }
  apply N.ltb_lt in Hdecl. by rewrite Hdecl.
Qed.

End WireFacts.

(** ** Framing of messages *)

Module ProtocolFacts.
Import Protocol.

Lemma action_of_value_value (a : TCPAction) : action_of_value (action_value a) = Some a.
Proof. by destruct a. Qed.

Lemma opt_str_field_dumped (key : string) (o : option string) (d : pydict) :
  dict_get key d = Some (json_of_opt_str o) -> opt_str_field key d = Some o.
Proof. unfold opt_str_field. intros ->. by destruct o. Qed.

(** Validation accepts what [model_dump_json] printed, and gives back the
    model. *)
Lemma validate_request_dumped (r : TCPRequest) :
  validate_request (request_to_json r) = Some r.
Proof.
  destruct r as [a d rid]. by destruct a, rid.
Qed.

Lemma validate_response_dumped (r : TCPResponse) :
  validate_response (response_to_json r) = Some r.
Proof. destruct r as [st [res|] [err|] [rid|]]; reflexivity. Qed.

(** A dumped request has the key [action]; a dumped response has not. *)
Lemma contains_action_dumped (m : message) :
  contains_action (message_to_json m)
  = Ret (match m with Req _ => true | Resp _ => false end).
Proof. by destruct m. Qed.

(** A frame whose length does not fit in 4 bytes cannot be built. *)
Lemma encode_message_overflow (rt : PyRuntime) (m : message) :
  (2 ^ 32 <= Wire.len (Utf8.encode (to_json rt m)))%N ->
  encode_message rt m = Raise (Exn OverflowError "int too big to convert").
Proof.
  intros H. unfold encode_message.
  by rewrite WireFacts.int_to_bytes4_overflow.
Qed.

(** C7.  [decode_message] raises a [ValueError] whose text starts with
    "Mensaje incompleto" (and so returns no message at all) for every
    buffer shorter than 4 bytes, and for every buffer whose 4-byte
    big-endian declared length exceeds the number of bytes that follow the
    length prefix. *)
Theorem decode_message_incomplete (rt : PyRuntime) (data : list byte) :
  (length data < 4)%nat
  \/ ((4 <= length data)%nat
      /\ (N.of_nat (length data - 4) < Wire.int_from_bytes (firstn 4 data))%N) ->
  exists text,
    decode_message rt data = Raise (Exn ValueError text)
    /\ String.prefix "Mensaje incompleto: " text = true.
Proof.
  intros [Hshort | [Hlong Hdeclared]]; unfold decode_message.
  - rewrite WireFacts.decode_frame_short by done. eauto.
  - rewrite WireFacts.decode_frame_truncated by done. eauto.
Qed.

(** C6 (amended).  Decoding the encoding of a request or response [m] gives
    back [m] for every [m] whose JSON text is read back by the JSON library
    as the object that was printed (which leaves out a payload that holds a
    NaN), whose text is valid UTF-8, and whose frame can be built: the text
    is shorter than [2 ^ 32] bytes, the most a 4-byte prefix can declare. *)
Theorem encode_decode_roundtrip (rt : PyRuntime) (m : message) :
  json_loads rt (to_json rt m) = Ret (message_to_json m) ->
  Utf8.valid (Utf8.encode (to_json rt m)) = true ->
  (Wire.len (Utf8.encode (to_json rt m)) < 2 ^ 32)%N ->
  exists frame,
    encode_message rt m = Ret frame /\ decode_message rt frame = Ret m.
Proof.
  intros Hloads Hutf8 Hfits.
  destruct (WireFacts.int_to_bytes4_fits _ Hfits) as [length_bytes Hprefix].
  exists (length_bytes ++ Utf8.encode (to_json rt m)). split.
  - unfold encode_message. by rewrite Hprefix.
  - unfold decode_message.
    rewrite (WireFacts.decode_frame_complete _ _ _ Hprefix eq_refl). cbn.
    unfold Utf8.decode. rewrite Hutf8.
    unfold Utf8.encode. rewrite string_of_list_byte_of_string. cbn.
    rewrite Hloads. cbn.
    rewrite contains_action_dumped. cbn.
    destruct m as [r | r]; cbn.
    + unfold request_from_json, model_validate_json. rewrite Hloads.
      change (message_to_json (Req r)) with (request_to_json r).
      by rewrite validate_request_dumped.
    + unfold response_from_json, model_validate_json. rewrite Hloads.
      change (message_to_json (Resp r)) with (response_to_json r).
      by rewrite validate_response_dumped.
Qed.

End ProtocolFacts.

(** C7 at a buffer that declares 5 payload bytes and holds 1. *)
Lemma decode_message_incomplete_witness :
  ((length Examples.truncated_buffer < 4)%nat
   \/ ((4 <= length Examples.truncated_buffer)%nat
       /\ (N.of_nat (length Examples.truncated_buffer - 4)
           < Wire.int_from_bytes (firstn 4 Examples.truncated_buffer))%N))
  /\ exists text,
       Protocol.decode_message Reference.runtime Examples.truncated_buffer
       = Raise (Exn ValueError text)
       /\ String.prefix "Mensaje incompleto: " text = true.
Proof.
  assert ((length Examples.truncated_buffer < 4)%nat
          \/ ((4 <= length Examples.truncated_buffer)%nat
              /\ (N.of_nat (length Examples.truncated_buffer - 4)
                  < Wire.int_from_bytes (firstn 4 Examples.truncated_buffer))%N)) as H.
  { right. split; [vm_compute; lia | reflexivity]. }
  split; [exact H |].
  exact (ProtocolFacts.decode_message_incomplete Reference.runtime
           Examples.truncated_buffer H).
Defined.

(** C6 as first stated fails at a well-formed response whose result holds
    a NaN: [model_dump_json] prints it as [null], and the decoded response
    holds [None] in its place. *)
Lemma nan_round_trip_counterexample :
  exists frame,
    Protocol.encode_message Reference.runtime
      (Resp (success [ ("outlier_percentage", JNan) ] (Some "req-1")))
    = Ret frame
    /\ Protocol.decode_message Reference.runtime frame
       = Ret (Resp (success [ ("outlier_percentage", JNull) ] (Some "req-1")))
    /\ Resp (success [ ("outlier_percentage", JNull) ] (Some "req-1"))
       <> Resp (success [ ("outlier_percentage", JNan) ] (Some "req-1")).
Proof.
  eexists. split; [vm_compute; reflexivity |].
  split; [vm_compute; reflexivity | discriminate].
Qed.

(** C6 (amended) at a request with non-ASCII text and an empty object, with
    the reference JSON printer and parser. *)
Lemma encode_decode_roundtrip_witness :
  json_loads Reference.runtime (Protocol.to_json Reference.runtime Examples.sample_request)
  = Ret (Protocol.message_to_json Examples.sample_request)
  /\ Utf8.valid (Utf8.encode (Protocol.to_json Reference.runtime Examples.sample_request))
     = true
  /\ (Wire.len (Utf8.encode (Protocol.to_json Reference.runtime Examples.sample_request))
      < 2 ^ 32)%N
  /\ exists frame,
       Protocol.encode_message Reference.runtime Examples.sample_request = Ret frame
       /\ Protocol.decode_message Reference.runtime frame = Ret Examples.sample_request.
Proof.
  assert (json_loads Reference.runtime
            (Protocol.to_json Reference.runtime Examples.sample_request)
          = Ret (Protocol.message_to_json Examples.sample_request)) as H1
    by (vm_compute; reflexivity).
  assert (Utf8.valid (Utf8.encode
            (Protocol.to_json Reference.runtime Examples.sample_request)) = true) as H2
    by (vm_compute; reflexivity).
  assert (Wire.len (Utf8.encode
            (Protocol.to_json Reference.runtime Examples.sample_request)) < 2 ^ 32)%N as H3
    by (vm_compute; reflexivity).
  split; [exact H1 | split; [exact H2 | split; [exact H3 |]]].
  exact (ProtocolFacts.encode_decode_roundtrip Reference.runtime
           Examples.sample_request H1 H2 H3).
Defined.

(** ** The monad of handlers *)

Module MonadFacts.

Lemma bind_lift_ret {A B} (a : A) (k : A -> M B) : (lift (Ret a) ≫= k) = k a.
Proof. reflexivity. Qed.

End MonadFacts.

(** ** The server *)

Module ServerFacts.
Import MonadFacts.
Import TCPServer.

(** The registry of the running server: the nine actions of [main.py]. *)
Lemma main_server_handlers (env : Env) (a : TCPAction) :
  handlers (main_server env) !! a
  = match a with
    | CLUSTER_DOCUMENTS => Some (Handlers.handle_cluster_documents env)
    | GET_CLUSTERS => Some (Handlers.handle_get_clusters env)
    | EXTRACT_TOPICS => Some (Handlers.handle_extract_topics env)
    | RECOMMEND_SIMILAR => Some (Handlers.handle_recommend_similar env)
    | UPDATE_VISUALIZATION => Some (Handlers.handle_update_visualization env)
    | GET_VISUALIZATION => Some (Handlers.handle_get_visualization env)
    | ANALYZE_TRENDS => Some Handlers.handle_analyze_trends
    | PING => Some handle_ping
    | STATUS => Some handle_status
    | _ => None
    end.
Proof. by destruct a. Qed.

Lemma encode_message_nonempty (rt : PyRuntime) (m : message) (bs : list byte) :
  Protocol.encode_message rt m = Ret bs -> bs <> [].
Proof.
  unfold Protocol.encode_message.
  destruct (Wire.int_to_bytes4 _) as [length_bytes|] eqn:E; [|discriminate].
  apply WireFacts.int_from_bytes_to_bytes4 in E as [_ Hlen].
  intros [= <-]. by destruct length_bytes.
Qed.

(** The request of a frame whose [action] is not a member of [TCPAction]
    fails validation inside [decode_message]. *)
Lemma decode_message_unknown_action (rt : PyRuntime) (full_message json_bytes : list byte)
    (text : string) (fields : pydict) (s : string) :
  Wire.decode_frame full_message = Ret json_bytes ->
  Utf8.decode json_bytes = Ret text ->
  json_loads rt text = Ret (JObj fields) ->
  dict_get "action" fields = Some (JStr s) ->
  action_of_value s = None ->
  Protocol.decode_message rt full_message
  = Raise (Exn ValidationError (validation_error_text rt "TCPRequest" text)).
Proof.
  intros Hframe Hutf8 Hloads Haction Hmember.
  unfold Protocol.decode_message. rewrite Hframe. cbn. rewrite Hutf8. cbn.
  rewrite Hloads. cbn. unfold dict_has. rewrite Haction. cbn.
  unfold Protocol.request_from_json, Protocol.model_validate_json.
  rewrite Hloads. unfold Protocol.validate_request.
  rewrite Haction, Hmember. reflexivity.
Qed.

Lemma process_request_unregistered (server : t) (request : TCPRequest) (w : world) :
  handlers server !! action request = None ->
  process_request server request w
  = (create_error ("Acción no soportada: " +:+ action_value (action request))
       (request_id request), w).
Proof. intros H. unfold process_request. by rewrite H. Qed.

(** C4 (amended).  A framed request whose action is a member of [TCPAction]
    without a registered handler is answered by the error response
    "Acción no soportada: <action>", which carries the request id.  A framed
    request whose action string is not a member of [TCPAction] (such as
    "does_not_exist") fails validation in [decode_message] and is answered
    by the error response "Error del servidor: <validation error>", without
    request id.  In both cases, when the error response fits in a frame,
    that frame is written to the connection and the world is unchanged. *)
Theorem unsupported_action_response (rt : PyRuntime) (server : t)
    (stream full_message : list byte) (w : world) :
  read_message stream = Ret full_message ->
  (forall request response_bytes,
     Protocol.decode_message rt full_message = Ret (Req request) ->
     handlers server !! action request = None ->
     Protocol.encode_message rt
       (Resp (create_error ("Acción no soportada: " +:+ action_value (action request))
                (request_id request))) = Ret response_bytes ->
     handle_client rt server stream w = (response_bytes, w) /\ response_bytes <> [])
  /\ (forall json_bytes text fields s response_bytes,
        Wire.decode_frame full_message = Ret json_bytes ->
        Utf8.decode json_bytes = Ret text ->
        json_loads rt text = Ret (JObj fields) ->
        dict_get "action" fields = Some (JStr s) ->
        action_of_value s = None ->
        Protocol.encode_message rt
          (Resp (create_error
                   ("Error del servidor: " +:+ validation_error_text rt "TCPRequest" text)
                   None)) = Ret response_bytes ->
        handle_client rt server stream w = (response_bytes, w) /\ response_bytes <> []).
Proof.
  intros Hread. split.
  - intros request response_bytes Hdecode Hnone Hencode.
    split; [|by eapply encode_message_nonempty].
    unfold handle_client, serve. rewrite Hread, Hdecode.
    rewrite (process_request_unregistered _ _ _ Hnone). by rewrite Hencode.
  - intros json_bytes text fields s response_bytes Hframe Hutf8 Hloads Haction Hmember
      Hencode.
    split; [|by eapply encode_message_nonempty].
    unfold handle_client, serve. rewrite Hread.
    rewrite (decode_message_unknown_action _ _ _ _ _ _ Hframe Hutf8 Hloads Haction Hmember).
    cbn. unfold write_error. by rewrite Hencode.
Qed.

(** The handler of each of the six actions that call a use case is the
    [try] block of the use case inside the [try]/[except] frame of
    [execute], whatever [data] holds. *)
Lemma handler_runs_try_block (env : Env) (a : TCPAction) (data : pydict)
    (body : M pydict) :
  Handlers.use_case_try_block env a data = Some body ->
  exists h : handler, handlers (main_server env) !! a = Some h /\ h data = orchestrate body.
Proof.
  intros Hblock. rewrite main_server_handlers.
  destruct a; cbv beta iota delta [Handlers.use_case_try_block] in Hblock;
    try discriminate; injection Hblock as <-; eexists; (split; [reflexivity |]).
  - unfold Handlers.handle_cluster_documents.
    by destruct (Handlers.get_str "user_id" data),
      (Handlers.get_str_list "document_ids" data),
      (Handlers.get_bool "force_recluster" data).
  - unfold Handlers.handle_get_clusters.
    by destruct (Handlers.get_str "user_id" data).
  - unfold Handlers.handle_extract_topics.
    by destruct (Handlers.get_str "user_id" data), (Handlers.get_int "num_topics" data),
      (Handlers.get_str_list "document_ids" data).
  - unfold Handlers.handle_recommend_similar.
    by destruct (Handlers.get_str "document_id" data),
      (Handlers.get_int_default "top_k" 5 data), (Handlers.get_str "user_id" data).
  - unfold Handlers.handle_update_visualization.
    by destruct (Handlers.get_str "user_id" data), (Handlers.get_bool "force_update" data).
  - unfold Handlers.handle_get_visualization.
    by destruct (Handlers.get_str "user_id" data).
Qed.

(** The six actions whose handler calls a use case have a [try] block for
    every [data]. *)
Lemma use_case_try_block_total (env : Env) (a : TCPAction) (data : pydict) :
  In a [ CLUSTER_DOCUMENTS; GET_CLUSTERS; EXTRACT_TOPICS; RECOMMEND_SIMILAR;
         UPDATE_VISUALIZATION; GET_VISUALIZATION ] ->
  exists body, Handlers.use_case_try_block env a data = Some body.
Proof.
  intros H. repeat (destruct H as [<- | H]; [by eexists |]). destruct H.
Qed.

(** C8.  When the [try] block of the use case behind a registered handler
    raises an exception [e], whatever the request data are (the handler
    passes them to [execute] unchecked), [process_request] answers with the
    envelope [status = "success"] whose result is [{"success": False,
    "error": str(e)}]: the exception reaches neither the error branch of
    [process_request] nor the caller. *)
Theorem orchestrator_exception_nested (env : Env) (request : TCPRequest)
    (body : M pydict) (e : exn) (w w' : world) :
  Handlers.use_case_try_block env (action request) (data request) = Some body ->
  body w = (Raise e, w') ->
  process_request (main_server env) request w
  = ({| status := "success";
        result := Some [ ("success", JBool false); ("error", JStr (str_exn e)) ];
        error := None;
        response_id := request_id request |}, w').
Proof.
  intros Hblock Hraise.
  destruct (handler_runs_try_block _ _ _ _ Hblock) as (h & Hh & Hrun).
  unfold process_request. rewrite Hh, Hrun. unfold orchestrate. by rewrite Hraise.
Qed.

End ServerFacts.

(** C4 as stated fails: the request with action "does_not_exist" is
    answered by "Error del servidor: ...", not "Acción no soportada: ...". *)
Lemma unknown_action_counterexample :
  exists response,
    Protocol.decode_message Reference.runtime
      (fst (TCPServer.handle_client Reference.runtime
              (TCPServer.main_server Reference.env)
              Examples.unknown_action_stream
              (Reference.world_of Reference.empty_store)))
    = Ret (Resp response)
    /\ status response = "error"
    /\ error response = Some "Error del servidor: 1 validation error for TCPRequest"
    /\ error response <> Some "Acción no soportada: does_not_exist".
Proof.
  eexists. split; [vm_compute; reflexivity |].
  split; [reflexivity |]. split; [reflexivity | discriminate].
Qed.

(** C4 (amended) at the two requests of [Examples]. *)
Lemma unsupported_action_response_witness :
  (TCPServer.read_message Examples.unregistered_stream = Ret Examples.unregistered_stream
   /\ TCPServer.handlers (TCPServer.main_server Reference.env)
        !! action Examples.unregistered_request = None
   /\ exists response_bytes,
        TCPServer.handle_client Reference.runtime (TCPServer.main_server Reference.env)
          Examples.unregistered_stream (Reference.world_of Reference.empty_store)
        = (response_bytes, Reference.world_of Reference.empty_store)
        /\ response_bytes <> [])
  /\ (TCPServer.read_message Examples.unknown_action_stream
      = Ret Examples.unknown_action_stream
      /\ action_of_value "does_not_exist" = None
      /\ exists response_bytes,
           TCPServer.handle_client Reference.runtime (TCPServer.main_server Reference.env)
             Examples.unknown_action_stream (Reference.world_of Reference.empty_store)
           = (response_bytes, Reference.world_of Reference.empty_store)
           /\ response_bytes <> []).
Proof.
  assert (TCPServer.read_message Examples.unregistered_stream
          = Ret Examples.unregistered_stream) as Hread1 by (vm_compute; reflexivity).
  assert (TCPServer.read_message Examples.unknown_action_stream
          = Ret Examples.unknown_action_stream) as Hread2 by (vm_compute; reflexivity).
  split.
  - split; [exact Hread1 |]. split; [reflexivity |].
    eexists.
    refine (proj1 (ServerFacts.unsupported_action_response Reference.runtime
                     (TCPServer.main_server Reference.env) _ _
                     (Reference.world_of Reference.empty_store) Hread1)
              Examples.unregistered_request _ _ _ _).
    + vm_compute; reflexivity.
    + reflexivity.
    + vm_compute; reflexivity.
  - split; [exact Hread2 |]. split; [reflexivity |].
    eexists.
    refine (proj2 (ServerFacts.unsupported_action_response Reference.runtime
                     (TCPServer.main_server Reference.env) _ _
                     (Reference.world_of Reference.empty_store) Hread2)
              (Utf8.encode Examples.unknown_action_text) Examples.unknown_action_text
              [ ("action", JStr "does_not_exist"); ("data", JObj []) ]
              "does_not_exist" _ _ _ _ _ _ _).
    + vm_compute; reflexivity.
    + vm_compute; reflexivity.
    + vm_compute; reflexivity.
    + reflexivity.
    + reflexivity.
    + vm_compute; reflexivity.
Defined.

(** C8 at a request of [cluster_documents] for an owner with three
    documents: the [try] block raises the [IndexError] of
    [embeddings.shape[1]]. *)
Lemma orchestrator_exception_nested_witness :
  Handlers.use_case_try_block Reference.env (action Examples.cluster_alice)
    (data Examples.cluster_alice)
  = Some (ClusterDocumentsUseCase.try_block Reference.env (Some "alice") None false)
  /\ ClusterDocumentsUseCase.try_block Reference.env (Some "alice") None false
       (Reference.world_of Examples.alice_store)
     = (Raise (Exn IndexError "tuple index out of range"),
        Reference.world_of Examples.alice_store)
  /\ TCPServer.process_request (TCPServer.main_server Reference.env)
       Examples.cluster_alice (Reference.world_of Examples.alice_store)
     = ({| status := "success";
           result := Some [ ("success", JBool false);
                            ("error", JStr "tuple index out of range") ];
           error := None;
           response_id := Some "req-2" |},
        Reference.world_of Examples.alice_store).
Proof.
  assert (Handlers.use_case_try_block Reference.env
            (action Examples.cluster_alice) (data Examples.cluster_alice)
          = Some (ClusterDocumentsUseCase.try_block Reference.env
                    (Some "alice") None false)) as H1 by reflexivity.
  assert (ClusterDocumentsUseCase.try_block Reference.env (Some "alice") None false
            (Reference.world_of Examples.alice_store)
          = (Raise (Exn IndexError "tuple index out of range"),
             Reference.world_of Examples.alice_store))
    as H2 by (vm_compute; reflexivity).
  split; [exact H1 | split; [exact H2 |]].
  exact (ServerFacts.orchestrator_exception_nested Reference.env
           Examples.cluster_alice _ _ _ _ H1 H2).
Defined.

(** ** The checks and the filter of [cluster_documents] *)

Module ClusterChecksFacts.
Import ClusterDocumentsUseCase.

(** The array that [get_embeddings_by_user] returns has one axis, and one
    item per document. *)
Lemma get_embeddings_array (st : Store.store) (user_id : option string) :
  exists items,
    snd (PersistenceAdapter.get_embeddings_by_user st user_id) = Np.Array1 items
    /\ length items = length (fst (PersistenceAdapter.get_embeddings_by_user st user_id)).
Proof.
  unfold PersistenceAdapter.get_embeddings_by_user. cbn.
  eexists. split; [reflexivity |]. by rewrite !length_map.
Qed.

Lemma get_embeddings_lengths (st : Store.store) (user_id : option string) :
  length (fst (PersistenceAdapter.get_embeddings_by_user st user_id))
  = Np.len (snd (PersistenceAdapter.get_embeddings_by_user st user_id)).
Proof.
  destruct (get_embeddings_array st user_id) as (items & -> & Hlen). by cbn.
Qed.

Section Filter.
Context (keep : string -> bool).

(** The positions that the filter keeps, read back from the documents. *)
Lemma kept_documents (pre l : list string) :
  omap (nth_error (pre ++ l))
    (map fst (List.filter (fun p => keep (snd p))
                (combine (seq (length pre) (length l)) l)))
  = List.filter keep l.
Proof.
  revert pre. induction l as [|x l IH]; intros pre; [reflexivity |].
  cbn [length seq combine List.filter snd].
  specialize (IH (pre ++ [x])).
  rewrite length_app, Nat.add_1_r, <- app_assoc in IH. cbn [app] in IH.
  destruct (keep x); [|exact IH].
  cbn [map fst omap list_omap]. 
  rewrite nth_error_app2, Nat.sub_diag by lia. cbn [nth_error].
  f_equal. exact IH.
Qed.

(** The same positions, read back from the embeddings. *)
Lemma kept_embeddings {E} (pre : list string) (pre_e : list E) (l : list string)
    (embeddings : list E) :
  length pre_e = length pre ->
  length embeddings = length l ->
  omap (nth_error (pre_e ++ embeddings))
    (map fst (List.filter (fun p => keep (snd p))
                (combine (seq (length pre) (length l)) l)))
  = map snd (List.filter (fun p => keep (fst p)) (combine l embeddings)).
Proof.
  revert pre pre_e embeddings.
  induction l as [|x l IH]; intros pre pre_e embeddings Hpre Hlen; [reflexivity |].
  destruct embeddings as [|e embeddings]; [discriminate |].
  cbn [length seq combine List.filter snd fst].
  specialize (IH (pre ++ [x]) (pre_e ++ [e]) embeddings).
  rewrite !length_app, !Nat.add_1_r, <- app_assoc in IH. cbn [app length] in IH.
  specialize (IH ltac:(lia) ltac:(cbn in Hlen; lia)).
  destruct (keep x); [|exact IH].
  cbn [map fst snd omap list_omap].
  rewrite nth_error_app2, Hpre, Nat.sub_diag by lia. cbn [nth_error].
  f_equal. exact IH.
Qed.

End Filter.

(** [filter_documents] keeps the documents of the subset, in their order,
    with their embeddings. *)
Lemma filter_documents_subset (ids doc_ids : list string) (items : list Np.vector_text) :
  ids <> [] ->
  length items = length doc_ids ->
  filter_documents (Some ids) doc_ids (Np.Array1 items)
  = (List.filter (fun d => existsb (String.eqb d) ids) doc_ids,
     Np.Array1 (map snd (List.filter (fun p => existsb (String.eqb (fst p)) ids)
                           (combine doc_ids items)))).
Proof.
  intros Hids Hlen. unfold filter_documents.
  destruct ids as [|i rest]; [done |]. cbn [Np.take]. f_equal; [|f_equal].
  - exact (kept_documents (fun d => existsb (String.eqb d) (i :: rest)) [] doc_ids).
  - exact (kept_embeddings (fun d => existsb (String.eqb d) (i :: rest)) [] [] doc_ids
             items eq_refl Hlen).
Qed.

(** Whatever the filter keeps of an array of one axis is an array of one
    axis. *)
Lemma filter_documents_array (document_ids : option (list string))
    (doc_ids : list string) (items : list Np.vector_text) :
  exists kept, snd (filter_documents document_ids doc_ids (Np.Array1 items)) = Np.Array1 kept.
Proof. destruct document_ids as [[|i rest]|]; by eexists. Qed.

(** C5.  When the owner has fewer than 3 stored embeddings, [execute]
    returns [success: False] with the "no documents" message when there is
    none and with the "insufficient documents" message when there are 1 or
    2, whatever [document_ids] is (the checks precede the subset filter),
    and the world is unchanged: no call to UMAP or HDBSCAN, no write. *)
Theorem cluster_documents_too_few (env : Env) (user_id : option string)
    (document_ids : option (list string)) (force_recluster : bool) (w : world)
    (doc_ids : list string) (embeddings : Np.ndarray) :
  PersistenceAdapter.get_embeddings_by_user (db w) user_id = (doc_ids, embeddings) ->
  (length doc_ids < 3)%nat ->
  execute env user_id document_ids force_recluster w
  = (Ret [ ("success", JBool false);
           ("error",
            JStr (match doc_ids with
                  | [] => "No se encontraron documentos para user_id="
                          +:+ Py.fmt_opt user_id
                  | _ => "Se necesitan al menos 3 documentos para clustering (encontrados: "
                         +:+ pretty (length doc_ids) +:+ ")"
                  end)) ], w).
Proof.
  intros Hget Hfew.
  unfold execute, orchestrate, try_block, query.
  cbv [mbind M_bind]. rewrite Hget.
  destruct doc_ids as [|d1 [|d2 [|d3 rest]]]; try reflexivity.
  cbn in Hfew. lia.
Qed.

Lemma or_int_same (n : Z) : Py.or_int n n = n.
Proof. unfold Py.or_int. by destruct (n =? 0)%Z eqn:E; [apply Z.eqb_eq in E |]. Qed.

(** With at least 3 documents the two checks pass, and [execute] goes on
    with the filter and what follows it. *)
Lemma try_block_enough (env : Env) (user_id : option string)
    (document_ids : option (list string)) (force_recluster : bool) (w : world)
    (doc_ids : list string) (embeddings : Np.ndarray) :
  PersistenceAdapter.get_embeddings_by_user (db w) user_id = (doc_ids, embeddings) ->
  (3 <= length doc_ids)%nat ->
  try_block env user_id document_ids force_recluster w
  = reduce_and_cluster env user_id
      (fst (filter_documents document_ids doc_ids embeddings))
      (snd (filter_documents document_ids doc_ids embeddings)) force_recluster w.
Proof.
  intros Hget Hmany. unfold try_block, query. cbv [mbind M_bind]. rewrite Hget.
  destruct doc_ids as [|d1 [|d2 [|d3 rest]]]; try (cbn in Hmany; lia).
  cbn [length Nat.eqb Nat.ltb Nat.leb].
  by destruct (filter_documents document_ids _ embeddings).
Qed.

(** The log line that follows the filter raises on an array of one axis:
    nothing of steps 2 to 8 is run. *)
Lemma reduce_and_cluster_array1 (env : Env) (user_id : option string)
    (doc_ids : list string) (items : list Np.vector_text) (force_recluster : bool)
    (w : world) :
  reduce_and_cluster env user_id doc_ids (Np.Array1 items) force_recluster w
  = (Raise Np.no_axis_1, w).
Proof. reflexivity. Qed.

(** What [reduce_and_cluster] returns is the result of a successful run. *)
Lemma reduce_and_cluster_returns (env : Env) (user_id : option string)
    (doc_ids : list string) (embeddings : Np.ndarray) (force_recluster : bool)
    (w w' : world) (r : pydict) :
  reduce_and_cluster env user_id doc_ids embeddings force_recluster w = (Ret r, w') ->
  dict_get "success" r = Some (JBool true)
  /\ dict_get "total_documents" r = Some (JInt (Z.of_nat (length doc_ids))).
Proof.
  destruct embeddings as [items | rows]; [by rewrite reduce_and_cluster_array1 |].
  unfold reduce_and_cluster, persist, umap, hdbscan, lift, query_res, transaction.
  cbv [mbind M_bind mret M_ret Np.shape_1].
  repeat (case_match; simplify_eq; try discriminate);
    by intros [= <- <-].
Qed.

(** C10.  The code at the failing inputs.  When the owner has at least 3
    embeddings and a non-empty [document_ids] is given, the two checks pass
    whatever the subset retains (fewer than 3 documents, or none), and
    [execute] goes on with the retained documents; but the embeddings are
    an array of one axis, of texts, and the log line that reads
    [embeddings.shape[1]] raises [IndexError] before UMAP is called:
    [execute] returns the failure "tuple index out of range", and the world
    is unchanged (no call to UMAP or HDBSCAN, no write). *)
Theorem subset_filter_after_checks (env : Env) (user_id : option string)
    (ids : list string) (force_recluster : bool) (w : world)
    (doc_ids : list string) (embeddings : Np.ndarray) :
  PersistenceAdapter.get_embeddings_by_user (db w) user_id = (doc_ids, embeddings) ->
  (3 <= length doc_ids)%nat ->
  ids <> [] ->
  fst (filter_documents (Some ids) doc_ids embeddings)
  = List.filter (fun d => existsb (String.eqb d) ids) doc_ids
  /\ try_block env user_id (Some ids) force_recluster w
     = reduce_and_cluster env user_id
         (fst (filter_documents (Some ids) doc_ids embeddings))
         (snd (filter_documents (Some ids) doc_ids embeddings)) force_recluster w
  /\ try_block env user_id (Some ids) force_recluster w
     = (Raise (Exn IndexError "tuple index out of range"), w)
  /\ execute env user_id (Some ids) force_recluster w
     = (Ret [ ("success", JBool false); ("error", JStr "tuple index out of range") ], w).
Proof.
  intros Hget Hmany Hids.
  destruct (get_embeddings_array (db w) user_id) as (items & Harray & Hlen).
  rewrite Hget in Harray, Hlen. cbn [fst snd] in Harray, Hlen. subst embeddings.
  pose proof (try_block_enough env user_id (Some ids) force_recluster w _ _ Hget Hmany)
    as Hrun.
  assert (try_block env user_id (Some ids) force_recluster w = (Raise Np.no_axis_1, w))
    as Hraise.
  { rewrite Hrun.
    destruct (filter_documents_array (Some ids) doc_ids items) as [kept ->].
    apply reduce_and_cluster_array1. }
  split; [|split; [exact Hrun | split; [exact Hraise |]]].
  - by rewrite (filter_documents_subset ids doc_ids items Hids Hlen).
  - unfold execute, orchestrate. by rewrite Hraise.
Qed.

End ClusterChecksFacts.

(** C5 at an owner with two documents. *)
Lemma cluster_documents_too_few_witness :
  PersistenceAdapter.get_embeddings_by_user (db (Reference.world_of Examples.two_docs_store))
    (Some "bob")
  = ([ "b1"; "b2" ],
     Np.Array1 [ Np.text_of [1; 0; 0]%Q; Np.text_of [0; 1; 0]%Q ])
  /\ (length [ "b1"; "b2" ] < 3)%nat
  /\ ClusterDocumentsUseCase.execute Reference.env (Some "bob") (Some [ "b1" ]) true
       (Reference.world_of Examples.two_docs_store)
     = (Ret [ ("success", JBool false);
              ("error",
               JStr "Se necesitan al menos 3 documentos para clustering (encontrados: 2)") ],
        Reference.world_of Examples.two_docs_store).
Proof.
  assert (PersistenceAdapter.get_embeddings_by_user
            (db (Reference.world_of Examples.two_docs_store)) (Some "bob")
          = ([ "b1"; "b2" ],
             Np.Array1 [ Np.text_of [1; 0; 0]%Q; Np.text_of [0; 1; 0]%Q ])) as H1
    by reflexivity.
  assert (length [ "b1"; "b2" ] < 3)%nat as H2 by (cbn; lia).
  split; [exact H1 | split; [exact H2 |]].
  exact (ClusterChecksFacts.cluster_documents_too_few Reference.env (Some "bob")
           (Some [ "b1" ]) true _ _ _ H1 H2).
Defined.

(** C10 at an owner with three documents and a subset that retains one. *)
Lemma subset_filter_after_checks_witness :
  PersistenceAdapter.get_embeddings_by_user (db (Reference.world_of Examples.alice_store))
    (Some "alice")
  = ([ Examples.d1; Examples.d2; Examples.d3 ],
     Np.Array1 [ Np.text_of [1; 0; 0]%Q; Np.text_of [0; 1; 0]%Q; Np.text_of [0; 0; 1]%Q ])
  /\ (3 <= length [ Examples.d1; Examples.d2; Examples.d3 ])%nat
  /\ [ Examples.d1 ] <> []
  /\ ClusterDocumentsUseCase.filter_documents (Some [ Examples.d1 ])
       [ Examples.d1; Examples.d2; Examples.d3 ]
       (Np.Array1 [ Np.text_of [1; 0; 0]%Q; Np.text_of [0; 1; 0]%Q;
                    Np.text_of [0; 0; 1]%Q ])
     = ([ Examples.d1 ], Np.Array1 [ Np.text_of [1; 0; 0]%Q ])
  /\ ClusterDocumentsUseCase.execute Reference.env (Some "alice") (Some [ Examples.d1 ])
       false (Reference.world_of Examples.alice_store)
     = (Ret [ ("success", JBool false); ("error", JStr "tuple index out of range") ],
        Reference.world_of Examples.alice_store).
Proof.
  assert (PersistenceAdapter.get_embeddings_by_user
            (db (Reference.world_of Examples.alice_store)) (Some "alice")
          = ([ Examples.d1; Examples.d2; Examples.d3 ],
             Np.Array1 [ Np.text_of [1; 0; 0]%Q; Np.text_of [0; 1; 0]%Q;
                         Np.text_of [0; 0; 1]%Q ])) as H1
    by reflexivity.
  assert (3 <= length [ Examples.d1; Examples.d2; Examples.d3 ])%nat as H2 by (cbn; lia).
  assert ([ Examples.d1 ] <> ([] : list string)) as H3 by discriminate.
  destruct (ClusterChecksFacts.subset_filter_after_checks Reference.env (Some "alice")
              [ Examples.d1 ] false (Reference.world_of Examples.alice_store) _ _
              H1 H2 H3) as (_ & _ & _ & Hrun).
  split; [exact H1 | split; [exact H2 | split; [exact H3 | split; [reflexivity |]]]].
  exact Hrun.
Defined.

(** ** Sorting and [np.unique] *)

Module SortFacts.

Section Insertion.
Context {A : Type} (leb : A -> A -> bool).
Hypothesis leb_total : forall x y, leb x y = true \/ leb y x = true.

Lemma insert_by_elem (x y : A) (l : list A) :
  In y (Sql.insert_by leb x l) <-> y = x \/ In y l.
Proof.
  induction l as [|z l IH]; cbn.
  - intuition congruence.
  - destruct (leb x z); cbn; [intuition congruence |].
    rewrite IH. intuition congruence.
Qed.

Lemma insert_by_sorted (x : A) (l : list A) :
  Sorted (fun a b => leb a b = true) l ->
  Sorted (fun a b => leb a b = true) (Sql.insert_by leb x l).
Proof.
  induction 1 as [|z l Hsorted IH Hhd]; cbn.
  - by repeat constructor.
  - destruct (leb x z) eqn:E.
    + by repeat constructor.
    + constructor; [exact IH |].
      assert (leb z x = true) as Hzx by (destruct (leb_total x z); congruence).
      destruct l as [|z' l]; cbn.
      * by constructor.
      * inversion Hhd; subst. destruct (leb x z'); by constructor.
Qed.

Lemma order_by_sorted (l : list A) :
  Sorted (fun a b => leb a b = true) (Sql.order_by leb l).
Proof.
  induction l as [|x l IH]; cbn; [constructor |].
  by apply insert_by_sorted.
Qed.

Lemma order_by_elem (y : A) (l : list A) : In y (Sql.order_by leb l) <-> In y l.
Proof.
  induction l as [|x l IH]; cbn; [done |].
  rewrite insert_by_elem, IH. intuition congruence.
Qed.

End Insertion.

(** [np.unique] returns a strictly increasing list. *)
Lemma unique_increasing (a : list Z) : StronglySorted Z.lt (Py.unique a).
Proof.
  unfold Py.unique.
  assert (StronglySorted Z.le (Sql.order_by Z.leb a)) as Hsorted.
  { apply Sorted_StronglySorted; [intros x y z; lia |].
    assert (Sorted (fun x y => Z.leb x y = true) (Sql.order_by Z.leb a)) as H.
    { apply order_by_sorted. intros x y.
      destruct (Z.leb_spec x y); [by left | right]. apply Z.leb_le. lia. }
    induction H as [|x l _ IH Hhd]; constructor; [exact IH |].
    destruct Hhd; constructor. by apply Z.leb_le. }
  set (dedup := fun x acc => match acc with
                             | y :: _ => if (x =? y)%Z then acc else x :: acc
                             | [] => [x]
                             end).
  enough (StronglySorted Z.lt (fold_right dedup [] (Sql.order_by Z.leb a))
          /\ forall y, In y (fold_right dedup [] (Sql.order_by Z.leb a)) ->
                       In y (Sql.order_by Z.leb a)) by tauto.
  induction Hsorted as [|x l Hsorted [IH1 IH2] Hall]; cbn [fold_right].
  - split; [constructor | done].
  - unfold dedup at 1 3.
    destruct (fold_right dedup [] l) as [|y u] eqn:E.
    + split; [by repeat constructor | cbn; tauto].
    + destruct (Z.eqb_spec x y) as [-> | Hne].
      * split; [exact IH1 |]. intros z Hz. right. by apply IH2.
      * split.
        -- constructor; [exact IH1 |].
           rewrite List.Forall_forall in Hall.
           assert (x < y)%Z as Hxy.
           { pose proof (Hall y (IH2 y (or_introl eq_refl))). lia. }
           apply List.Forall_forall. intros z [<- | Hz]; [exact Hxy |].
           inversion IH1 as [|? ? _ Hlt]; subst.
           rewrite List.Forall_forall in Hlt. specialize (Hlt z Hz). lia.
        -- intros z [<- | Hz]; [by left | right; by apply IH2].
Qed.

Lemma unique_NoDup (a : list Z) : List.NoDup (Py.unique a).
Proof.
  pose proof (unique_increasing a) as H.
  induction H as [|x l _ IH Hall]; constructor; [|exact IH].
  intros Hin. rewrite List.Forall_forall in Hall. specialize (Hall x Hin). lia.
Qed.

(** The cluster numbers of a run are distinct. *)
Lemma clusters_of_NoDup (labels : list Z) :
  List.NoDup (HDBSCANAdapter.clusters_of labels).
Proof. unfold HDBSCANAdapter.clusters_of. apply List.NoDup_filter, unique_NoDup. Qed.

End SortFacts.

(** ** [ON CONFLICT ... DO UPDATE] *)

Module UpsertFacts.

Lemma find_app {A} (p : A -> bool) (l1 l2 : list A) :
  List.find p (l1 ++ l2)
  = match List.find p l1 with
    | Some x => Some x
    | None => List.find p l2
    end.
Proof. induction l1 as [|x l1 IH]; cbn; [done |]. by destruct (p x). Qed.

Lemma find_absent {A} (p : A -> bool) (l : list A) :
  (forall x, In x l -> p x = false) -> List.find p l = None.
Proof.
  induction l as [|x l IH]; cbn; intros H; [done |].
  rewrite (H x (or_introl eq_refl)). apply IH. intros y Hy. apply H. by right.
Qed.

Lemma find_filter_other {A} (p q : A -> bool) (l : list A) :
  (forall x, q x = true -> p x = false) ->
  List.find p (List.filter (fun x => negb (q x)) l) = List.find p l.
Proof.
  intros H. induction l as [|x l IH]; cbn; [done |].
  destruct (q x) eqn:E; cbn.
  - by rewrite (H x E).
  - by destruct (p x).
Qed.

Lemma filter_filter_other {A} (p q : A -> bool) (l : list A) :
  (forall x, q x = true -> p x = false) ->
  List.filter p (List.filter (fun x => negb (q x)) l) = List.filter p l.
Proof.
  intros H. induction l as [|x l IH]; cbn; [done |].
  destruct (q x) eqn:E; cbn.
  - by rewrite (H x E).
  - destruct (p x); by rewrite IH.
Qed.

Section Upsert.
Context {A : Type} (same_key : A -> bool) (update : A -> A) (new : A).

(** The rows after an upsert: the rows of other keys, followed by the
    updated row of the key, or by the new row when the key is new. *)
Lemma upsert_cases (rows : list A) :
  (exists r,
     In r rows /\ same_key r = true
     /\ List.find same_key rows = Some r
     /\ Sql.upsert same_key update new rows
        = List.filter (fun r' => negb (same_key r')) rows ++ [update r])
  \/ ((forall r, In r rows -> same_key r = false)
      /\ Sql.upsert same_key update new rows = rows ++ [new]).
Proof.
  unfold Sql.upsert. destruct (List.find same_key rows) as [r|] eqn:E.
  - left. apply find_some in E as [Hin Hkey]. by exists r.
  - right. split; [|done]. intros r Hr. exact (find_none _ _ E r Hr).
Qed.

(** A query for other rows does not see the upsert. *)
Lemma filter_upsert_other (p : A -> bool) (rows : list A) :
  (forall r, same_key r = true -> p r = false /\ p (update r) = false) ->
  p new = false ->
  List.filter p (Sql.upsert same_key update new rows) = List.filter p rows.
Proof.
  intros Hkey Hnew.
  destruct (upsert_cases rows) as [(r & Hin & Hr & _ & ->) | [_ ->]];
    rewrite List.filter_app; cbn.
  - destruct (Hkey r Hr) as [_ ->]. rewrite app_nil_r.
    apply filter_filter_other. intros x Hx. by apply Hkey.
  - by rewrite Hnew, app_nil_r.
Qed.

(** A row that is not of the key is still there. *)
Lemma upsert_keeps (rows : list A) (r : A) :
  In r rows -> same_key r = false -> In r (Sql.upsert same_key update new rows).
Proof.
  intros Hr Hkey.
  destruct (upsert_cases rows) as [(r0 & _ & _ & _ & ->) | [_ ->]];
    apply in_or_app; left; [|done].
  apply filter_In. split; [done |]. by rewrite Hkey.
Qed.

(** The lookup of the key finds the updated row, or the new one. *)
Lemma find_upsert (rows : list A) :
  same_key new = true ->
  (forall r, same_key r = true -> same_key (update r) = true) ->
  List.find same_key (Sql.upsert same_key update new rows)
  = Some (match List.find same_key rows with
          | Some r => update r
          | None => new
          end).
Proof.
  intros Hnew Hupdate. unfold Sql.upsert.
  destruct (List.find same_key rows) as [r|] eqn:E; rewrite find_app.
  - rewrite find_absent.
    2: { intros x Hx. apply filter_In in Hx as [_ Hx]. by destruct (same_key x). }
    cbn. apply find_some in E as [_ E]. by rewrite (Hupdate r E).
  - rewrite E. cbn. by rewrite Hnew.
Qed.

(** The lookup of another key finds what it found before. *)
Lemma find_upsert_other (p : A -> bool) (rows : list A) :
  (forall r, same_key r = true -> p r = false /\ p (update r) = false) ->
  p new = false ->
  List.find p (Sql.upsert same_key update new rows) = List.find p rows.
Proof.
  intros Hkey Hnew.
  destruct (upsert_cases rows) as [(r & Hin & Hr & _ & ->) | [_ ->]]; rewrite find_app.
  - rewrite find_filter_other by (intros x Hx; by apply Hkey).
    destruct (List.find p rows); [done |]. cbn. by destruct (Hkey r Hr) as [_ ->].
  - destruct (List.find p rows); [done |]. cbn. by rewrite Hnew.
Qed.


End Upsert.

Section Replace.
Context {A : Type} (same_key : A -> bool) (new : A).

(** The lookup of the key of a row that was just upserted finds it. *)
Lemma find_upsert_hit (rows : list A) :
  same_key new = true ->
  List.find same_key (Sql.upsert same_key (fun _ => new) new rows) = Some new.
Proof.
  intros Hnew. rewrite find_upsert by done. by destruct (List.find same_key rows).
Qed.

(** The lookup of another key finds what it found before. *)
Lemma find_upsert_miss (p : A -> bool) (rows : list A) :
  (forall r, same_key r = true -> p r = false) ->
  p new = false ->
  List.find p (Sql.upsert same_key (fun _ => new) new rows) = List.find p rows.
Proof.
  intros Hkey Hnew. apply find_upsert_other; [|done].
  intros r Hr. split; [by apply Hkey | done].
Qed.

End Replace.

End UpsertFacts.

(** ** [save_clusters] and the Cluster set of an owner *)

Module ClusterStoreFacts.
Import Store Views.



(** The upsert of a cluster leaves the rows with other keys as they are. *)
Lemma find_row_insert_other (u u' : string) (c : Z) (rows : list cluster_row) (seq : Z)
    (cluster : cluster_info) :
  u' <> u \/ c <> ci_cluster_id cluster ->
  find_row (fst (PersistenceAdapter.insert_cluster u (rows, seq) cluster)) u' c
  = find_row rows u' c.
Proof.
  intros Hother. cbn. unfold find_row.
  assert (forall r : cluster_row,
            String.eqb (cl_user_id r) u && (cl_cluster_id r =? ci_cluster_id cluster)%Z
            = true ->
            String.eqb (cl_user_id r) u' && (cl_cluster_id r =? c)%Z = false) as Hkey.
  { intros r E. apply andb_true_iff in E as [E1 E2].
    apply String.eqb_eq in E1. apply Z.eqb_eq in E2.
    apply andb_false_iff.
    destruct Hother as [Hu | Hc]; [left | right].
    - apply String.eqb_neq. congruence.
    - apply Z.eqb_neq. congruence. }
  apply UpsertFacts.find_upsert_other.
  - intros r Hr. split; [by apply Hkey | cbn; by apply Hkey].
  - cbn. apply andb_false_iff.
    destruct Hother as [Hu | Hc]; [left | right].
    + apply String.eqb_neq. congruence.
    + apply Z.eqb_neq. congruence.
Qed.

Lemma fold_insert_pair (u : string) (data : list cluster_info)
    (tbl : list cluster_row * Z) (cluster : cluster_info) :
  fold_left (PersistenceAdapter.insert_cluster u) (cluster :: data) tbl
  = fold_left (PersistenceAdapter.insert_cluster u) data
      (fst (PersistenceAdapter.insert_cluster u tbl cluster),
       snd (PersistenceAdapter.insert_cluster u tbl cluster)).
Proof. cbn [fold_left]. by destruct (PersistenceAdapter.insert_cluster u tbl cluster). Qed.



(** The loop does not touch the rows of other owners. *)
Lemma find_row_fold_insert_other (u u' : string) (data : list cluster_info) :
  u' <> u ->
  forall (rows : list cluster_row) (seq c : Z),
    find_row (fst (fold_left (PersistenceAdapter.insert_cluster u) data (rows, seq))) u' c
    = find_row rows u' c.
Proof.
  intros Hne. induction data as [|d data IH]; intros rows seq c; [reflexivity |].
  rewrite fold_insert_pair, IH. apply find_row_insert_other. by left.
Qed.





End ClusterStoreFacts.

(** ** Step 7 of [cluster_documents] and the Cluster set *)

Module ClusterRunFacts.
Import Store Views ClusterDocumentsUseCase.

Lemma mapM_res_map {A B} (f : A -> res B) (g : B -> A) (l : list A) (out : list B) :
  (forall x y, f x = Ret y -> g y = x) ->
  mapM (M := res) f l = Ret out -> map g out = l.
Proof.
  intros Hfg. revert out. induction l as [|x l IH]; intros out; cbn.
  - by intros [= <-].
  - destruct (f x) as [y|] eqn:E; cbn; [|discriminate].
    destruct (mapM f l) as [k|]; cbn; [|discriminate].
    intros [= <-]. cbn. f_equal; [by apply Hfg | by apply IH].
Qed.

(** [cluster_data] has one element per cluster number of the statistics. *)
Lemma build_cluster_data_ids (env : Env) (stats : HDBSCANAdapter.statistics)
    (cluster_labels : gmap Z string) (centroids : gmap Z vec) (doc_ids : list string)
    (labels : list Z) (metadata : gmap dict_key string) (data : list cluster_info) :
  build_cluster_data env stats cluster_labels centroids doc_ids labels metadata = Ret data ->
  map ci_cluster_id data = HDBSCANAdapter.cluster_ids stats.
Proof.
  apply mapM_res_map. intros c y.
  destruct (HDBSCANAdapter.cluster_sizes stats !! c); cbn; [|discriminate].
  destruct (centroids !! c); cbn; [|discriminate].
  by intros [= <-].
Qed.

(** What step 7 is given by the steps before it, on embeddings that are a
    matrix: [cluster_data] has one element per cluster number of the
    labels, which are distinct, and the result lists [cluster_data]. *)
Lemma reduce_and_cluster_persists (env : Env) (user_id : option string)
    (doc_ids : list string) (rows : list vec) (force_recluster : bool)
    (w w' : world) (r : pydict) :
  reduce_and_cluster env user_id doc_ids (Np.Array2 rows) force_recluster w = (Ret r, w') ->
  exists labels probabilities cluster_data w1,
    map ci_cluster_id cluster_data = HDBSCANAdapter.clusters_of labels
    /\ List.NoDup (map ci_cluster_id cluster_data)
    /\ db w1 = db w
    /\ persist user_id cluster_data doc_ids labels probabilities force_recluster w1
       = (Ret (), w')
    /\ dict_get "clusters" r = Some (clusters_json cluster_data).
Proof.
  unfold reduce_and_cluster, umap, hdbscan, lift, query_res.
  cbv [mbind M_bind mret M_ret Np.shape_1].
  destruct (umap_fit_transform env _ rows) as [reduced|]; [|discriminate].
  destruct (hdbscan_fit_predict env reduced) as [[labels probabilities]|]; [|discriminate].
  destruct (HDBSCANAdapter.get_cluster_centroids labels reduced) as [centroids|];
    [|discriminate].
  cbn [db ml_calls].
  destruct (PersistenceAdapter.get_document_metadata (db w) doc_ids) as [metadata|];
    [|discriminate].
  destruct (build_cluster_data env _ _ centroids doc_ids labels _) as [data|] eqn:Hdata;
    [|discriminate].
  match goal with
  | |- context [persist user_id data doc_ids labels probabilities force_recluster ?w1] =>
    destruct (persist user_id data doc_ids labels probabilities force_recluster w1)
      as [[[]|e] w2] eqn:Hpersist; [|discriminate];
    intros [= <- <-]; exists labels, probabilities, data, w1
  end.
  apply build_cluster_data_ids in Hdata as Hids. cbn in Hids.
  split; [exact Hids | split; [|split; [reflexivity | split; [exact Hpersist | reflexivity]]]].
  rewrite Hids. apply SortFacts.clusters_of_NoDup.
Qed.



End ClusterRunFacts.



(** ** [get_visualization] *)

Module VisualizationFacts.
Import Store UpdateVisualizationUseCase MonadFacts.

(** On embeddings that arrive as an array of one axis, the computation of
    a new visualization stops at the log line of [fit_transform]: UMAP is
    not called and nothing is written. *)
Lemma compute_visualization_stops (env : Env) (user_id : option string) (w : world) :
  fst (PersistenceAdapter.get_embeddings_by_user (db w) user_id) <> [] ->
  compute_visualization env user_id w = (Raise Np.no_axis_1, w).
Proof.
  intros Hdocs. unfold compute_visualization, query. cbv [mbind M_bind].
  destruct (ClusterChecksFacts.get_embeddings_array (db w) user_id) as (items & Harray & _).
  destruct (PersistenceAdapter.get_embeddings_by_user (db w) user_id)
    as [doc_ids embeddings].
  cbn [fst snd] in *. subst embeddings.
  destruct doc_ids as [|d ds]; [done |]. reflexivity.
Qed.


End VisualizationFacts.



(** ** [recommend_similar] *)

Module RecommendFacts.
Import Store Views RecommendSimilarUseCase.

Lemma string_order_total (a b : string) :
  String.ltb a b = true \/ a = b \/ String.ltb b a = true.
Proof.
  unfold String.ltb. destruct (String.compare a b) eqn:E.
  - right. left. by apply String.compare_eq_iff.
  - by left.
  - right. right. rewrite String.compare_antisym, E. reflexivity.
Qed.

Lemma by_document_then_distance_total (c1 c2 : candidate) :
  by_document_then_distance c1 c2 = true \/ by_document_then_distance c2 c1 = true.
Proof.
  unfold by_document_then_distance.
  destruct (string_order_total (cand_document c1) (cand_document c2)) as [H | [H | H]].
  - left. by rewrite H.
  - rewrite H, String.eqb_refl.
    destruct (Qle_bool (cand_distance c1) (cand_distance c2)) eqn:E.
    + left. apply orb_true_r.
    + right. apply orb_true_iff. right. cbn.
      apply Qle_bool_iff. apply Qlt_le_weak. apply Qnot_le_lt.
      intros Hle. apply Qle_bool_iff in Hle. congruence.
  - right. by rewrite H.
Qed.

(** Rows in the order of [query_similar] have non-decreasing documents. *)
Lemma by_document_then_distance_document (c1 c2 : candidate) :
  by_document_then_distance c1 c2 = true ->
  String.ltb (cand_document c1) (cand_document c2) = true
  \/ cand_document c1 = cand_document c2.
Proof.
  unfold by_document_then_distance. intros H.
  apply orb_true_iff in H as [H | H]; [by left | right].
  apply andb_true_iff in H as [H _]. by apply String.eqb_eq.
Qed.

(** [DISTINCT ON (lpe.document)] over the ordered rows leaves the
    documents strictly increasing. *)
Lemma distinct_from_increasing (rows : list candidate) :
  Sorted (fun a b => by_document_then_distance a b = true) rows ->
  forall prev,
    match prev, rows with
    | Some k, r :: _ => String.ltb k (cand_document r) = true \/ k = cand_document r
    | _, _ => True
    end ->
    Sorted before (Sql.distinct_from cand_document prev rows)
    /\ match prev, Sql.distinct_from cand_document prev rows with
       | Some k, r :: _ => String.ltb k (cand_document r) = true
       | _, _ => True
       end.
Proof.
  induction 1 as [|r rows Hsorted IH Hhd]; intros prev Hprev.
  - cbn. split; [constructor | by destruct prev].
  - assert (match rows with
            | r' :: _ => String.ltb (cand_document r) (cand_document r') = true
                         \/ cand_document r = cand_document r'
            | [] => True
            end) as Hnext.
    { destruct Hhd; [done |]. by apply by_document_then_distance_document. }
    assert (Sorted before (r :: Sql.distinct_from cand_document (Some (cand_document r)) rows))
      as Hkeep.
    { destruct (IH (Some (cand_document r)) Hnext) as [IH1 IH2].
      constructor; [exact IH1 |].
      destruct (Sql.distinct_from cand_document (Some (cand_document r)) rows);
        by constructor. }
    destruct prev as [k|]; cbn [Sql.distinct_from]; [|done].
    destruct (String.eqb_spec k (cand_document r)) as [-> | Hne].
    + exact (IH (Some (cand_document r)) Hnext).
    + split; [exact Hkeep |]. by destruct Hprev.
Qed.

Lemma Sorted_firstn {A} (R : A -> A -> Prop) (n : nat) (l : list A) :
  Sorted R l -> Sorted R (firstn n l).
Proof.
  intros H. revert n. induction H as [|x l _ IH Hhd]; intros [|n]; cbn;
    try constructor.
  - apply IH.
  - destruct Hhd; destruct n; cbn; by constructor.
Qed.

Lemma Sorted_map {A B} (R : A -> A -> Prop) (R' : B -> B -> Prop) (f : A -> B)
    (l : list A) :
  (forall a b, R a b -> R' (f a) (f b)) -> Sorted R l -> Sorted R' (map f l).
Proof.
  intros Hf. induction 1 as [|x l _ IH Hhd]; cbn; constructor; [exact IH |].
  destruct Hhd; cbn; constructor. by apply Hf.
Qed.

(** Whatever the embeddings are, the list that [_calculate_similarity]
    returns is in strictly increasing order of document id: [LIMIT top_k]
    keeps the [top_k] smallest document ids of the collection, not the
    [top_k] most similar documents. *)
Lemma recommendations_in_document_order (env : Env) (st : store)
    (document_id : option string) (top_k : Z) (user_id : option string)
    (recommendations : list recommendation) :
  _calculate_similarity env st document_id top_k user_id = Ret recommendations ->
  Sorted (fun r1 r2 => String.ltb (ri_document_id r1) (ri_document_id r2) = true)
    recommendations.
Proof.
  unfold _calculate_similarity.
  destruct (List.find _ (langchain_pg_embedding st)) as [base_result|].
  2: { intros [= <-]. constructor. }
  unfold Sql.limit. destruct (top_k <? 0)%Z; [discriminate |].
  destruct (top_k =? 0)%Z; cbn [mbind res_bind].
  { intros [= <-]. constructor. }
  destruct (candidates env st _ _ document_id) as [rows|]; cbn [mbind res_bind];
    [|discriminate].
  intros [= <-].
  apply (Sorted_map before); [done |].
  apply Sorted_firstn. unfold Sql.distinct_on.
  apply distinct_from_increasing; [|done].
  apply SortFacts.order_by_sorted, by_document_then_distance_total.
Qed.

(** C1.  The code at the failing input: in a collection where [doc_b] has
    the base document's embedding (similarity 1) and [doc_a] is orthogonal
    to it (similarity 0), [recommend_similar] with [top_k = 1] and a cold
    cache returns and persists [doc_a]. *)
Theorem recommend_similar_ranks_by_document :
  exists w',
    execute Reference.env (Some Examples.doc_0) 1 None
      (Reference.world_of Examples.library_store)
    = (Ret [ ("success", JBool true);
             ("document_id", JStr "00000000-0000-0000-0000-000000000000");
             ("recommendations",
              JArr [ JObj [ ("document_id", JStr "00000000-0000-0000-0000-00000000000a");
                            ("filename", JStr "otro.pdf");
                            ("similarity_score", JFloat (0 # 10000)) ] ]) ], w')
    /\ ml_recommendations (db w')
       = [ {| rc_document_id := Examples.doc_0;
              rc_recommended_document_id := Examples.doc_a;
              rc_similarity_score := 0; rc_rank := 1 |} ]
    /\ PersistenceAdapter.get_recommendations Examples.library_store
         (Some Examples.doc_0) 1 = Ret []
    /\ cosine_distance Reference.env [0; 1]%Q [1; 0]%Q = 1%Q
    /\ cosine_distance Reference.env [1; 0]%Q [1; 0]%Q = 0%Q.
Proof.
  eexists. split; [vm_compute; reflexivity |].
  repeat split; reflexivity.
Qed.

End RecommendFacts.

(** ** The model on small inputs *)

Module Checks.
Import Store.

Example int_to_bytes4_258 : Wire.int_to_bytes4 258 = Ret [ x00; x00; x01; x02 ].
Proof. reflexivity. Qed.

Example int_from_bytes_258 : Wire.int_from_bytes [ x00; x00; x01; x02 ] = 258%N.
Proof. reflexivity. Qed.

Example utf8_accepts_two_byte_sequence : Utf8.valid [ xc3; xb3 ] = true.
Proof. reflexivity. Qed.

Example utf8_rejects_lone_continuation : Utf8.valid [ x61; xb3 ] = false.
Proof. reflexivity. Qed.

Example utf8_rejects_surrogate : Utf8.valid [ xed; xa0; x80 ] = false.
Proof. reflexivity. Qed.

Example action_of_unknown_value : action_of_value "does_not_exist" = None.
Proof. reflexivity. Qed.

Example round_ties_to_even : Qeq_bool (Py.round (12345 # 100000) 4) (1234 # 10000) = true.
Proof. reflexivity. Qed.

Example round_up : Qeq_bool (Py.round (12346 # 100000) 4) (1235 # 10000) = true.
Proof. reflexivity. Qed.

Example unique_sorts_and_dedups : Py.unique [ 2; -1; 0; 2; 0 ]%Z = [ -1; 0; 2 ]%Z.
Proof. reflexivity. Qed.

Example clusters_skip_outliers :
  HDBSCANAdapter.clusters_of [ 2; -1; 0; 2; 0 ]%Z = [ 0; 2 ]%Z.
Proof. reflexivity. Qed.

Example mean_of_two_rows :
  map Qred (Py.mean_rows [ [1; 0]; [0; 1] ]%Q) = [ 1 # 2; 1 # 2 ]%Q.
Proof. reflexivity. Qed.

(** A response is decoded as a response: it has no key [action]. *)
Example response_roundtrip :
  (frame ← Protocol.encode_message Reference.runtime
             (Resp (create_error "Acción no soportada: update_clusters" (Some "req-7")));
   Protocol.decode_message Reference.runtime frame)
  = Ret (Resp (create_error "Acción no soportada: update_clusters" (Some "req-7"))).
Proof. vm_compute. reflexivity. Qed.

(** A peer that closes after two bytes is answered best-effort. *)
Example short_read_is_answered :
  Protocol.decode_message Reference.runtime
    (fst (TCPServer.handle_client Reference.runtime
            (TCPServer.main_server Reference.env) [ x00; x00 ]
            (Reference.world_of Reference.empty_store)))
  = Ret (Resp (create_error "Conexión cerrada inesperadamente" None)).
Proof. vm_compute. reflexivity. Qed.

(** [ping] over the wire. *)
Example ping_is_answered :
  Protocol.decode_message Reference.runtime
    (fst (TCPServer.handle_client Reference.runtime
            (TCPServer.main_server Reference.env)
            (Reference.frame (Protocol.to_json Reference.runtime
                                (Req (mkRequest PING [] (Some "p-1")))))
            (Reference.world_of Reference.empty_store)))
  = Ret (Resp (success [ ("message", JStr "pong"); ("status", JStr "healthy") ]
                 (Some "p-1"))).
Proof. vm_compute. reflexivity. Qed.

(** [text::uuid] accepts the hyphenated form, upper case and braces, and
    refuses anything else. *)
Example uuid_of_text_forms :
  Uuid.of_text "00000000-0000-0000-0000-0000000000d1" = Some 209%N
  /\ Uuid.of_text "000000000000000000000000000000D1" = Some 209%N
  /\ Uuid.of_text "{00000000-0000-0000-0000-0000000000d1}" = Some 209%N
  /\ Uuid.of_text "d1" = None
  /\ Uuid.of_text "doc-a" = None
  /\ Uuid.of_text "00000000-0000-0000-0000-0000000000d1 " = None.
Proof. repeat split; reflexivity. Qed.

(** An upsert leaves the updated row last. *)
Example upsert_moves_updated_row :
  Sql.upsert (Nat.eqb 1) (fun _ => 10%nat) 10%nat [ 1; 2; 3 ]%nat = [ 2; 3; 10 ]%nat
  /\ Sql.upsert (Nat.eqb 4) (fun _ => 10%nat) 40%nat [ 1; 2; 3 ]%nat = [ 1; 2; 3; 40 ]%nat.
Proof. split; reflexivity. Qed.

(** The reference printer on floats. *)
Example print_floats :
  map Reference.print [ JFloat 1; JFloat (1 # 2); JFloat (-(1234 # 10000)); JNan ]
  = [ "1.0"; "0.5"; "-0.1234"; "null" ].
Proof. vm_compute. reflexivity. Qed.

(** With [top_k = 5] the list is not in descending order of similarity. *)
Example recommendations_ascend_by_document :
  (recs ← RecommendSimilarUseCase._calculate_similarity Reference.env
             Examples.library_store (Some Examples.doc_0) 5 None;
   Ret (map (fun r => (ri_document_id r, ri_similarity_score r)) recs))
  = Ret [ (Examples.doc_a, 0%Q); (Examples.doc_b, 1%Q) ].
Proof. reflexivity. Qed.

(** A document id that is not the text of a [uuid] fails the query of the
    candidates. *)
Example candidates_need_uuid_texts :
  exists text,
    RecommendSimilarUseCase._calculate_similarity Reference.env
      (set_ml_recommendations [] Examples.two_docs_store) (Some "b1") 5 None
    = Raise (Exn DatabaseError text).
Proof. eexists. vm_compute. reflexivity. Qed.

(** A second call is served from the cache. *)
Example second_call_hits_cache :
  let first := RecommendSimilarUseCase.execute Reference.env (Some Examples.doc_0) 1 None
                 (Reference.world_of Examples.library_store) in
  let second := RecommendSimilarUseCase.execute Reference.env (Some Examples.doc_0) 1 None
                  (snd first) in
  snd second = snd first
  /\ (rs ← fst second; Ret (dict_get "recommendations" rs))
     = Ret (Some (JArr [ JObj [ ("document_id", JStr Examples.doc_a);
                                ("filename", JStr "otro.pdf");
                                ("similarity_score", JFloat (0 # 10000));
                                ("rank", JInt 1) ] ])).
Proof. split; vm_compute; reflexivity. Qed.

End Checks.

(** * Further properties of the code *)

(** ** Frames on the wire *)

Module FrameFacts.
Import Wire Protocol.

Lemma len_lt_length {A} (l : list A) (n : nat) :
  (len l <? N.of_nat n)%N = (length l <? n)%nat.
Proof.
  unfold len. destruct (Nat.ltb_spec (length l) n).
  - apply N.ltb_lt. lia.
  - apply N.ltb_ge. lia.
Qed.

(** The guards of [decode_message], read as a statement on lengths. *)
Lemma decode_frame_ret (data json_bytes : list byte) :
  decode_frame data = Ret json_bytes <->
  (4 <= length data)%nat
  /\ (int_from_bytes (firstn 4 data) <= N.of_nat (length data - 4))%N
  /\ json_bytes = slice 4 (int_from_bytes (firstn 4 data)) data.
Proof.
  unfold decode_frame.
  change 4%N with (N.of_nat 4). rewrite len_lt_length.
  destruct (Nat.ltb_spec (length data) 4) as [Hshort | Hlong].
  { split; [discriminate | lia]. }
  set (declared := int_from_bytes (firstn 4 data)).
  assert (len (slice (N.of_nat 4) declared data)
          = N.min declared (N.of_nat (length data - 4))) as ->.
  { unfold len, slice. rewrite length_take, length_drop, Nat2N.id. lia. }
  destruct (N.ltb_spec (N.min declared (N.of_nat (length data - 4))) declared).
  - split; [discriminate | lia].
  - split.
    + intros [= <-]. split; [lia | split; [lia | reflexivity]].
    + intros (_ & _ & ->). reflexivity.
Qed.

(** Bytes after the declared payload are not looked at. *)
Lemma decode_frame_app (data extra json_bytes : list byte) :
  decode_frame data = Ret json_bytes -> decode_frame (data ++ extra) = Ret json_bytes.
Proof.
  rewrite !decode_frame_ret. intros (Hlen & Hdeclared & ->).
  rewrite take_app_le by lia. rewrite length_app.
  split; [lia | split; [lia |]].
  unfold slice. change (N.to_nat 4) with 4%nat.
  rewrite drop_app_le by lia. rewrite take_app_le; [done |].
  rewrite length_drop. lia.
Qed.

(** X1.  The frame that [encode_message] builds is the 4-byte big-endian
    length of the UTF-8 JSON text followed by that text, and it passes the
    two completeness guards of [decode_message]; the only failure of
    [encode_message] is the [OverflowError] of a text of [2 ^ 32] bytes or
    more. *)
Theorem encode_message_layout (rt : PyRuntime) (m : message) :
  match encode_message rt m with
  | Ret frame =>
    (len (Utf8.encode (to_json rt m)) < 2 ^ 32)%N
    /\ length frame = (4 + length (Utf8.encode (to_json rt m)))%nat
    /\ int_from_bytes (firstn 4 frame) = len (Utf8.encode (to_json rt m))
    /\ skipn 4 frame = Utf8.encode (to_json rt m)
    /\ decode_frame frame = Ret (Utf8.encode (to_json rt m))
  | Raise e =>
    (2 ^ 32 <= len (Utf8.encode (to_json rt m)))%N
    /\ e = Exn OverflowError "int too big to convert"
  end.
Proof.
  unfold encode_message.
  destruct (int_to_bytes4 (len (Utf8.encode (to_json rt m)))) as [length_bytes | e] eqn:E;
    cbn [mbind res_bind].
  - pose proof E as [Hint Hlen]%WireFacts.int_from_bytes_to_bytes4.
    assert (len (Utf8.encode (to_json rt m)) < 2 ^ 32)%N as Hfits.
    { unfold int_to_bytes4 in E.
      destruct (N.ltb_spec (len (Utf8.encode (to_json rt m))) (2 ^ 32)); [done | discriminate]. }
    split; [exact Hfits |]. split; [rewrite length_app; lia |].
    split; [|split].
    + rewrite take_app_le by lia. rewrite firstn_all2 by lia. exact Hint.
    + rewrite drop_app_le by lia. rewrite skipn_all2 by lia. reflexivity.
    + by apply (WireFacts.decode_frame_complete _ _ _ E).
  - unfold int_to_bytes4 in E.
    destruct (N.ltb_spec (len (Utf8.encode (to_json rt m))) (2 ^ 32)); [discriminate |].
    split; [done | congruence].
Qed.

(** X2.  [decode_message] reads the declared number of bytes after the
    prefix and nothing else: appending bytes to a buffer that holds a
    complete frame does not change what it returns or raises. *)
Theorem decode_message_ignores_trailing (rt : PyRuntime) (data extra : list byte) :
  (4 <= length data)%nat ->
  (int_from_bytes (firstn 4 data) <= N.of_nat (length data - 4))%N ->
  decode_message rt (data ++ extra) = decode_message rt data.
Proof.
  intros Hlen Hdeclared.
  assert (decode_frame data = Ret (slice 4 (int_from_bytes (firstn 4 data)) data)) as Hframe.
  { by apply decode_frame_ret. }
  unfold decode_message. by rewrite (decode_frame_app _ extra _ Hframe), Hframe.
Qed.

(** X3.  What [decode_message] makes of a complete frame whose payload is
    the UTF-8 text of a JSON value: it returns a message only for a JSON
    object, a request (validated as [TCPRequest]) exactly when the object
    has the key [action] and a response (validated as [TCPResponse])
    otherwise; a number, a boolean or [null] raises [TypeError]; anything
    else that fails is a validation error. *)
Theorem decode_message_classifies (rt : PyRuntime) (data json_bytes : list byte)
    (text : string) (j : json) :
  decode_frame data = Ret json_bytes ->
  Utf8.decode json_bytes = Ret text ->
  json_loads rt text = Ret j ->
  match decode_message rt data with
  | Ret (Req r) =>
    exists fields, j = JObj fields /\ dict_has "action" fields = true
                   /\ validate_request j = Some r
  | Ret (Resp r) =>
    exists fields, j = JObj fields /\ dict_has "action" fields = false
                   /\ validate_response j = Some r
  | Raise e =>
    match j with
    | JNull | JBool _ | JInt _ | JFloat _ | JNan => exn_cls e = TypeError
    | JArr _ | JStr _ | JObj _ =>
      exists model, e = Exn ValidationError (validation_error_text rt model text)
    end
  end.
Proof.
  intros Hframe Hutf8 Hloads.
  unfold decode_message. rewrite Hframe. cbn [mbind res_bind].
  rewrite Hutf8. cbn [mbind res_bind]. rewrite Hloads. cbn [mbind res_bind].
  unfold request_from_json, response_from_json, model_validate_json. rewrite Hloads.
  destruct j as [| b | n | q | | s | items | fields]; cbn [contains_action mbind res_bind];
    try reflexivity.
  - destruct (String.index 0 "action" s); cbn [fmap res_fmap]; by eexists.
  - destruct (existsb _ items); cbn [fmap res_fmap]; by eexists.
  - destruct (dict_has "action" fields) eqn:Haction.
    + destruct (validate_request (JObj fields)) as [r|] eqn:Hvalid; cbn [fmap res_fmap];
        [by exists fields | by eexists].
    + destruct (validate_response (JObj fields)) as [r|] eqn:Hvalid; cbn [fmap res_fmap];
        [by exists fields | by eexists].
Qed.

End FrameFacts.

(** X2 at the frame of [Examples.unregistered_request] followed by three
    stray bytes. *)
Lemma decode_message_ignores_trailing_witness :
  (4 <= length Examples.unregistered_stream)%nat
  /\ (Wire.int_from_bytes (firstn 4 Examples.unregistered_stream)
      <= N.of_nat (length Examples.unregistered_stream - 4))%N
  /\ Protocol.decode_message Reference.runtime
       (Examples.unregistered_stream ++ [ x7b; x00; xff ])
     = Ret (Req Examples.unregistered_request).
Proof.
  assert (4 <= length Examples.unregistered_stream)%nat as H1 by (vm_compute; lia).
  assert (Wire.int_from_bytes (firstn 4 Examples.unregistered_stream)
          <= N.of_nat (length Examples.unregistered_stream - 4))%N as H2
    by (vm_compute; discriminate).
  split; [exact H1 | split; [exact H2 |]].
  rewrite (FrameFacts.decode_message_ignores_trailing Reference.runtime
             Examples.unregistered_stream [ x7b; x00; xff ] H1 H2).
  vm_compute. reflexivity.
Defined.

(** X3 at the frame of [Examples.unregistered_request]. *)
Lemma decode_message_classifies_witness :
  Wire.decode_frame Examples.unregistered_stream
  = Ret (Utf8.encode (Protocol.to_json Reference.runtime (Req Examples.unregistered_request)))
  /\ Utf8.decode (Utf8.encode (Protocol.to_json Reference.runtime
                                 (Req Examples.unregistered_request)))
     = Ret (Protocol.to_json Reference.runtime (Req Examples.unregistered_request))
  /\ json_loads Reference.runtime
       (Protocol.to_json Reference.runtime (Req Examples.unregistered_request))
     = Ret (Protocol.request_to_json Examples.unregistered_request)
  /\ match Protocol.decode_message Reference.runtime Examples.unregistered_stream with
     | Ret (Req r) =>
       exists fields,
         Protocol.request_to_json Examples.unregistered_request = JObj fields
         /\ dict_has "action" fields = true
         /\ Protocol.validate_request (Protocol.request_to_json Examples.unregistered_request)
            = Some r
     | Ret (Resp r) =>
       exists fields,
         Protocol.request_to_json Examples.unregistered_request = JObj fields
         /\ dict_has "action" fields = false
         /\ Protocol.validate_response (Protocol.request_to_json Examples.unregistered_request)
            = Some r
     | Raise e =>
       exists model,
         e = Exn ValidationError
               (validation_error_text Reference.runtime model
                  (Protocol.to_json Reference.runtime (Req Examples.unregistered_request)))
     end.
Proof.
  assert (Wire.decode_frame Examples.unregistered_stream
          = Ret (Utf8.encode (Protocol.to_json Reference.runtime
                                (Req Examples.unregistered_request)))) as H1
    by (vm_compute; reflexivity).
  assert (Utf8.decode (Utf8.encode (Protocol.to_json Reference.runtime
                                      (Req Examples.unregistered_request)))
          = Ret (Protocol.to_json Reference.runtime (Req Examples.unregistered_request)))
    as H2 by (vm_compute; reflexivity).
  assert (json_loads Reference.runtime
            (Protocol.to_json Reference.runtime (Req Examples.unregistered_request))
          = Ret (Protocol.request_to_json Examples.unregistered_request)) as H3
    by (vm_compute; reflexivity).
  split; [exact H1 | split; [exact H2 | split; [exact H3 |]]].
  exact (FrameFacts.decode_message_classifies Reference.runtime _ _ _ _ H1 H2 H3).
Defined.

(** ** One connection of the server *)

Module ConnectionFacts.
Import Wire TCPServer.

(** The two reads of [handle_client], read as a statement on lengths. *)
Lemma read_message_ret (stream full : list byte) :
  read_message stream = Ret full <->
  (4 <= length stream)%nat
  /\ (int_from_bytes (firstn 4 stream) <= N.of_nat (length stream - 4))%N
  /\ full = firstn 4 stream
            ++ firstn (N.to_nat (int_from_bytes (firstn 4 stream))) (skipn 4 stream).
Proof.
  unfold read_message, readexactly.
  change 4%N with (N.of_nat 4). rewrite FrameFacts.len_lt_length. rewrite Nat2N.id.
  destruct (Nat.ltb_spec (length stream) 4) as [Hshort | Hlong]; cbn [mbind res_bind].
  { split; [discriminate | lia]. }
  set (declared := int_from_bytes (firstn 4 stream)).
  assert (len (skipn 4 stream) = N.of_nat (length stream - 4)) as ->.
  { unfold len. by rewrite length_drop. }
  destruct (N.ltb_spec (N.of_nat (length stream - 4)) declared); cbn [mbind res_bind].
  - split; [discriminate | lia].
  - split; [intros [= <-]; split; [lia | split; [lia | reflexivity]] |].
    by intros (_ & _ & ->).
Qed.

Lemma read_message_raise (stream : list byte) (e : exn) :
  read_message stream = Raise e <->
  e = Exn IncompleteReadError "bytes read on a total of expected bytes"
  /\ ((length stream < 4)%nat
      \/ ((4 <= length stream)%nat
          /\ (N.of_nat (length stream - 4) < int_from_bytes (firstn 4 stream))%N)).
Proof.
  unfold read_message, readexactly.
  change 4%N with (N.of_nat 4). rewrite FrameFacts.len_lt_length. rewrite Nat2N.id.
  destruct (Nat.ltb_spec (length stream) 4) as [Hshort | Hlong]; cbn [mbind res_bind].
  { split; [intros [= <-]; split; [done | by left] | by intros [-> _]]. }
  set (declared := int_from_bytes (firstn 4 stream)).
  assert (len (skipn 4 stream) = N.of_nat (length stream - 4)) as ->.
  { unfold len. by rewrite length_drop. }
  destruct (N.ltb_spec (N.of_nat (length stream - 4)) declared); cbn [mbind res_bind].
  - split; [intros [= <-]; split; [done | by right] | by intros [-> _]].
  - split; [discriminate | intros [_ [? | [_ ?]]]; lia].
Qed.

(** What was read is read again whatever follows it in the stream. *)
Lemma read_message_app (stream extra full : list byte) :
  read_message stream = Ret full -> read_message (stream ++ extra) = Ret full.
Proof.
  intros E. apply read_message_ret in E as (Hlen & Hdeclared & ->).
  set (declared := int_from_bytes (firstn 4 stream)) in *.
  apply read_message_ret.
  rewrite length_app, take_app_le by lia. fold declared.
  split; [lia | split; [lia |]]. f_equal.
  rewrite drop_app_le by lia. rewrite take_app_le; [done |].
  rewrite length_drop. lia.
Qed.

(** X4.  What the server reads from a connection is a whole frame or
    nothing: when the peer sent the 4 length bytes and at least as many
    bytes as they declare, [full_message] is that prefix of the stream, it
    passes the two completeness guards of [decode_message] (so the server
    never answers "Mensaje incompleto"), and the bytes after it are never
    read; otherwise the read raises [IncompleteReadError]. *)
Theorem read_message_whole_frame (stream : list byte) :
  match read_message stream with
  | Ret full_message =>
    (4 <= length stream)%nat
    /\ full_message
       = firstn (4 + N.to_nat (int_from_bytes (firstn 4 stream))) stream
    /\ decode_frame full_message = Ret (skipn 4 full_message)
    /\ forall extra, read_message (stream ++ extra) = Ret full_message
  | Raise e =>
    exn_cls e = IncompleteReadError
    /\ ((length stream < 4)%nat
        \/ (N.of_nat (length stream - 4) < int_from_bytes (firstn 4 stream))%N)
  end.
Proof.
  destruct (read_message stream) as [full | e] eqn:E.
  - pose proof (fun extra => read_message_app stream extra full E) as Happ.
    apply read_message_ret in E as (Hlen & Hdeclared & ->).
    set (declared := int_from_bytes (firstn 4 stream)) in *.
    assert (length (firstn 4 stream) = 4%nat) as H4 by (rewrite length_take; lia).
    assert (length (firstn (N.to_nat declared) (skipn 4 stream)) = N.to_nat declared) as Hd.
    { rewrite length_take, length_drop. lia. }
    split; [exact Hlen |]. split; [|split].
    + apply take_take_drop.
    + apply FrameFacts.decode_frame_ret.
      rewrite length_app, H4, Hd, take_app_le, firstn_all2 by lia.
      fold declared. split; [lia | split; [lia |]].
      unfold slice. change (N.to_nat 4) with 4%nat.
      rewrite drop_app_le, skipn_all2 by lia. cbn [app].
      symmetry. apply firstn_all2. lia.
    + exact Happ.
  - apply read_message_raise in E as [-> H]. split; [done |]. tauto.
Qed.

(** X5.  A peer that closes the connection before it has sent the 4 length
    bytes, or before it has sent as many bytes as they declare, is answered
    with the error response "Conexión cerrada inesperadamente" without
    request id; no handler runs and the world is unchanged. *)
Theorem incomplete_stream_answer (rt : PyRuntime) (server : t) (stream : list byte)
    (w : world) :
  (length stream < 4)%nat
  \/ ((4 <= length stream)%nat
      /\ (N.of_nat (length stream - 4) < int_from_bytes (firstn 4 stream))%N) ->
  handle_client rt server stream w
  = (write_error rt (create_error "Conexión cerrada inesperadamente" None), w).
Proof.
  intros Hshort.
  assert (read_message stream
          = Raise (Exn IncompleteReadError "bytes read on a total of expected bytes")) as E.
  { by apply read_message_raise. }
  unfold handle_client, serve. by rewrite E.
Qed.

(** X6.  A connection carries one request: whatever follows the first
    frame in the stream changes neither the response nor the world. *)
Theorem one_request_per_connection (rt : PyRuntime) (server : t)
    (stream extra : list byte) (w : world) :
  (4 <= length stream)%nat ->
  (int_from_bytes (firstn 4 stream) <= N.of_nat (length stream - 4))%N ->
  handle_client rt server (stream ++ extra) w = handle_client rt server stream w.
Proof.
  intros Hlen Hdeclared.
  assert (exists full, read_message stream = Ret full) as [full E].
  { eexists. apply read_message_ret. by repeat split. }
  assert (read_message (stream ++ extra) = Ret full) as E'.
  { by apply read_message_app. }
  unfold handle_client, serve. by rewrite E, E'.
Qed.

(** X7.  The response of [process_request] echoes the request id on every
    path and is one of the two shapes of the protocol: status "success"
    with a result and no error, or status "error" with an error message
    and no result. *)
Theorem process_request_envelope (server : t) (request : TCPRequest) (w : world) :
  response_id (fst (process_request server request w)) = request_id request
  /\ ((status (fst (process_request server request w)) = "success"
       /\ is_Some (result (fst (process_request server request w)))
       /\ error (fst (process_request server request w)) = None)
      \/ (status (fst (process_request server request w)) = "error"
          /\ result (fst (process_request server request w)) = None
          /\ is_Some (error (fst (process_request server request w))))).
Proof.
  unfold process_request.
  destruct (handlers server !! action request : option handler) as [h|]; cbn.
  - destruct (h (data request) w) as [[r | e] w']; cbn.
    + split; [done | left]. by repeat split.
    + split; [done | right]. by repeat split.
  - split; [done | right]. by repeat split.
Qed.

(** X8.  What [handle_client] can do: it writes nothing (when the response
    does not fit in a frame) or exactly the frame of one response; and it
    leaves the world as it was unless the stream held a whole frame that
    decoded to a request whose action has a registered handler, in which
    case the world is what that handler left. *)
Theorem handle_client_effect (rt : PyRuntime) (server : t) (stream : list byte)
    (w : world) :
  (fst (handle_client rt server stream w) = []
   \/ exists response,
        Protocol.encode_message rt (Resp response)
        = Ret (fst (handle_client rt server stream w)))
  /\ (snd (handle_client rt server stream w) = w
      \/ exists full_message request h,
           read_message stream = Ret full_message
           /\ Protocol.decode_message rt full_message = Ret (Req request)
           /\ handlers server !! action request = Some h
           /\ snd (handle_client rt server stream w) = snd (h (data request) w)).
Proof.
  assert (forall response,
            write_error rt response = []
            \/ exists response',
                 Protocol.encode_message rt (Resp response') = Ret (write_error rt response))
    as Hwrite.
  { intros response. unfold write_error.
    destruct (Protocol.encode_message rt (Resp response)) eqn:E; [right | by left].
    by exists response. }
  unfold handle_client, serve.
  destruct (read_message stream) as [full | e] eqn:Hread.
  2: { cbn. destruct (exn_cls e); (split; [apply Hwrite | by left]). }
  destruct (Protocol.decode_message rt full) as [[request | response] | e] eqn:Hdecode.
  3: { cbn. destruct (exn_cls e); (split; [apply Hwrite | by left]). }
  2: { cbn. split; [apply Hwrite | by left]. }
  unfold process_request.
  destruct (handlers server !! action request : option handler) as [h|] eqn:Hh.
  - destruct (h (data request) w) as [[r | e] w'] eqn:Hrun;
      (destruct (Protocol.encode_message rt _) as [bs | e'] eqn:E; cbn;
       [| destruct (exn_cls e'); cbn];
       (split; [first [right; eexists; exact E | apply Hwrite]
               | right; exists full, request, h; rewrite Hrun; by repeat split])).
  - destruct (Protocol.encode_message rt _) as [bs | e] eqn:E; cbn.
    + split; [right; by eexists | by left].
    + destruct (exn_cls e); cbn; (split; [apply Hwrite | by left]).
Qed.

(** X9.  The server that [main.py] starts serves nine of the sixteen
    actions of [TCPAction].  A request for one of the other seven
    ([update_clusters], [get_cluster_details], [update_topics],
    [get_topics], [get_topic_trends], [get_recommendations],
    [get_temporal_patterns]) is answered "Acción no soportada: <action>"
    with its request id, and the world is unchanged. *)
Theorem unserved_actions (env : Env) (request : TCPRequest) (w : world) :
  (handlers (main_server env) !! action request = None
   <-> In (action request)
         [ UPDATE_CLUSTERS; GET_CLUSTER_DETAILS; UPDATE_TOPICS; GET_TOPICS;
           GET_TOPIC_TRENDS; GET_RECOMMENDATIONS; GET_TEMPORAL_PATTERNS ])
  /\ (In (action request)
         [ UPDATE_CLUSTERS; GET_CLUSTER_DETAILS; UPDATE_TOPICS; GET_TOPICS;
           GET_TOPIC_TRENDS; GET_RECOMMENDATIONS; GET_TEMPORAL_PATTERNS ] ->
      process_request (main_server env) request w
      = ({| status := "error"; result := None;
            error := Some ("Acción no soportada: " +:+ action_value (action request));
            response_id := request_id request |}, w)).
Proof.
  assert (handlers (main_server env) !! action request = None
          <-> In (action request)
                [ UPDATE_CLUSTERS; GET_CLUSTER_DETAILS; UPDATE_TOPICS; GET_TOPICS;
                  GET_TOPIC_TRENDS; GET_RECOMMENDATIONS; GET_TEMPORAL_PATTERNS ]) as Hnone.
  { rewrite ServerFacts.main_server_handlers.
    destruct (action request); cbn; split; try discriminate; try tauto;
      intros H; repeat (destruct H as [H | H]; [discriminate |]); destruct H. }
  split; [exact Hnone |]. intros Hin.
  apply Hnone in Hin. by rewrite (ServerFacts.process_request_unregistered _ _ _ Hin).
Qed.

End ConnectionFacts.

(** X5 at a peer that declares 5 payload bytes and sends 1. *)
Lemma incomplete_stream_answer_witness :
  ((length Examples.truncated_buffer < 4)%nat
   \/ ((4 <= length Examples.truncated_buffer)%nat
       /\ (N.of_nat (length Examples.truncated_buffer - 4)
           < Wire.int_from_bytes (firstn 4 Examples.truncated_buffer))%N))
  /\ TCPServer.handle_client Reference.runtime (TCPServer.main_server Reference.env)
       Examples.truncated_buffer (Reference.world_of Examples.alice_store)
     = (TCPServer.write_error Reference.runtime
          (create_error "Conexión cerrada inesperadamente" None),
        Reference.world_of Examples.alice_store).
Proof.
  assert ((length Examples.truncated_buffer < 4)%nat
          \/ ((4 <= length Examples.truncated_buffer)%nat
              /\ (N.of_nat (length Examples.truncated_buffer - 4)
                  < Wire.int_from_bytes (firstn 4 Examples.truncated_buffer))%N)) as H.
  { right. split; [vm_compute; lia | reflexivity]. }
  split; [exact H |].
  exact (ConnectionFacts.incomplete_stream_answer Reference.runtime
           (TCPServer.main_server Reference.env) Examples.truncated_buffer
           (Reference.world_of Examples.alice_store) H).
Defined.

(** X6 at the frame of [Examples.unregistered_request] followed by a second
    copy of it. *)
Lemma one_request_per_connection_witness :
  (4 <= length Examples.unregistered_stream)%nat
  /\ (Wire.int_from_bytes (firstn 4 Examples.unregistered_stream)
      <= N.of_nat (length Examples.unregistered_stream - 4))%N
  /\ TCPServer.handle_client Reference.runtime (TCPServer.main_server Reference.env)
       (Examples.unregistered_stream ++ Examples.unregistered_stream)
       (Reference.world_of Reference.empty_store)
     = TCPServer.handle_client Reference.runtime (TCPServer.main_server Reference.env)
         Examples.unregistered_stream (Reference.world_of Reference.empty_store).
Proof.
  assert (4 <= length Examples.unregistered_stream)%nat as H1 by (vm_compute; lia).
  assert (Wire.int_from_bytes (firstn 4 Examples.unregistered_stream)
          <= N.of_nat (length Examples.unregistered_stream - 4))%N as H2
    by (vm_compute; discriminate).
  split; [exact H1 | split; [exact H2 |]].
  exact (ConnectionFacts.one_request_per_connection Reference.runtime
           (TCPServer.main_server Reference.env) Examples.unregistered_stream
           Examples.unregistered_stream (Reference.world_of Reference.empty_store) H1 H2).
Defined.

(** ** Request builders, handlers and the client *)

Module CallFacts.
Import MonadFacts.
Import Wire RequestBuilders TCPServer.

Lemma mapM_JStr (l : list string) :
  mapM (M := option) (fun x => match x with
                               | JStr s => Some s
                               | _ => None
                               end) (map JStr l) = Some l.
Proof.
  induction l as [|s l IH]; [reflexivity |].
  cbn. cbn in IH. by rewrite IH.
Qed.

(** The handlers read back what the builders dumped. *)
Lemma get_str_list_dumped (key : string) (o : option (list string)) (d : pydict) :
  dict_get key d = Some (json_of_opt_str_list o) -> Handlers.get_str_list key d = Some o.
Proof.
  unfold Handlers.get_str_list. intros ->. destruct o as [l|]; [|reflexivity].
  cbn [json_of_opt_str_list]. by rewrite mapM_JStr.
Qed.

Lemma get_str_dumped (key : string) (o : option string) (d : pydict) :
  dict_get key d = Some (Protocol.json_of_opt_str o) -> Handlers.get_str key d = Some o.
Proof. unfold Handlers.get_str. intros ->. by destruct o. Qed.

Lemma get_int_dumped (key : string) (o : option Z) (d : pydict) :
  dict_get key d = Some (json_of_opt_int o) -> Handlers.get_int key d = Some o.
Proof. unfold Handlers.get_int. intros ->. by destruct o. Qed.

(** X10.  The request that a builder of [protocol.py] makes
    ([create_cluster_request], [create_topics_request],
    [create_recommendation_request]) has an action that the server of
    [main.py] serves, and the handler of that action reads from its data
    exactly the arguments the builder was given: the use case runs on the
    same owner, subset, flag, number of topics, document and [top_k].  The
    convenience methods of [MLTCPClient] send the same action and data. *)
Theorem builders_reach_use_cases (env : Env) (crt : MLTCPClient.ClientRuntime)
    (peer : list byte -> world -> list byte * world) :
  (forall user_id document_ids force_recluster,
     let request := create_cluster_request user_id document_ids force_recluster in
     exists h,
       handlers (main_server env) !! action request = Some h
       /\ h (data request)
          = ClusterDocumentsUseCase.execute env (Some user_id) document_ids force_recluster
       /\ MLTCPClient.cluster_documents crt peer user_id document_ids force_recluster
          = MLTCPClient.send_request crt peer (action_value (action request)) (data request))
  /\ (forall user_id num_topics document_ids,
        let request := create_topics_request user_id num_topics document_ids in
        exists h,
          handlers (main_server env) !! action request = Some h
          /\ h (data request)
             = ExtractTopicsUseCase.execute env (Some user_id) num_topics document_ids
          /\ MLTCPClient.extract_topics crt peer user_id num_topics document_ids
             = MLTCPClient.send_request crt peer (action_value (action request))
                 (data request))
  /\ (forall document_id top_k user_id,
        let request := create_recommendation_request document_id top_k user_id in
        exists h,
          handlers (main_server env) !! action request = Some h
          /\ h (data request)
             = RecommendSimilarUseCase.execute env (Some document_id) top_k user_id
          /\ MLTCPClient.recommend_similar crt peer document_id top_k user_id
             = MLTCPClient.send_request crt peer (action_value (action request))
                 (data request)).
Proof.
  split; [|split].
  - intros user_id document_ids force_recluster request.
    exists (Handlers.handle_cluster_documents env).
    split; [by rewrite ServerFacts.main_server_handlers |]. split; [|reflexivity].
    unfold Handlers.handle_cluster_documents.
    rewrite (get_str_dumped "user_id" (Some user_id)) by reflexivity.
    rewrite (get_str_list_dumped "document_ids" document_ids) by reflexivity.
    reflexivity.
  - intros user_id num_topics document_ids request.
    exists (Handlers.handle_extract_topics env).
    split; [by rewrite ServerFacts.main_server_handlers |]. split; [|reflexivity].
    unfold Handlers.handle_extract_topics.
    rewrite (get_str_dumped "user_id" (Some user_id)) by reflexivity.
    rewrite (get_int_dumped "num_topics" num_topics) by reflexivity.
    rewrite (get_str_list_dumped "document_ids" document_ids) by reflexivity.
    reflexivity.
  - intros document_id top_k user_id request.
    exists (Handlers.handle_recommend_similar env).
    split; [by rewrite ServerFacts.main_server_handlers |]. split; [|reflexivity].
    unfold Handlers.handle_recommend_similar.
    rewrite (get_str_dumped "document_id" (Some document_id)) by reflexivity.
    rewrite (get_str_dumped "user_id" user_id) by reflexivity.
    reflexivity.
Qed.

(** The parts of a frame. *)
Lemma frame_parts (n : N) (length_bytes payload : list byte) :
  int_to_bytes4 n = Ret length_bytes ->
  n = len payload ->
  length length_bytes = 4%nat
  /\ firstn 4 (length_bytes ++ payload) = length_bytes
  /\ skipn 4 (length_bytes ++ payload) = payload
  /\ int_from_bytes length_bytes = len payload.
Proof.
  intros Hbytes ->. apply WireFacts.int_from_bytes_to_bytes4 in Hbytes as [Hint Hlen].
  split; [exact Hlen |]. split; [|split; [|exact Hint]].
  - rewrite take_app_le by lia. apply firstn_all2. lia.
  - rewrite drop_app_le by lia. rewrite skipn_all2 by lia. reflexivity.
Qed.

(** The server reads a frame that is all the peer sent as it is. *)
Lemma read_message_frame (n : N) (length_bytes payload : list byte) :
  int_to_bytes4 n = Ret length_bytes ->
  n = len payload ->
  read_message (length_bytes ++ payload) = Ret (length_bytes ++ payload).
Proof.
  intros Hbytes Hn.
  destruct (frame_parts _ _ _ Hbytes Hn) as (H4 & Htake & Hdrop & Hint).
  apply ConnectionFacts.read_message_ret.
  rewrite Htake, Hdrop, Hint, length_app, H4.
  split; [lia | split; [unfold len; lia |]].
  f_equal. symmetry. apply firstn_all2. unfold len. lia.
Qed.

(** The request that the server decodes from what [send_request] sent. *)
Lemma decode_client_request (rt : PyRuntime) (a : TCPAction) (data : pydict)
    (text : string) (length_bytes : list byte) :
  json_loads rt text = Ret (JObj [ ("action", JStr (action_value a)); ("data", JObj data) ]) ->
  Utf8.valid (Utf8.encode text) = true ->
  int_to_bytes4 (len (Utf8.encode text)) = Ret length_bytes ->
  Protocol.decode_message rt (length_bytes ++ Utf8.encode text)
  = Ret (Req (mkRequest a data None)).
Proof.
  intros Hloads Hvalid Hbytes.
  unfold Protocol.decode_message.
  rewrite (WireFacts.decode_frame_complete _ _ _ Hbytes eq_refl). cbn [mbind res_bind].
  unfold Utf8.decode. rewrite Hvalid.
  unfold Utf8.encode. rewrite string_of_list_byte_of_string. cbn [mbind res_bind].
  rewrite Hloads. cbn [mbind res_bind Protocol.contains_action].
  assert (dict_has "action" [ ("action", JStr (action_value a)); ("data", JObj data) ]
          = true) as -> by reflexivity.
  unfold Protocol.request_from_json, Protocol.model_validate_json. rewrite Hloads.
  assert (Protocol.validate_request
            (JObj [ ("action", JStr (action_value a)); ("data", JObj data) ])
          = Some (mkRequest a data None)) as ->; [|reflexivity].
  by destruct a.
Qed.

(** What the client makes of the frame of a response. *)
Lemma receive_response (rt : PyRuntime) (crt : MLTCPClient.ClientRuntime)
    (response : TCPResponse) (frame : list byte) :
  Protocol.encode_message rt (Resp response) = Ret frame ->
  MLTCPClient.loads crt (Protocol.to_json rt (Resp response))
  = Ret (Protocol.response_to_json response) ->
  Utf8.valid (Utf8.encode (Protocol.to_json rt (Resp response))) = true ->
  MLTCPClient.receive crt frame
  = if String.eqb (status response) "error"
    then MLTCPClient.Raises
           (Exn ValueError ("Error del servidor ML: " +:+ Py.fmt_opt (error response)))
    else MLTCPClient.Returns (match result response with
                              | Some r => JObj r
                              | None => JNull
                              end).
Proof.
  intros Hencode Hloads Hvalid.
  unfold Protocol.encode_message in Hencode.
  destruct (int_to_bytes4 _) as [length_bytes|] eqn:Hbytes; [|discriminate].
  cbn [mbind res_bind] in Hencode. injection Hencode as <-.
  destruct (frame_parts _ _ _ Hbytes eq_refl) as (H4 & Htake & Hdrop & Hint).
  unfold MLTCPClient.receive, readexactly.
  assert ((len (length_bytes ++ Utf8.encode (Protocol.to_json rt (Resp response))) <? 4)%N
          = false) as ->.
  { apply N.ltb_ge. rewrite WireFacts.len_app. unfold len. lia. }
  change (N.to_nat 4) with 4%nat. rewrite Htake, Hdrop, Hint, N.ltb_irrefl.
  unfold len at 1. rewrite Nat2N.id, firstn_all.
  unfold Utf8.decode. rewrite Hvalid.
  unfold Utf8.encode. rewrite string_of_list_byte_of_string, Hloads.
  unfold Protocol.response_to_json, MLTCPClient.is_error. cbn [dict_get String.eqb Ascii.eqb
    Bool.eqb andb].
  destruct (String.eqb (status response) "error"); cbn.
  - by destruct (error response).
  - by destruct (result response).
Qed.

(** X11.  A call of [MLTCPClient.send_request] against the server, end to
    end: when each side's JSON library reads back what the other side
    printed and both frames fit, the client's outcome is the server's
    [process_request] response to the request (action, data, no request
    id), seen through its status: the result of the handler when the status
    is not "error", and the [ValueError] "Error del servidor ML: <error>"
    when it is; the world afterwards is what [process_request] left. *)
Theorem client_call_end_to_end (rt : PyRuntime) (crt : MLTCPClient.ClientRuntime)
    (server : t) (a : TCPAction) (data : pydict) (w : world) :
  json_loads rt (MLTCPClient.dumps crt
                   (JObj [ ("action", JStr (action_value a)); ("data", JObj data) ]))
  = Ret (JObj [ ("action", JStr (action_value a)); ("data", JObj data) ]) ->
  Utf8.valid (Utf8.encode (MLTCPClient.dumps crt
                             (JObj [ ("action", JStr (action_value a));
                                     ("data", JObj data) ]))) = true ->
  (len (Utf8.encode (MLTCPClient.dumps crt
                       (JObj [ ("action", JStr (action_value a)); ("data", JObj data) ])))
   < 2 ^ 32)%N ->
  MLTCPClient.loads crt
    (Protocol.to_json rt (Resp (fst (process_request server (mkRequest a data None) w))))
  = Ret (Protocol.response_to_json
           (fst (process_request server (mkRequest a data None) w))) ->
  Utf8.valid (Utf8.encode
                (Protocol.to_json rt
                   (Resp (fst (process_request server (mkRequest a data None) w))))) = true ->
  (len (Utf8.encode
          (Protocol.to_json rt
             (Resp (fst (process_request server (mkRequest a data None) w))))) < 2 ^ 32)%N ->
  MLTCPClient.send_request crt (handle_client rt server) (action_value a) data w
  = (if String.eqb (status (fst (process_request server (mkRequest a data None) w))) "error"
     then MLTCPClient.Raises
            (Exn ValueError
               ("Error del servidor ML: "
                +:+ Py.fmt_opt (error (fst (process_request server
                                              (mkRequest a data None) w)))))
     else MLTCPClient.Returns
            (match result (fst (process_request server (mkRequest a data None) w)) with
             | Some r => JObj r
             | None => JNull
             end),
     snd (process_request server (mkRequest a data None) w)).
Proof.
  intros Hloads Hvalid Hfits Hloads' Hvalid' Hfits'.
  destruct (WireFacts.int_to_bytes4_fits _ Hfits) as [length_bytes Hbytes].
  destruct (WireFacts.int_to_bytes4_fits _ Hfits') as [length_bytes' Hbytes'].
  unfold MLTCPClient.send_request. rewrite Hbytes.
  unfold handle_client, serve.
  rewrite (read_message_frame _ _ _ Hbytes eq_refl).
  rewrite (decode_client_request rt a data _ _ Hloads Hvalid Hbytes).
  destruct (process_request server (mkRequest a data None) w) as [response w'] eqn:Hrun.
  cbn [fst snd] in *.
  assert (Protocol.encode_message rt (Resp response)
          = Ret (length_bytes' ++ Utf8.encode (Protocol.to_json rt (Resp response))))
    as Hencode.
  { unfold Protocol.encode_message. by rewrite Hbytes'. }
  rewrite Hencode. f_equal.
  by apply (receive_response rt).
Qed.

End CallFacts.

(** X11 at [ping] against the reference server. *)
Lemma client_call_end_to_end_witness :
  MLTCPClient.ping Samples.client_runtime Samples.peer
    (Reference.world_of Reference.empty_store)
  = (MLTCPClient.Returns (JObj [ ("message", JStr "pong"); ("status", JStr "healthy") ]),
     Reference.world_of Reference.empty_store).
Proof.
  unfold MLTCPClient.ping, Samples.peer.
  change "ping" with (action_value PING).
  rewrite (CallFacts.client_call_end_to_end Reference.runtime Samples.client_runtime
             (TCPServer.main_server Reference.env) PING []
             (Reference.world_of Reference.empty_store));
    vm_compute; reflexivity.
Defined.

(** ** The results of the use cases and the REST controllers *)

Module ControllerFacts.
Import Observations Controllers.

(** [execute] of [ClusterDocumentsUseCase] never raises, and its result has
    one of the two shapes. *)
Lemma cluster_documents_result (env : Env) (user_id : option string)
    (document_ids : option (list string)) (force_recluster : bool) (w : world) :
  exists r w',
    ClusterDocumentsUseCase.execute env user_id document_ids force_recluster w = (Ret r, w')
    /\ uniform_result r.
Proof.
  unfold ClusterDocumentsUseCase.execute, orchestrate, ClusterDocumentsUseCase.try_block,
    query.
  cbv [mbind M_bind mret M_ret].
  destruct (PersistenceAdapter.get_embeddings_by_user (db w) user_id)
    as [doc_ids embeddings].
  destruct (length doc_ids =? 0)%nat.
  { eexists _, _. split; [reflexivity | left; by eexists]. }
  destruct (length doc_ids <? 3)%nat.
  { eexists _, _. split; [reflexivity | left; by eexists]. }
  destruct (ClusterDocumentsUseCase.filter_documents document_ids doc_ids embeddings)
    as [kept_docs kept_embeddings].
  destruct (ClusterDocumentsUseCase.reduce_and_cluster env user_id kept_docs
              kept_embeddings force_recluster w) as [[r | e] w'] eqn:Hrun.
  - eexists _, _. split; [reflexivity | right].
    by destruct (ClusterChecksFacts.reduce_and_cluster_returns _ _ _ _ _ _ _ _ Hrun).
  - eexists _, _. split; [reflexivity | left; by eexists].
Qed.

(** The same for [RecommendSimilarUseCase]. *)
Lemma recommend_similar_result (env : Env) (document_id : option string) (top_k : Z)
    (user_id : option string) (w : world) :
  exists r w',
    RecommendSimilarUseCase.execute env document_id top_k user_id w = (Ret r, w')
    /\ uniform_result r.
Proof.
  unfold RecommendSimilarUseCase.execute, orchestrate, RecommendSimilarUseCase.try_block,
    query_res, transaction.
  cbv [mbind M_bind mret M_ret].
  destruct (PersistenceAdapter.get_recommendations (db w) document_id top_k)
    as [[|c cached] | e].
  - destruct (RecommendSimilarUseCase._calculate_similarity env (db w) document_id top_k
                user_id) as [[|r recs] | e].
    + eexists _, _. split; [reflexivity | left; by eexists].
    + destruct (PersistenceAdapter.save_recommendations (db w) document_id (r :: recs)).
      * eexists _, _. split; [reflexivity | by right].
      * eexists _, _. split; [reflexivity | left; by eexists].
    + eexists _, _. split; [reflexivity | left; by eexists].
  - eexists _, _. split; [reflexivity | by right].
  - eexists _, _. split; [reflexivity | left; by eexists].
Qed.

(** The same for [UpdateVisualizationUseCase]. *)
Lemma update_visualization_result (env : Env) (user_id : option string)
    (force_update : bool) (w : world) :
  exists r w',
    UpdateVisualizationUseCase.execute env user_id force_update w = (Ret r, w')
    /\ uniform_result r.
Proof.
  assert (forall w0,
            exists r w',
              orchestrate (UpdateVisualizationUseCase.compute_visualization env user_id) w0
              = (Ret r, w')
              /\ uniform_result r) as Hcompute.
  { intros w0.
    unfold orchestrate, UpdateVisualizationUseCase.compute_visualization, query, umap,
      transaction.
    cbv [mbind M_bind mret M_ret].
    destruct (PersistenceAdapter.get_embeddings_by_user (db w0) user_id)
      as [doc_ids embeddings].
    destruct (length doc_ids =? 0)%nat.
    { eexists _, _. split; [reflexivity | left; by eexists]. }
    destruct embeddings as [items | rows].
    { eexists _, _. split; [reflexivity | left; by eexists]. }
    destruct (umap_fit_transform env _ rows) as [coordinates_2d | e]; cbn [db ml_calls].
    - destruct (PersistenceAdapter.save_visualization _ _ _ _ _); cbn [db ml_calls].
      + unfold query_res. cbn [db].
        destruct (PersistenceAdapter.get_visualization _ user_id).
        * eexists _, _. split; [reflexivity | by right].
        * eexists _, _. split; [reflexivity | left; by eexists].
      + eexists _, _. split; [reflexivity | left; by eexists].
    - eexists _, _. split; [reflexivity | left; by eexists]. }
  unfold UpdateVisualizationUseCase.execute, UpdateVisualizationUseCase.try_block.
  destruct force_update; [apply Hcompute |].
  destruct (PersistenceAdapter.get_visualization (db w) user_id) as [[|v existing] | e]
    eqn:Hviz.
  - destruct (Hcompute w) as (r & w' & Hrun & Hshape). exists r, w'. split; [|done].
    unfold orchestrate, query_res in *. cbv [mbind M_bind] in *. by rewrite Hviz.
  - eexists _, _.
    split; [unfold orchestrate, query_res; cbv [mbind M_bind mret M_ret]; by rewrite Hviz |].
    by right.
  - eexists _, _.
    split; [unfold orchestrate, query_res; cbv [mbind M_bind mret M_ret]; by rewrite Hviz |].
    left. by eexists.
Qed.

(** A route built on a use case whose result has one of the two shapes. *)
Lemma answer_maps_failure (status_code : Z) (default_detail : string)
    (use_case : M pydict) (w : world) :
  (exists r w', use_case w = (Ret r, w') /\ uniform_result r) ->
  maps_failure status_code use_case w
    ((result ← use_case; mret (answer status_code default_detail result)) w).
Proof.
  intros (r & w' & Hrun & Hshape).
  cbv [mbind M_bind mret M_ret]. rewrite Hrun. unfold answer.
  destruct Hshape as [[message ->] | Hsuccess].
  - cbn. split; [done |]. by exists message.
  - rewrite Hsuccess. cbn. by split.
Qed.

(** X12.  The REST routes built on the clustering, recommendation and
    visualization use cases never let a failure through as a body: a route
    returns the result of the use case exactly when its [success] is
    [True], and otherwise raises [HTTPException] with the status code of
    the route (400 for [analyze_documents] and [update_visualization], 404
    for [recommend_similar] and [get_visualization]) and, as detail, the
    error message of the failure; the default details ("Error
    desconocido" and the like) are never used, and the route leaves the
    world as the use case left it. *)
Theorem rest_routes_map_failures (env : Env) (w : world) :
  (forall user_id document_ids force_recluster,
     maps_failure 400
       (ClusterDocumentsUseCase.execute env (Some user_id) document_ids force_recluster) w
       (analyze_documents env user_id document_ids force_recluster w))
  /\ (forall document_id top_k user_id,
        maps_failure 404
          (RecommendSimilarUseCase.execute env (Some document_id) top_k user_id) w
          (recommend_similar env document_id top_k user_id w))
  /\ (forall user_id force_update,
        maps_failure 400
          (UpdateVisualizationUseCase.execute env (Some user_id) force_update) w
          (update_visualization env user_id force_update w))
  /\ (forall user_id,
        maps_failure 404
          (UpdateVisualizationUseCase.execute env (Some user_id) false) w
          (get_visualization env user_id w)).
Proof.
  split; [|split; [|split]]; intros.
  - apply answer_maps_failure, cluster_documents_result.
  - apply answer_maps_failure, recommend_similar_result.
  - apply answer_maps_failure, update_visualization_result.
  - apply answer_maps_failure, update_visualization_result.
Qed.

End ControllerFacts.

(** ** The order of strings *)

Module OrderFacts.

Lemma ascii_compare_lt_trans (a b c : ascii) :
  Ascii.compare a b = Lt -> Ascii.compare b c = Lt -> Ascii.compare a c = Lt.
Proof. unfold Ascii.compare. rewrite !N.compare_lt_iff. lia. Qed.

Lemma compare_lt_trans (s t u : string) :
  String.compare s t = Lt -> String.compare t u = Lt -> String.compare s u = Lt.
Proof.
  revert t u. induction s as [|a s IH]; intros [|b t] [|c u]; cbn; try done.
  destruct (Ascii.compare a b) eqn:Hab; [| |done].
  - apply Ascii.compare_eq_iff in Hab as ->.
    destruct (Ascii.compare b c); [apply IH | done | done].
  - destruct (Ascii.compare b c) eqn:Hbc; [| |done].
    + apply Ascii.compare_eq_iff in Hbc as <-. by rewrite Hab.
    + by rewrite (ascii_compare_lt_trans _ _ _ Hab Hbc).
Qed.

Lemma compare_refl (s : string) : String.compare s s = Eq.
Proof.
  induction s as [|a s IH]; [done |]. cbn.
  assert (Ascii.compare a a = Eq) as ->; [|done].
  unfold Ascii.compare. apply N.compare_refl.
Qed.

Lemma ltb_trans (s t u : string) :
  String.ltb s t = true -> String.ltb t u = true -> String.ltb s u = true.
Proof.
  unfold String.ltb.
  destruct (String.compare s t) eqn:E1; try done.
  destruct (String.compare t u) eqn:E2; try done.
  by rewrite (compare_lt_trans _ _ _ E1 E2).
Qed.

Lemma ltb_irrefl (s : string) : String.ltb s s = false.
Proof. unfold String.ltb. by rewrite compare_refl. Qed.

Lemma ltb_neq (s t : string) : String.ltb s t = true -> s <> t.
Proof. intros H ->. by rewrite ltb_irrefl in H. Qed.

Lemma leb_refl (s : string) : String.leb s s = true.
Proof. unfold String.leb. by rewrite compare_refl. Qed.

Lemma leb_trans (s t u : string) :
  String.leb s t = true -> String.leb t u = true -> String.leb s u = true.
Proof.
  unfold String.leb.
  destruct (String.compare s t) eqn:E1; try done.
  - apply String.compare_eq_iff in E1 as ->. done.
  - destruct (String.compare t u) eqn:E2; try done.
    + apply String.compare_eq_iff in E2 as ->. by rewrite E1.
    + by rewrite (compare_lt_trans _ _ _ E1 E2).
Qed.

(** A list in strictly increasing order has no duplicates, and its head is
    below everything that follows. *)
Lemma increasing_above {A} (key : A -> string) (k : string) (l : list A) :
  Sorted (fun a b => String.ltb (key a) (key b) = true) l ->
  match l with
  | r :: _ => String.ltb k (key r) = true
  | [] => True
  end ->
  forall r, In r l -> String.ltb k (key r) = true.
Proof.
  intros Hsorted. revert k. induction Hsorted as [|x l _ IH Hhd]; intros k Hk r Hr.
  - destruct Hr.
  - destruct Hr as [<- | Hr]; [exact Hk |].
    apply (IH k); [|exact Hr].
    destruct Hhd as [|y l' Hxy]; [done |]. by apply (ltb_trans _ (key x)).
Qed.

Lemma increasing_NoDup {A} (key : A -> string) (l : list A) :
  Sorted (fun a b => String.ltb (key a) (key b) = true) l -> List.NoDup (map key l).
Proof.
  induction 1 as [|x l Hsorted IH Hhd]; cbn; constructor; [|exact IH].
  intros Hin. apply in_map_iff in Hin as (r & Hkey & Hr).
  assert (String.ltb (key x) (key r) = true) as Hlt.
  { apply (increasing_above key (key x) l Hsorted); [|exact Hr]. by destruct Hhd. }
  rewrite Hkey, ltb_irrefl in Hlt. discriminate.
Qed.

End OrderFacts.

(** ** The SQL building blocks *)

Module SqlFacts.
Import OrderFacts.

(** *** [ORDER BY] *)

(** Rows that are in order stay as they are. *)
Lemma order_by_sorted_same {A} (le : A -> A -> bool) (rows : list A) :
  Sorted (fun a b => le a b = true) rows -> Sql.order_by le rows = rows.
Proof.
  induction 1 as [|x l _ IH Hhd]; [done |].
  unfold Sql.order_by in *. cbn [fold_right]. rewrite IH.
  destruct Hhd as [|y l Hxy]; [done |]. cbn [Sql.insert_by]. by rewrite Hxy.
Qed.

Lemma insert_by_length {A} (le : A -> A -> bool) (x : A) (l : list A) :
  length (Sql.insert_by le x l) = S (length l).
Proof.
  induction l as [|y l IH]; [done |]. cbn. destruct (le x y); cbn; [done | by rewrite IH].
Qed.

Lemma order_by_length {A} (le : A -> A -> bool) (rows : list A) :
  length (Sql.order_by le rows) = length rows.
Proof.
  induction rows as [|x l IH]; [done |].
  unfold Sql.order_by in *. cbn [fold_right]. by rewrite insert_by_length, IH.
Qed.

Lemma insert_by_NoDup {A B} (f : A -> B) (le : A -> A -> bool) (x : A) (l : list A) :
  List.NoDup (map f (x :: l)) -> List.NoDup (map f (Sql.insert_by le x l)).
Proof.
  induction l as [|y l IH]; [done |]. cbn. destruct (le x y); [done |].
  intros H. cbn. inversion H as [|? ? Hx Hrest]; subst.
  inversion Hrest as [|? ? Hy Hl]; subst.
  constructor.
  - intros Hin. apply in_map_iff in Hin as (r & Hr & Hin).
    apply SortFacts.insert_by_elem in Hin as [-> | Hin].
    + apply Hx. left. done.
    + apply Hy. apply in_map_iff. by exists r.
  - apply IH. constructor; [|exact Hl].
    intros Hin. apply Hx. by right.
Qed.

(** Sorting neither adds nor merges rows. *)
Lemma order_by_NoDup {A B} (f : A -> B) (le : A -> A -> bool) (rows : list A) :
  List.NoDup (map f rows) -> List.NoDup (map f (Sql.order_by le rows)).
Proof.
  induction rows as [|x l IH]; [done |]. intros H.
  change (Sql.order_by le (x :: l)) with (Sql.insert_by le x (Sql.order_by le l)).
  apply insert_by_NoDup. cbn [map] in *. inversion H as [|? ? Hx Hl]; subst.
  constructor; [|by apply IH].
  intros Hin. apply Hx. apply in_map_iff in Hin as (r & Hr & Hin).
  apply SortFacts.order_by_elem in Hin. apply in_map_iff. by exists r.
Qed.

(** *** [DISTINCT ON] *)

Section Distinct.
Context {A : Type} (key : A -> string).

(** The rows that [DISTINCT ON] keeps are rows of the table. *)
Lemma distinct_from_sub (prev : option string) (rows : list A) (r : A) :
  In r (Sql.distinct_from key prev rows) -> In r rows.
Proof.
  revert prev. induction rows as [|x rows IH]; intros prev; cbn; [done |].
  destruct (match prev with Some k => String.eqb k (key x) | None => false end).
  - intros H. right. by apply (IH prev).
  - intros [<- | H]; [by left | right; by apply (IH (Some (key x)))].
Qed.

(** Every key of the table is the key of a row that is kept. *)
Lemma distinct_from_keys (prev : option string) (rows : list A) (k : string) :
  In k (map key rows) ->
  In k (map key (Sql.distinct_from key prev rows)) \/ prev = Some k.
Proof.
  revert prev. induction rows as [|x rows IH]; intros prev; cbn; [done |].
  destruct prev as [p|].
  - destruct (String.eqb_spec p (key x)) as [-> | Hne].
    + intros [<- | Hin]; [by right | by apply IH].
    + intros [<- | Hin]; [left; by left |].
      destruct (IH (Some (key x)) Hin) as [H | [= <-]]; left; [by right | by left].
  - intros [<- | Hin]; [left; by left |].
    destruct (IH (Some (key x)) Hin) as [H | [= <-]]; left; [by right | by left].
Qed.

Context (le : A -> A -> bool).
Hypothesis le_key :
  forall a b, le a b = true -> String.ltb (key a) (key b) = true \/ key a = key b.

(** Over rows ordered by the key first, [DISTINCT ON] leaves rows with
    strictly increasing keys. *)
Lemma distinct_from_sorted (rows : list A) :
  Sorted (fun a b => le a b = true) rows ->
  forall prev,
    match prev, rows with
    | Some k, r :: _ => String.ltb k (key r) = true \/ k = key r
    | _, _ => True
    end ->
    Sorted (fun a b => String.ltb (key a) (key b) = true) (Sql.distinct_from key prev rows)
    /\ match prev, Sql.distinct_from key prev rows with
       | Some k, r :: _ => String.ltb k (key r) = true
       | _, _ => True
       end.
Proof.
  induction 1 as [|r rows Hsorted IH Hhd]; intros prev Hprev.
  - cbn. split; [constructor | by destruct prev].
  - assert (match rows with
            | r' :: _ => String.ltb (key r) (key r') = true \/ key r = key r'
            | [] => True
            end) as Hnext.
    { destruct Hhd; [done |]. by apply le_key. }
    assert (Sorted (fun a b => String.ltb (key a) (key b) = true)
              (r :: Sql.distinct_from key (Some (key r)) rows)) as Hkeep.
    { destruct (IH (Some (key r)) Hnext) as [IH1 IH2].
      constructor; [exact IH1 |].
      destruct (Sql.distinct_from key (Some (key r)) rows); by constructor. }
    destruct prev as [k|]; cbn [Sql.distinct_from]; [|done].
    destruct (String.eqb_spec k (key r)) as [-> | Hne].
    + exact (IH (Some (key r)) Hnext).
    + split; [exact Hkeep |]. by destruct Hprev.
Qed.

(** The row kept for a key is the first row of the key in the order. *)
Lemma distinct_from_first (rows : list A) :
  (forall a, le a a = true) ->
  StronglySorted (fun a b => le a b = true) rows ->
  forall prev,
    match prev, rows with
    | Some k, r :: _ => String.ltb k (key r) = true \/ k = key r
    | _, _ => True
    end ->
    forall r r', In r (Sql.distinct_from key prev rows) -> In r' rows ->
                 key r' = key r -> le r r' = true.
Proof.
  intros Hrefl Hsorted.
  induction Hsorted as [|x rows Hrest IH Hall]; intros prev Hprev r r' Hr Hr' Hkey;
    [destruct Hr' |].
  assert (Sorted (fun a b => le a b = true) rows) as Hsorted'
    by (by apply StronglySorted_Sorted).
  assert (match rows with
          | y :: _ => String.ltb (key x) (key y) = true \/ key x = key y
          | [] => True
          end) as Hnext.
  { destruct rows as [|y rows]; [done |]. apply le_key.
    rewrite List.Forall_forall in Hall. apply Hall. by left. }
  assert (forall r0, In r0 (Sql.distinct_from key (Some (key x)) rows) ->
                     String.ltb (key x) (key r0) = true) as Habove.
  { destruct (distinct_from_sorted rows Hsorted' (Some (key x)) Hnext) as [H1 H2].
    apply (increasing_above key (key x) _ H1).
    by destruct (Sql.distinct_from key (Some (key x)) rows). }
  assert (forall r0, In r0 (Sql.distinct_from key (Some (key x)) rows) ->
                     key x <> key r0) as Hother.
  { intros r0 Hr0. apply ltb_neq. by apply Habove. }
  cbn [Sql.distinct_from] in Hr.
  destruct (match prev with Some k => String.eqb k (key x) | None => false end) eqn:E.
  - destruct prev as [k|]; [|discriminate]. apply String.eqb_eq in E as ->.
    destruct Hr' as [<- | Hr'].
    + exfalso. by apply (Hother r Hr).
    + by apply (IH (Some (key x)) Hnext r r').
  - destruct Hr as [<- | Hr].
    + destruct Hr' as [<- | Hr']; [apply Hrefl |].
      rewrite List.Forall_forall in Hall. by apply Hall.
    + destruct Hr' as [<- | Hr'].
      * exfalso. by apply (Hother r Hr).
      * by apply (IH (Some (key x)) Hnext r r').
Qed.

End Distinct.

(** *** [LEFT JOIN] *)

(** A left join on a key of the right table pairs every left row with one
    row: the row of the key, or [NULL]. *)
Lemma filter_key {B K} (g : B -> K) (p : B -> bool) (r : list B) :
  (forall b1 b2, p b1 = true -> p b2 = true -> g b1 = g b2) ->
  List.NoDup (map g r) ->
  List.filter p r = match List.find p r with
                    | Some b => [b]
                    | None => []
                    end.
Proof.
  intros Hkey. induction r as [|x r IH]; intros Hnodup; [done |]. cbn.
  inversion Hnodup as [|? ? Hx Hr]; subst.
  destruct (p x) eqn:E; [|by apply IH]. f_equal.
  assert (forall b, In b r -> p b = false) as Hnone.
  { intros b Hb. destruct (p b) eqn:Eb; [|done].
    exfalso. apply Hx. rewrite (Hkey x b E Eb). by apply in_map. }
  clear -Hnone. induction r as [|b r IH]; [done |]. cbn.
  rewrite (Hnone b) by (by left). apply IH. intros b' Hb'. apply Hnone. by right.
Qed.

Lemma left_join_key {A B K} (g : B -> K) (on : A -> B -> bool) (l : list A) (r : list B) :
  (forall a b1 b2, on a b1 = true -> on a b2 = true -> g b1 = g b2) ->
  List.NoDup (map g r) ->
  Sql.left_join on l r = map (fun a => (a, List.find (on a) r)) l.
Proof.
  intros Hkey Hnodup. induction l as [|a l IH]; [done |].
  change (Sql.left_join on (a :: l) r)
    with (match List.filter (on a) r with
          | [] => [(a, None)]
          | ms => map (fun b => (a, Some b)) ms
          end ++ Sql.left_join on l r).
  rewrite IH, (filter_key g (on a) r (Hkey a) Hnodup).
  cbn [map]. destruct (List.find (on a) r); reflexivity.
Qed.

(** *** Dicts filled in a loop *)

(** The entry of a key in a dict filled from rows: the value of a row of
    the key, or what the dict held before when no row has the key. *)
Lemma fold_insert_lookup {A K V} `{Countable K} (key : A -> K) (val : A -> V)
    (rows : list A) (m0 : gmap K V) (k : K) :
  match fold_left (fun m row => <[key row := val row]> m) rows m0 !! k with
  | Some v =>
    (exists row, In row rows /\ key row = k /\ val row = v)
    \/ (m0 !! k = Some v /\ forall row, In row rows -> key row <> k)
  | None => m0 !! k = None /\ forall row, In row rows -> key row <> k
  end.
Proof.
  revert m0. induction rows as [|x rows IH]; intros m0; cbn [fold_left].
  - destruct (m0 !! k) eqn:E; [right |]; (split; [done | intros row []]).
  - specialize (IH (<[key x := val x]> m0)).
    destruct (fold_left _ rows _ !! k) as [v|].
    + destruct IH as [(row & Hrow & Hk & Hv) | [Hm Hnone]].
      * left. exists row. split; [by right | done].
      * destruct (decide (key x = k)) as [Hx | Hx].
        -- rewrite Hx, lookup_insert_eq in Hm. injection Hm as <-.
           left. exists x. split; [by left | done].
        -- rewrite lookup_insert_ne in Hm by done. right. split; [done |].
           intros row [<- | Hrow]; [done | by apply Hnone].
    + destruct IH as [Hm Hnone].
      destruct (decide (key x = k)) as [Hx | Hx].
      * rewrite Hx, lookup_insert_eq in Hm. discriminate.
      * rewrite lookup_insert_ne in Hm by done. split; [done |].
        intros row [<- | Hrow]; [done | by apply Hnone].
Qed.

(** *** The cast [::uuid] *)

Lemma cast_cases (s : string) :
  match Uuid.cast s with
  | Ret u => Uuid.of_text s = Some u
  | Raise e => exn_cls e = DatabaseError /\ Uuid.of_text s = None
  end.
Proof. unfold Uuid.cast. by destruct (Uuid.of_text s). Qed.

(** The casts of a list of texts: all succeed, or the query fails on a
    text outside the input syntax. *)
Lemma mapM_cast {A} (text : A -> string) (l : list A) :
  match mapM (M := res) (fun a => Uuid.cast (text a)) l with
  | Ret ids => Forall2 (fun a u => Uuid.of_text (text a) = Some u) l ids
  | Raise e =>
    exn_cls e = DatabaseError /\ exists a, In a l /\ Uuid.of_text (text a) = None
  end.
Proof.
  induction l as [|a l IH]; cbn; [constructor |].
  pose proof (cast_cases (text a)) as Ha.
  destruct (Uuid.cast (text a)) as [u | e]; cbn.
  - destruct (mapM _ l) as [ids | e]; cbn.
    + by constructor.
    + destruct IH as [Hcls (a' & Hin & Hnone)]. split; [done |].
      exists a'. split; [by right | done].
  - destruct Ha as [Hcls Hnone]. split; [done |]. exists a. split; [by left | done].
Qed.

Lemma mapM_cast_valid {A} (text : A -> string) (l : list A) :
  (forall a, In a l -> Uuid.of_text (text a) <> None) ->
  exists ids, mapM (M := res) (fun a => Uuid.cast (text a)) l = Ret ids.
Proof.
  intros Hvalid. pose proof (mapM_cast text l) as H.
  destruct (mapM _ l) as [ids | e]; [by eexists |].
  destruct H as [_ (a & Hin & Hnone)]. by destruct (Hvalid a Hin).
Qed.

(** A left join through a cast is the left join on the values, when every
    cast succeeds; it fails otherwise. *)
Lemma left_join_uuid_cases {A B} (text : A -> string) (id : B -> Uuid.t)
    (l : list A) (r : list B) :
  match Sql.left_join_uuid text id l r with
  | Ret joined =>
    joined = Sql.left_join (fun a b => Uuid.text_is (text a) (id b)) l r
    /\ forall a, In a l -> Uuid.of_text (text a) <> None
  | Raise e =>
    exn_cls e = DatabaseError /\ exists a, In a l /\ Uuid.of_text (text a) = None
  end.
Proof.
  unfold Sql.left_join_uuid. pose proof (mapM_cast text l) as H.
  destruct (mapM _ l) as [ids | e]; cbn [mbind res_bind]; [|done].
  split; [done |]. intros a Hin.
  clear -H Hin. induction H as [|a' u l ids Ha _ IH]; [destruct Hin |].
  destruct Hin as [<- | Hin]; [congruence | by apply IH].
Qed.

Lemma left_join_uuid_valid {A B} (text : A -> string) (id : B -> Uuid.t)
    (l : list A) (r : list B) :
  (forall a, In a l -> Uuid.of_text (text a) <> None) ->
  Sql.left_join_uuid text id l r
  = Ret (Sql.left_join (fun a b => Uuid.text_is (text a) (id b)) l r).
Proof.
  intros Hvalid. unfold Sql.left_join_uuid.
  by destruct (mapM_cast_valid text l Hvalid) as [ids ->].
Qed.

End SqlFacts.

(** ** [get_embeddings_by_user] and [get_document_metadata] *)

Module EmbeddingFacts.
Import Store Observations OrderFacts.
Import PersistenceAdapter.

Lemma by_document_id_desc_key (r1 r2 : string * embedding_row) :
  by_document_id_desc r1 r2 = true ->
  String.ltb (fst r1) (fst r2) = true \/ fst r1 = fst r2.
Proof.
  unfold by_document_id_desc. intros H.
  apply orb_true_iff in H as [H | H]; [by left | right].
  apply andb_true_iff in H as [H _]. by apply String.eqb_eq.
Qed.

Lemma by_document_id_desc_total (r1 r2 : string * embedding_row) :
  by_document_id_desc r1 r2 = true \/ by_document_id_desc r2 r1 = true.
Proof.
  unfold by_document_id_desc.
  destruct (RecommendFacts.string_order_total (fst r1) (fst r2)) as [H | [H | H]].
  - left. by rewrite H.
  - rewrite H, String.eqb_refl.
    destruct (String.leb_total (emb_id (snd r2)) (emb_id (snd r1))) as [E | E];
      [left | right]; rewrite E; apply orb_true_r.
  - right. by rewrite H.
Qed.

Lemma by_document_id_desc_trans (r1 r2 r3 : string * embedding_row) :
  by_document_id_desc r1 r2 = true -> by_document_id_desc r2 r3 = true ->
  by_document_id_desc r1 r3 = true.
Proof.
  destruct r1 as [d1 e1], r2 as [d2 e2], r3 as [d3 e3].
  unfold by_document_id_desc. cbn [fst snd]. intros H12 H23.
  apply orb_true_iff in H12 as [H12 | H12]; apply orb_true_iff in H23 as [H23 | H23].
  - by rewrite (ltb_trans _ _ _ H12 H23).
  - apply andb_true_iff in H23 as [E _]. apply String.eqb_eq in E. subst d3.
    by rewrite H12.
  - apply andb_true_iff in H12 as [E _]. apply String.eqb_eq in E. subst d2.
    by rewrite H23.
  - apply andb_true_iff in H12 as [E12 H12]. apply String.eqb_eq in E12. subst d2.
    apply andb_true_iff in H23 as [E23 H23]. apply String.eqb_eq in E23. subst d3.
    rewrite String.eqb_refl, (leb_trans _ _ _ H23 H12). apply orb_true_r.
Qed.

Lemma with_document_elem (rows : list embedding_row) (d : string) (lpe : embedding_row) :
  In (d, lpe) (with_document rows) <-> In lpe rows /\ emb_document lpe = Some d.
Proof.
  unfold with_document. rewrite in_flat_map. split.
  - intros (x & Hx & Hin). destruct (emb_document x) eqn:E; [|destruct Hin].
    destruct Hin as [[= <- <-] | []]. done.
  - intros [Hin Hdoc]. exists lpe. split; [done |]. rewrite Hdoc. by left.
Qed.

Lemma in_collection_spec (st : store) (u : string) (r : string * embedding_row) :
  existsb (fun lpc => String.eqb (emb_collection_id (snd r)) (col_uuid lpc)
                      && Sql.eq_param (col_name lpc) (Some u))
    (langchain_pg_collection st) = true
  <-> in_collection_of st u (snd r).
Proof.
  rewrite existsb_exists. unfold in_collection_of. split.
  - intros (lpc & Hin & H). apply andb_true_iff in H as [H1 H2].
    exists lpc. split; [done |]. split; by apply String.eqb_eq.
  - intros (lpc & Hin & H1 & H2). exists lpc. split; [done |].
    apply andb_true_iff. split; by apply String.eqb_eq.
Qed.

(** X13.  The documents that [get_embeddings_by_user] returns for an owner
    are exactly the documents with a non-null embedding row in a collection
    named after the owner, each once, in increasing order; every document
    comes with the embedding of its row with the greatest [id], as an item
    of an array of one axis. *)
Theorem get_embeddings_by_user_documents (st : store) (u : string) :
  exists items,
    snd (get_embeddings_by_user st (Some u)) = Np.Array1 items
    /\ length items = length (fst (get_embeddings_by_user st (Some u)))
    /\ Sorted (fun a b => String.ltb a b = true) (fst (get_embeddings_by_user st (Some u)))
    /\ List.NoDup (fst (get_embeddings_by_user st (Some u)))
    /\ (forall d,
          In d (fst (get_embeddings_by_user st (Some u)))
          <-> exists lpe, In lpe (langchain_pg_embedding st)
                          /\ emb_document lpe = Some d /\ in_collection_of st u lpe)
    /\ (forall d item,
          In (d, item) (combine (fst (get_embeddings_by_user st (Some u))) items) ->
          exists lpe,
            In lpe (langchain_pg_embedding st)
            /\ emb_document lpe = Some d /\ in_collection_of st u lpe
            /\ item = Np.text_of (emb_embedding lpe)
            /\ forall lpe', In lpe' (langchain_pg_embedding st) ->
                            emb_document lpe' = Some d -> in_collection_of st u lpe' ->
                            String.leb (emb_id lpe') (emb_id lpe) = true).
Proof.
  unfold get_embeddings_by_user. cbn [fst snd]. eexists. split; [reflexivity |].
  set (selected := List.filter _ (with_document (langchain_pg_embedding st))).
  set (sorted := Sql.order_by by_document_id_desc selected).
  assert (forall d lpe,
            In (d, lpe) selected
            <-> In lpe (langchain_pg_embedding st)
                /\ emb_document lpe = Some d /\ in_collection_of st u lpe) as Hselected.
  { intros d lpe. unfold selected. rewrite filter_In, with_document_elem.
    rewrite (in_collection_spec st u (d, lpe)). cbn [snd]. tauto. }
  assert (Sorted (fun a b => by_document_id_desc a b = true) sorted) as Hsorted.
  { apply SortFacts.order_by_sorted, by_document_id_desc_total. }
  assert (Sorted (fun a b => String.ltb (fst a) (fst b) = true)
            (Sql.distinct_on fst sorted)) as Hincreasing.
  { by apply (SqlFacts.distinct_from_sorted fst by_document_id_desc
                by_document_id_desc_key sorted Hsorted None). }
  split; [by rewrite !length_map |]. split; [|split; [|split]].
  - by apply (RecommendFacts.Sorted_map
                (fun a b : string * embedding_row => String.ltb (fst a) (fst b) = true)).
  - by apply increasing_NoDup.
  - intros d. split.
    + intros Hin. apply in_map_iff in Hin as ([d' lpe] & <- & Hin).
      apply SqlFacts.distinct_from_sub, SortFacts.order_by_elem in Hin.
      exists lpe. by apply Hselected.
    + intros (lpe & Hlpe). apply Hselected in Hlpe.
      assert (In d (map fst sorted)) as Hin.
      { apply in_map_iff. exists (d, lpe). split; [done |].
        by apply SortFacts.order_by_elem. }
      by destruct (SqlFacts.distinct_from_keys fst None sorted d Hin).
  - intros d e Hin.
    assert (exists lpe, In (d, lpe) (Sql.distinct_on fst sorted)
                        /\ Np.text_of (emb_embedding lpe) = e)
      as (lpe & Hkept & He).
    { clear -Hin. induction (Sql.distinct_on fst sorted) as [|[d0 lpe0] l IH];
        [destruct Hin |].
      destruct Hin as [[= <- <-] | Hin].
      - exists lpe0. split; [by left | done].
      - destruct (IH Hin) as (lpe & H1 & H2). exists lpe. split; [by right | done]. }
    pose proof Hkept as Hrow.
    apply SqlFacts.distinct_from_sub, SortFacts.order_by_elem, Hselected in Hrow
      as (H1 & H2 & H3).
    exists lpe. split; [done |]. split; [done |]. split; [done |]. split; [done |].
    intros lpe' H1' H2' H3'.
    assert (In (d, lpe') sorted) as Hin'.
    { apply SortFacts.order_by_elem, Hselected. done. }
    assert (by_document_id_desc (d, lpe) (d, lpe') = true) as Hle.
    { apply (SqlFacts.distinct_from_first fst by_document_id_desc by_document_id_desc_key
               sorted) with (prev := None); try done.
      - intros a. destruct (by_document_id_desc_total a a); done.
      - apply Sorted_StronglySorted; [|exact Hsorted].
        intros a b c. apply by_document_id_desc_trans. }
    unfold by_document_id_desc in Hle. cbn [fst snd] in Hle.
    by rewrite ltb_irrefl, String.eqb_refl in Hle.
Qed.

(** X14.  [get_document_metadata] fails when a requested id is not the
    text of a [uuid].  Otherwise the dict that it returns is keyed by
    [uuid.UUID] objects: it has an entry for a [uuid] exactly when a
    requested id spells it and [documents] has a row with it, and the entry
    is the filename of such a row; no [str] is a key of the dict, so the
    lookup of a document id, which is a [str], finds nothing. *)
Theorem get_document_metadata_lookup (st : store) (document_ids : list string) :
  match get_document_metadata st document_ids with
  | Ret metadata =>
    (forall d, In d document_ids -> Uuid.of_text d <> None)
    /\ (forall d : string, metadata !! (inl d : dict_key) = None)
    /\ (forall u : Uuid.t,
          match metadata !! (inr u : dict_key) with
          | Some filename =>
            (exists d, In d document_ids /\ Uuid.of_text d = Some u)
            /\ exists row,
                 In row (documents st) /\ doc_id row = u /\ doc_filename row = filename
          | None =>
            (forall d, In d document_ids -> Uuid.of_text d <> Some u)
            \/ forall row, In row (documents st) -> doc_id row <> u
          end)
  | Raise e =>
    exn_cls e = DatabaseError
    /\ exists d, In d document_ids /\ Uuid.of_text d = None
  end.
Proof.
  unfold get_document_metadata.
  destruct document_ids as [|d0 rest].
  { split; [intros d [] | split; [intros d; apply lookup_empty |]].
    intros u. rewrite lookup_empty. left. intros d []. }
  set (asked := d0 :: rest).
  pose proof (SqlFacts.mapM_cast (fun d : string => d) asked) as Hcast.
  destruct (mapM Uuid.cast asked) as [ids | e]; cbn [mbind res_bind]; [|exact Hcast].
  assert (forall u, In u ids <-> exists d, In d asked /\ Uuid.of_text d = Some u) as Hids.
  { clear -Hcast. induction Hcast as [|d u l ids Hd _ IH]; intros v.
    - split; [intros [] | intros (d & [] & _)].
    - cbn [In]. rewrite IH. split.
      + intros [<- | (d' & Hin & Hv)]; [exists d | exists d']; tauto.
      + intros (d' & [<- | Hin] & Hv); [left; congruence | right; by exists d']. }
  split; [|split].
  - intros d Hin. clear -Hcast Hin.
    induction Hcast as [|d' u l ids Hd _ IH]; [destruct Hin |].
    destruct Hin as [<- | Hin]; [congruence | by apply IH].
  - intros d.
    pose proof (SqlFacts.fold_insert_lookup (fun row => inr (doc_id row) : dict_key)
                  doc_filename
                  (List.filter (fun row => existsb (N.eqb (doc_id row)) ids) (documents st))
                  ∅ (inl d)) as H.
    cbv beta in H.
    match type of H with
    | match ?x with _ => _ end => destruct x as [filename|]; [|done]
    end.
    destruct H as [(row & _ & Hkey & _) | [Hempty _]]; [discriminate |].
    by rewrite lookup_empty in Hempty.
  - intros u.
    pose proof (SqlFacts.fold_insert_lookup (fun row => inr (doc_id row) : dict_key)
                  doc_filename
                  (List.filter (fun row => existsb (N.eqb (doc_id row)) ids) (documents st))
                  ∅ (inr u)) as H.
    cbv beta in H.
    match type of H with
    | match ?x with _ => _ end => destruct x as [filename|]
    end.
    + destruct H as [(row & Hrow & Hid & Hname) | [Hempty _]];
        [|by rewrite lookup_empty in Hempty].
      injection Hid as Hid.
      apply filter_In in Hrow as [Hrow Hasked].
      apply existsb_exists in Hasked as (x & Hx & Heq).
      apply N.eqb_eq in Heq. split; [|by exists row].
      apply Hids. by rewrite <- Hid, Heq.
    + destruct H as [_ Hnone].
      destruct (in_dec N.eq_dec u ids) as [Hin | Hnot].
      * right. intros row Hrow Hid. apply (Hnone row); [|by rewrite Hid].
        apply filter_In. split; [done |].
        apply existsb_exists. exists u. split; [done |]. by apply N.eqb_eq.
      * left. intros d Hd Hu. apply Hnot, Hids. by exists d.
Qed.

End EmbeddingFacts.

(** ** [save_clusters] and the table [ml_clusters] *)

Module ClusterTableFacts.
Import Store Observations Views.
Import PersistenceAdapter.

(** The table after [save_clusters]. *)
Lemma save_clusters_table (st st' : store) (u : string) (data : list cluster_info)
    (delete_existing : bool) :
  save_clusters st (Some u) data delete_existing = Ret st' ->
  st' = set_ml_clusters
          (fst (fold_left (insert_cluster u) data
                  (if delete_existing
                   then List.filter (fun r => negb (Sql.eq_param (cl_user_id r) (Some u)))
                          (ml_clusters st)
                   else ml_clusters st, ml_clusters_seq st)))
          (snd (fold_left (insert_cluster u) data
                  (if delete_existing
                   then List.filter (fun r => negb (Sql.eq_param (cl_user_id r) (Some u)))
                          (ml_clusters st)
                   else ml_clusters st, ml_clusters_seq st)))
          st.
Proof.
  unfold save_clusters. destruct data as [|d data]; [by intros [= <-] |].
  cbn [key_param mbind res_bind].
  destruct (fold_left _ _ _) as [rows' seq']. by intros [= <-].
Qed.

(** The loop of [save_clusters] leaves the rows of the other owners. *)
Lemma fold_insert_other_rows (u u' : string) (data : list cluster_info) :
  u' <> u ->
  forall (rows : list cluster_row) (seq : Z),
    List.filter (fun r => String.eqb (cl_user_id r) u')
      (fst (fold_left (insert_cluster u) data (rows, seq)))
    = List.filter (fun r => String.eqb (cl_user_id r) u') rows.
Proof.
  intros Hne. induction data as [|d data IH]; intros rows seq; [done |].
  rewrite ClusterStoreFacts.fold_insert_pair, IH.
  cbn [insert_cluster fst]. apply UpsertFacts.filter_upsert_other.
  - intros r Hr. apply andb_true_iff in Hr as [Hr _]. apply String.eqb_eq in Hr.
    cbn [cl_user_id]. split; apply String.eqb_neq; congruence.
  - cbn [cl_user_id]. apply String.eqb_neq. congruence.
Qed.

Lemma filter_deleted_other (u u' : string) (rows : list cluster_row) :
  u' <> u ->
  List.filter (fun r => String.eqb (cl_user_id r) u')
    (List.filter (fun r => negb (Sql.eq_param (cl_user_id r) (Some u))) rows)
  = List.filter (fun r => String.eqb (cl_user_id r) u') rows.
Proof.
  intros Hne. induction rows as [|r rows IH]; [done |]. cbn [List.filter].
  change (Sql.eq_param (cl_user_id r) (Some u)) with (String.eqb (cl_user_id r) u).
  destruct (String.eqb_spec (cl_user_id r) u) as [Hu | Hu]; cbn [negb List.filter].
  - rewrite IH. assert (String.eqb (cl_user_id r) u' = false) as ->; [|done].
    apply String.eqb_neq. congruence.
  - by rewrite IH.
Qed.

(** X15.  [save_clusters] for an owner, with or without the deletion of
    the owner's clusters, leaves the cluster rows of every other owner as
    they are: the same rows with the same keys, in the same order. *)
Theorem save_clusters_other_owners (st st' : store) (u : string)
    (data : list cluster_info) (delete_existing : bool) :
  save_clusters st (Some u) data delete_existing = Ret st' ->
  forall u', u' <> u -> owner_rows st' u' = owner_rows st u'.
Proof.
  intros Hsave u' Hne. rewrite (save_clusters_table _ _ _ _ _ Hsave).
  unfold owner_rows. cbn [ml_clusters set_ml_clusters].
  rewrite (fold_insert_other_rows u u' data Hne).
  destruct delete_existing; [by apply filter_deleted_other | done].
Qed.

Lemma NoDup_map_filter {A B} (f : A -> B) (p : A -> bool) (l : list A) :
  List.NoDup (map f l) -> List.NoDup (map f (List.filter p l)).
Proof.
  induction l as [|x l IH]; [done |]. cbn. intros H.
  inversion H as [|? ? Hx Hl]; subst.
  destruct (p x); [|by apply IH]. cbn. constructor; [|by apply IH].
  intros Hin. apply Hx. apply in_map_iff in Hin as (r & Hr & Hin).
  apply filter_In in Hin as [Hin _]. apply in_map_iff. by exists r.
Qed.

Lemma NoDup_snoc {A} (l : list A) (x : A) :
  List.NoDup l -> ~ In x l -> List.NoDup (l ++ [x]).
Proof.
  intros Hl Hx. induction Hl as [|y l Hy Hl IH]; cbn.
  - constructor; [intros [] | constructor].
  - constructor.
    + intros Hin. apply in_app_or in Hin as [Hin | [<- | []]]; [done |].
      apply Hx. by left.
    + apply IH. intros Hin. apply Hx. by right.
Qed.

Lemma NoDup_map_same {A B} (f : A -> B) (l : list A) (a b : A) :
  List.NoDup (map f l) -> In a l -> In b l -> f a = f b -> a = b.
Proof.
  induction l as [|x l IH]; [intros _ [] |]. cbn. intros H Ha Hb Hab.
  inversion H as [|? ? Hx Hl]; subst.
  destruct Ha as [<- | Ha], Hb as [<- | Hb]; [done | | |by apply IH].
  - destruct Hx. rewrite Hab. by apply in_map.
  - destruct Hx. rewrite <- Hab. by apply in_map.
Qed.

(** One upsert of the loop keeps the constraints of the table. *)
Lemma insert_cluster_well_keyed (u : string) (rows : list cluster_row) (seq : Z)
    (cluster : cluster_info) :
  List.NoDup (map cl_id rows) ->
  List.Forall (fun r => (cl_id r < seq)%Z) rows ->
  List.NoDup (map (fun r => (cl_user_id r, cl_cluster_id r)) rows) ->
  List.NoDup (map cl_id (fst (insert_cluster u (rows, seq) cluster)))
  /\ List.Forall (fun r => (cl_id r < snd (insert_cluster u (rows, seq) cluster))%Z)
       (fst (insert_cluster u (rows, seq) cluster))
  /\ List.NoDup (map (fun r => (cl_user_id r, cl_cluster_id r))
                   (fst (insert_cluster u (rows, seq) cluster))).
Proof.
  intros Hids Hbelow Hkeys. cbn [insert_cluster fst snd].
  match goal with
  | |- context [Sql.upsert ?k ?f ?n rows] =>
    destruct (UpsertFacts.upsert_cases k f n rows)
      as [(r & Hin & Hr & _ & ->) | [Hnone ->]]
  end.
  - rewrite !map_app. cbn [map cl_id cl_user_id cl_cluster_id].
    split; [|split].
    + apply NoDup_snoc; [by apply NoDup_map_filter |]. intros Hsame.
      apply in_map_iff in Hsame as (r' & Hid & Hr').
      apply filter_In in Hr' as [Hr' Hkey].
      rewrite (NoDup_map_same cl_id rows r' r Hids Hr' Hin Hid), Hr in Hkey.
      discriminate.
    + rewrite List.Forall_forall in Hbelow. apply List.Forall_app. split.
      * apply List.Forall_forall. intros r' Hr'. apply filter_In in Hr' as [Hr' _].
        specialize (Hbelow r' Hr'). cbn. lia.
      * constructor; [|constructor]. specialize (Hbelow r Hin). cbn. lia.
    + apply NoDup_snoc; [by apply NoDup_map_filter |]. intros Hsame.
      apply in_map_iff in Hsame as (r' & Hkey' & Hr').
      apply filter_In in Hr' as [Hr' Hkey].
      rewrite (NoDup_map_same _ rows r' r Hkeys Hr' Hin Hkey'), Hr in Hkey.
      discriminate.
  - rewrite !map_app. cbn [map cl_id cl_user_id cl_cluster_id].
    split; [|split].
    + apply NoDup_snoc; [done |]. intros Hin.
      apply in_map_iff in Hin as (r & Hid & Hin).
      rewrite List.Forall_forall in Hbelow. specialize (Hbelow r Hin). lia.
    + apply List.Forall_app. split.
      * eapply List.Forall_impl; [|exact Hbelow]. cbn. intros; lia.
      * constructor; [cbn; lia | constructor].
    + apply NoDup_snoc; [done |]. intros Hin.
      apply in_map_iff in Hin as (r & Hkey & Hin). injection Hkey as Hu Hc.
      specialize (Hnone r Hin). cbn in Hnone.
      rewrite Hu, Hc, String.eqb_refl, Z.eqb_refl in Hnone. discriminate.
Qed.

Lemma fold_insert_well_keyed (u : string) (data : list cluster_info) :
  forall (rows : list cluster_row) (seq : Z),
    List.NoDup (map cl_id rows) ->
    List.Forall (fun r => (cl_id r < seq)%Z) rows ->
    List.NoDup (map (fun r => (cl_user_id r, cl_cluster_id r)) rows) ->
    List.NoDup (map cl_id (fst (fold_left (insert_cluster u) data (rows, seq))))
    /\ List.Forall
         (fun r => (cl_id r < snd (fold_left (insert_cluster u) data (rows, seq)))%Z)
         (fst (fold_left (insert_cluster u) data (rows, seq)))
    /\ List.NoDup (map (fun r => (cl_user_id r, cl_cluster_id r))
                     (fst (fold_left (insert_cluster u) data (rows, seq)))).
Proof.
  induction data as [|d data IH]; intros rows seq Hids Hbelow Hkeys; [done |].
  rewrite ClusterStoreFacts.fold_insert_pair.
  destruct (insert_cluster_well_keyed u rows seq d Hids Hbelow Hkeys) as (H1 & H2 & H3).
  by apply IH.
Qed.

(** One upsert of the loop keeps every row, under its keys. *)
Lemma insert_cluster_keeps_rows (u : string) (rows : list cluster_row) (seq : Z)
    (cluster : cluster_info) (r : cluster_row) :
  List.NoDup (map (fun r => (cl_user_id r, cl_cluster_id r)) rows) ->
  In r rows ->
  exists r', In r' (fst (insert_cluster u (rows, seq) cluster))
             /\ cl_id r' = cl_id r /\ cl_user_id r' = cl_user_id r
             /\ cl_cluster_id r' = cl_cluster_id r.
Proof.
  intros Hkeys Hr. cbn [insert_cluster fst].
  match goal with
  | |- context [Sql.upsert ?k ?f ?n rows] =>
    destruct (UpsertFacts.upsert_cases k f n rows)
      as [(r0 & Hin & Hr0 & _ & ->) | [Hnone ->]]
  end.
  - destruct (String.eqb (cl_user_id r) u && (cl_cluster_id r =? ci_cluster_id cluster)%Z)
      eqn:Hkey.
    + assert (r = r0) as ->.
      { apply (NoDup_map_same _ rows r r0 Hkeys Hr Hin).
        apply andb_true_iff in Hkey as [H1 H2], Hr0 as [H3 H4].
        apply String.eqb_eq in H1, H3. apply Z.eqb_eq in H2, H4. congruence. }
      eexists. split; [apply in_or_app; right; by left | done].
    + exists r. split; [|done]. apply in_or_app. left.
      apply filter_In. split; [done |]. by rewrite Hkey.
  - exists r. split; [|done]. apply in_or_app. by left.
Qed.

(** X16.  [save_clusters] keeps the constraints of [ml_clusters]: after it,
    the generated keys are still distinct and below the sequence, and no
    two rows have the same [(user_id, cluster_id)]; an upsert of a cluster
    number that the owner already has updates the row of that number, which
    keeps its generated key. *)
Theorem save_clusters_keeps_keys (st st' : store) (u : string)
    (data : list cluster_info) (delete_existing : bool) :
  save_clusters st (Some u) data delete_existing = Ret st' ->
  clusters_well_keyed st ->
  clusters_well_keyed st'
  /\ (delete_existing = false ->
      forall r, In r (ml_clusters st) ->
                exists r', In r' (ml_clusters st')
                           /\ cl_id r' = cl_id r /\ cl_user_id r' = cl_user_id r
                           /\ cl_cluster_id r' = cl_cluster_id r).
Proof.
  intros Hsave (Hids & Hbelow & Hkeys).
  rewrite (save_clusters_table _ _ _ _ _ Hsave).
  unfold clusters_well_keyed. cbn [ml_clusters ml_clusters_seq set_ml_clusters].
  split.
  - apply fold_insert_well_keyed.
    + destruct delete_existing; [by apply NoDup_map_filter | done].
    + destruct delete_existing; [|done].
      apply List.Forall_forall. intros r Hr. apply filter_In in Hr as [Hr _].
      rewrite List.Forall_forall in Hbelow. by apply Hbelow.
    + destruct delete_existing; [by apply NoDup_map_filter | done].
  - intros ->. clear Hsave. revert Hids Hbelow Hkeys.
    generalize (ml_clusters st) (ml_clusters_seq st).
    induction data as [|d data IH]; intros rows seq Hids Hbelow Hkeys r Hr;
      [by exists r |].
    rewrite ClusterStoreFacts.fold_insert_pair.
    destruct (insert_cluster_well_keyed u rows seq d Hids Hbelow Hkeys) as (H1 & H2 & H3).
    destruct (insert_cluster_keeps_rows u rows seq d r Hkeys Hr)
      as (r1 & Hr1 & Hid & Hu & Hc).
    destruct (IH _ _ H1 H2 H3 r1 Hr1) as (r' & Hr' & Hid' & Hu' & Hc').
    exists r'. split; [done |]. split; [|split]; congruence.
Qed.

End ClusterTableFacts.

(** X15 and X16 at the store of two owners, where alice's cluster 0 is saved
    anew with the deletion of her clusters. *)
Lemma save_clusters_other_owners_witness :
  exists st',
    PersistenceAdapter.save_clusters Examples.shared_store (Some "alice")
      [ {| ci_cluster_id := 0; ci_label := "Algebra"; ci_size := 3;
           ci_keywords := []; ci_centroid := [] |} ] true = Ret st'
    /\ Views.owner_rows st' "bob" = Views.owner_rows Examples.shared_store "bob".
Proof.
  eexists. split; [reflexivity |].
  apply (ClusterTableFacts.save_clusters_other_owners Examples.shared_store _ "alice"
           [ {| ci_cluster_id := 0; ci_label := "Algebra"; ci_size := 3;
                ci_keywords := []; ci_centroid := [] |} ] true eq_refl).
  discriminate.
Defined.

Lemma save_clusters_keeps_keys_witness :
  Observations.clusters_well_keyed Examples.shared_store
  /\ exists st',
       PersistenceAdapter.save_clusters Examples.shared_store (Some "alice")
         [ {| ci_cluster_id := 0; ci_label := "Algebra"; ci_size := 3;
              ci_keywords := []; ci_centroid := [] |} ] false = Ret st'
       /\ Observations.clusters_well_keyed st'.
Proof.
  assert (Observations.clusters_well_keyed Examples.shared_store) as H.
  { unfold Observations.clusters_well_keyed. cbn. repeat split.
    - repeat constructor; cbn; intuition discriminate.
    - repeat constructor; cbn; lia.
    - repeat constructor; cbn; intuition discriminate. }
  split; [exact H |]. eexists. split; [reflexivity |].
  exact (proj1 (ClusterTableFacts.save_clusters_keeps_keys Examples.shared_store _ "alice"
                  [ {| ci_cluster_id := 0; ci_label := "Algebra"; ci_size := 3;
                       ci_keywords := []; ci_centroid := [] |} ] false eq_refl H)).
Defined.

(** ** [save_document_clusters] and [get_document_cluster_labels] *)

Module AssignmentRowsFacts.
Import Store Observations Views.
Import PersistenceAdapter.

(** The loop of [save_document_clusters]: what it leaves for every document
    of the list, and for the others. *)
Lemma insert_assignments_rows (m : gmap Z Z) (labels : list Z)
    (probabilities : option (list Q)) (docs : list string) :
  List.NoDup docs ->
  forall (i : nat) (rows rows' : list document_cluster_row),
    insert_assignments m labels probabilities i docs rows = Ret rows' ->
    (forall j doc,
       nth_error docs j = Some doc ->
       exists label,
         nth_error labels (i + j) = Some label
         /\ List.find (fun a => String.eqb (dc_document_id a) doc) rows'
            = if bool_decide (m !! label = None) && negb (label =? -1)%Z
              then List.find (fun a => String.eqb (dc_document_id a) doc) rows
              else Some {| dc_document_id := doc;
                           dc_cluster_id := m !! label;
                           dc_probability :=
                             probabilities ≫= (fun ps => nth_error ps (i + j));
                           dc_is_outlier := (label =? -1)%Z |})
    /\ (forall doc, ~ In doc docs ->
                    List.find (fun a => String.eqb (dc_document_id a) doc) rows'
                    = List.find (fun a => String.eqb (dc_document_id a) doc) rows).
Proof.
  induction 1 as [|doc rest Hfresh Hnodup IH]; intros i rows rows' Hloop.
  { cbn in Hloop. injection Hloop as <-. split; [|done].
    intros j d Hd. by destruct j. }
  cbn [insert_assignments] in Hloop. unfold index in Hloop.
  destruct (nth_error labels i) as [label|] eqn:Hlabel; [|discriminate].
  cbn [mbind res_bind] in Hloop.
  set (prob := probabilities ≫= (fun ps => nth_error ps i)).
  assert (exists rows1,
            insert_assignments m labels probabilities (S i) rest rows1 = Ret rows'
            /\ rows1
               = if bool_decide (m !! label = None) && negb (label =? -1)%Z then rows
                 else Sql.upsert (fun r => String.eqb (dc_document_id r) doc)
                        (fun _ => {| dc_document_id := doc; dc_cluster_id := m !! label;
                                     dc_probability := prob;
                                     dc_is_outlier := (label =? -1)%Z |})
                        {| dc_document_id := doc; dc_cluster_id := m !! label;
                           dc_probability := prob; dc_is_outlier := (label =? -1)%Z |}
                        rows) as (rows1 & Hrest & Hrows1).
  { subst prob. destruct probabilities as [ps|]; cbn [mbind option_bind] in *.
    - destruct (nth_error ps i) as [p|]; [|discriminate].
      cbn [fmap res_fmap mbind res_bind] in Hloop.
      destruct (bool_decide (m !! label = None) && negb (label =? -1)%Z);
        eexists; split; [exact Hloop | done | exact Hloop | done].
    - cbn [mbind res_bind] in Hloop.
      destruct (bool_decide (m !! label = None) && negb (label =? -1)%Z);
        eexists; split; [exact Hloop | done | exact Hloop | done]. }
  destruct (IH (S i) rows1 rows' Hrest) as [IHdocs IHothers].
  assert (forall d, d <> doc ->
                    List.find (fun a => String.eqb (dc_document_id a) d) rows1
                    = List.find (fun a => String.eqb (dc_document_id a) d) rows) as Hmiss.
  { intros d Hd. rewrite Hrows1.
    destruct (bool_decide (m !! label = None) && negb (label =? -1)%Z); [done |].
    apply UpsertFacts.find_upsert_miss.
    - intros r Hr. apply String.eqb_eq in Hr. apply String.eqb_neq. congruence.
    - cbn. apply String.eqb_neq. congruence. }
  split.
  - intros [|j] d Hd.
    + injection Hd as <-. exists label. rewrite Nat.add_0_r. split; [exact Hlabel |].
      rewrite (IHothers doc Hfresh), Hrows1.
      destruct (bool_decide (m !! label = None) && negb (label =? -1)%Z); [done |].
      apply UpsertFacts.find_upsert_hit. cbn. apply String.eqb_refl.
    + destruct (IHdocs j d Hd) as (label' & Hlabel' & Hfind).
      replace (i + S j)%nat with (S i + j)%nat by lia.
      exists label'. split; [exact Hlabel' |].
      rewrite Hfind. rewrite Hmiss; [done |].
      intros ->. apply Hfresh. exact (nth_error_In rest j Hd).
  - intros d Hd. rewrite (IHothers d) by (intros Hin; apply Hd; by right).
    apply Hmiss. intros ->. apply Hd. by left.
Qed.


(** X17.  What [save_document_clusters] leaves for a list of distinct
    documents: the document at position [i] gets the row (document, key of
    the cluster row that [cluster_id_map] holds for [labels[i]], probability
    [i], outlier flag [labels[i] == -1]); but a document whose label is not
    [-1] and has no row in [ml_clusters] is skipped and keeps the assignment
    it had; the assignments of all other documents are untouched. *)
Theorem save_document_clusters_rows (st st' : store) (document_ids : list string)
    (labels : list Z) (probabilities : option (list Q)) :
  save_document_clusters st document_ids labels probabilities = Ret st' ->
  List.NoDup document_ids ->
  (forall i doc,
     nth_error document_ids i = Some doc ->
     exists label,
       nth_error labels i = Some label
       /\ find_assignment st' doc
          = if bool_decide (cluster_id_map st !! label = None) && negb (label =? -1)%Z
            then find_assignment st doc
            else Some {| dc_document_id := doc;
                         dc_cluster_id := cluster_id_map st !! label;
                         dc_probability := probabilities ≫= (fun ps => nth_error ps i);
                         dc_is_outlier := (label =? -1)%Z |})
  /\ (forall doc, ~ In doc document_ids -> find_assignment st' doc = find_assignment st doc)
  /\ ml_clusters st' = ml_clusters st.
Proof.
  unfold save_document_clusters. intros Hsave Hnodup.
  destruct (insert_assignments _ labels probabilities 0 document_ids _) as [rows'|] eqn:Hloop;
    [|discriminate].
  cbn [mbind res_bind] in Hsave. injection Hsave as <-.
  destruct (insert_assignments_rows _ _ _ _ Hnodup _ _ _ Hloop) as [Hdocs Hothers].
  unfold find_assignment. cbn [ml_document_clusters ml_clusters set_ml_document_clusters].
  split; [|split; [exact Hothers | done]].
  intros i doc Hdoc. exact (Hdocs i doc Hdoc).
Qed.

(** The loop stops with [IndexError] when it runs out of labels. *)
Lemma insert_assignments_short (m : gmap Z Z) (labels : list Z)
    (probabilities : option (list Q)) (docs : list string) :
  forall (i : nat) (rows : list document_cluster_row),
    (i <= length labels < i + length docs)%nat ->
    exists e,
      exn_cls e = IndexError
      /\ insert_assignments m labels probabilities i docs rows = Raise e.
Proof.
  induction docs as [|doc rest IH]; intros i rows Hshort; [cbn in Hshort; lia |].
  cbn [insert_assignments]. unfold index.
  destruct (nth_error labels i) as [label|] eqn:Hlabel;
    [|eexists; split; [|reflexivity]; reflexivity].
  cbn [mbind res_bind].
  assert (S i <= length labels < S i + length rest)%nat as Hrest.
  { assert (i < length labels)%nat by (apply nth_error_Some; congruence).
    cbn in Hshort. lia. }
  destruct probabilities as [ps|].
  - destruct (nth_error ps i) as [p|]; [|eexists; split; [|reflexivity]; reflexivity].
    cbn [fmap res_fmap mbind res_bind].
    destruct (bool_decide (m !! label = None) && negb (label =? -1)%Z); by apply IH.
  - cbn [mbind res_bind].
    destruct (bool_decide (m !! label = None) && negb (label =? -1)%Z); by apply IH.
Qed.

(** X18.  With fewer labels than documents [save_document_clusters] raises
    [IndexError], whatever the rows are: since the write is one transaction,
    not even the assignments of the documents that do have a label are
    saved. *)
Theorem save_document_clusters_short_labels (st : store) (document_ids : list string)
    (labels : list Z) (probabilities : option (list Q)) :
  (length labels < length document_ids)%nat ->
  exists e,
    exn_cls e = IndexError
    /\ save_document_clusters st document_ids labels probabilities = Raise e
    /\ forall w,
         db w = st ->
         transaction (fun st => save_document_clusters st document_ids labels probabilities)
           w
         = (Raise e, w).
Proof.
  intros Hshort.
  destruct (insert_assignments_short (cluster_id_map st) labels probabilities document_ids
              0 (ml_document_clusters st)) as (e & Hcls & Hloop); [lia |].
  assert (save_document_clusters st document_ids labels probabilities = Raise e) as Hraise.
  { unfold save_document_clusters. by rewrite Hloop. }
  exists e. split; [exact Hcls | split; [exact Hraise |]].
  intros w <-. unfold transaction. by rewrite Hraise.
Qed.

Lemma fill_missing_lookup (ids : list string) (d : string) :
  forall m0 : gmap string Z,
    fold_left (fun m doc => match m !! doc with
                            | Some _ => m
                            | None => <[doc := (-1)%Z]> m
                            end) ids m0 !! d
    = match m0 !! d with
      | Some c => Some c
      | None => if in_dec string_dec d ids then Some (-1)%Z else None
      end.
Proof.
  induction ids as [|x ids IH]; intros m0; cbn [fold_left].
  - by destruct (m0 !! d).
  - rewrite IH. destruct (decide (x = d)) as [-> | Hne].
    + destruct (m0 !! d) eqn:E; [by rewrite E |].
      rewrite lookup_insert_eq.
      destruct (in_dec string_dec d (d :: ids)) as [_ | Hn]; [done |].
      exfalso. apply Hn. by left.
    + assert (match m0 !! x with
              | Some _ => m0
              | None => <[x := (-1)%Z]> m0
              end !! d = m0 !! d) as ->.
      { destruct (m0 !! x); [done | by apply lookup_insert_ne]. }
      destruct (m0 !! d); [done |].
      destruct (in_dec string_dec d ids) as [Hin | Hn];
        destruct (in_dec string_dec d (x :: ids)) as [Hin' | Hn']; try done.
      * exfalso. apply Hn'. by right.
      * exfalso. destruct Hin' as [-> | Hin']; [done | by apply Hn].
Qed.

(** X19.  The dict that [get_document_cluster_labels] returns has an entry
    for exactly the documents asked for; the entry of a document is the
    number of a cluster of this owner that the document is assigned to, and
    [-1] when it has no such assignment. *)
Theorem document_cluster_labels_total (st : store) (user_id : option string)
    (document_ids : list string) (d : string) :
  match get_document_cluster_labels st user_id document_ids !! d with
  | Some c =>
    In d document_ids
    /\ ((exists dc cl,
           In dc (ml_document_clusters st) /\ In cl (ml_clusters st)
           /\ dc_document_id dc = d /\ dc_cluster_id dc = Some (cl_id cl)
           /\ user_id = Some (cl_user_id cl) /\ cl_cluster_id cl = c)
        \/ (c = (-1)%Z
            /\ forall dc cl,
                 In dc (ml_document_clusters st) -> In cl (ml_clusters st) ->
                 dc_document_id dc = d -> dc_cluster_id dc = Some (cl_id cl) ->
                 user_id <> Some (cl_user_id cl)))
  | None => ~ In d document_ids
  end.
Proof.
  unfold get_document_cluster_labels.
  set (results := flat_map _ (ml_document_clusters st)).
  assert (forall row,
            In row results
            <-> exists dc cl,
                  In dc (ml_document_clusters st) /\ In cl (ml_clusters st)
                  /\ dc_cluster_id dc = Some (cl_id cl)
                  /\ user_id = Some (cl_user_id cl)
                  /\ In (dc_document_id dc) document_ids
                  /\ row = (dc_document_id dc, cl_cluster_id cl)) as Hresults.
  { intros row. unfold results. rewrite in_flat_map. split.
    - intros (dc & Hdc & Hin). apply in_flat_map in Hin as (cl & Hcl & Hin).
      destruct (bool_decide (dc_cluster_id dc = Some (cl_id cl))) eqn:E1; [|destruct Hin].
      destruct (Sql.eq_param (cl_user_id cl) user_id) eqn:E2; [|destruct Hin].
      destruct (Sql.eq_any (dc_document_id dc) document_ids) eqn:E3; [|destruct Hin].
      destruct Hin as [<- | []]. exists dc, cl.
      apply bool_decide_eq_true in E1.
      destruct user_id as [u|]; [|discriminate]. apply String.eqb_eq in E2.
      apply existsb_exists in E3 as (x & Hx & E3). apply String.eqb_eq in E3.
      repeat split; try done; congruence.
    - intros (dc & cl & Hdc & Hcl & H1 & H2 & H3 & ->). exists dc. split; [done |].
      apply in_flat_map. exists cl. split; [done |].
      rewrite (bool_decide_eq_true_2 _ H1), H2. cbn [Sql.eq_param].
      rewrite String.eqb_refl.
      assert (Sql.eq_any (dc_document_id dc) document_ids = true) as ->; [|by left].
      apply existsb_exists. exists (dc_document_id dc). split; [done |].
      apply String.eqb_refl. }
  rewrite fill_missing_lookup.
  pose proof (SqlFacts.fold_insert_lookup (fst : string * Z -> string) snd results ∅ d) as H.
  destruct (fold_left _ results ∅ !! d) as [c|].
  - destruct H as [(row & Hrow & Hkey & Hval) | [Hempty _]];
      [|by rewrite lookup_empty in Hempty].
    apply Hresults in Hrow as (dc & cl & Hdc & Hcl & H1 & H2 & H3 & ->).
    cbn [fst snd] in *. subst d c. split; [done |]. left. by exists dc, cl.
  - destruct H as [_ Hnone].
    destruct (in_dec string_dec d document_ids) as [Hin | Hn]; [|done].
    split; [done |]. right. split; [done |].
    intros dc cl Hdc Hcl Hd Hpk Hu.
    apply (Hnone (dc_document_id dc, cl_cluster_id cl)); [|done].
    apply Hresults. exists dc, cl. rewrite Hd. by repeat split.
Qed.

End AssignmentRowsFacts.

(** X17 at two documents of alice in the store of two owners: [d1] has
    label 0, whose row in [cluster_id_map] is bob's row 2, and [d2] has
    label 5, which has no row, so [d2] is skipped. *)
Lemma save_document_clusters_rows_witness :
  List.NoDup [ "d1"; "d2" ]
  /\ exists st',
       PersistenceAdapter.save_document_clusters Examples.shared_store [ "d1"; "d2" ]
         [ 0; 5 ]%Z (Some [ 1; 1 # 2 ]%Q) = Ret st'
       /\ Views.find_assignment st' "d1"
          = Some {| Store.dc_document_id := "d1"; Store.dc_cluster_id := Some 2%Z;
                    Store.dc_probability := Some 1%Q; Store.dc_is_outlier := false |}
       /\ Views.find_assignment st' "d2" = None
       /\ forall doc, ~ In doc [ "d1"; "d2" ] ->
                      Views.find_assignment st' doc
                      = Views.find_assignment Examples.shared_store doc.
Proof.
  assert (List.NoDup [ "d1"; "d2" ]) as Hnodup.
  { repeat constructor; cbn; intuition discriminate. }
  split; [exact Hnodup |]. eexists. split; [reflexivity |].
  split; [reflexivity | split; [reflexivity |]].
  exact (proj1 (proj2 (AssignmentRowsFacts.save_document_clusters_rows
                         Examples.shared_store _ [ "d1"; "d2" ] [ 0; 5 ]%Z
                         (Some [ 1; 1 # 2 ]%Q) eq_refl Hnodup))).
Defined.

(** X18 at three documents and two labels. *)
Lemma save_document_clusters_short_labels_witness :
  (length [ 0; 0 ]%Z < length [ "d1"; "d2"; "d3" ])%nat
  /\ exists e,
       exn_cls e = IndexError
       /\ PersistenceAdapter.save_document_clusters Examples.shared_store
            [ "d1"; "d2"; "d3" ] [ 0; 0 ]%Z None
          = Raise e
       /\ transaction (fun st => PersistenceAdapter.save_document_clusters st
                                   [ "d1"; "d2"; "d3" ] [ 0; 0 ]%Z None)
            (Reference.world_of Examples.shared_store)
          = (Raise e, Reference.world_of Examples.shared_store).
Proof.
  assert (length [ 0; 0 ]%Z < length [ "d1"; "d2"; "d3" ])%nat as H by (cbn; lia).
  split; [exact H |].
  destruct (AssignmentRowsFacts.save_document_clusters_short_labels
              Examples.shared_store [ "d1"; "d2"; "d3" ] [ 0; 0 ]%Z None H)
    as (e & Hcls & Hraise & Hrollback).
  exists e. split; [exact Hcls | split; [exact Hraise |]].
  by apply Hrollback.
Defined.

(** ** [save_visualization] and the points of a visualization *)

Module PointFacts.
Import Store Observations.
Import PersistenceAdapter.

(** The loop of [save_visualization] leaves the points of other owners and
    of other documents as they are. *)
Lemma insert_points_other (u : string) (coordinates_2d : list vec) (labels : list Z)
    (docs : list string) (u' d' : string) :
  u' <> u \/ ~ In d' docs ->
  forall (i : nat) (rows rows' : list visualization_row),
    insert_points u coordinates_2d labels i docs rows = Ret rows' ->
    List.find (fun r => String.eqb (vz_user_id r) u' && String.eqb (vz_document_id r) d')
      rows'
    = List.find (fun r => String.eqb (vz_user_id r) u' && String.eqb (vz_document_id r) d')
        rows.
Proof.
  intros Hother. induction docs as [|doc rest IH]; intros i rows rows' Hloop.
  { cbn in Hloop. by injection Hloop as <-. }
  cbn [insert_points] in Hloop.
  destruct (index2 coordinates_2d i 0) as [x|]; [|discriminate].
  cbn [mbind res_bind] in Hloop.
  destruct (index2 coordinates_2d i 1) as [y|]; [|discriminate].
  cbn [mbind res_bind] in Hloop.
  destruct (index labels i) as [l|]; [|discriminate]. cbn [mbind res_bind] in Hloop.
  rewrite (IH ltac:(destruct Hother as [H | H]; [by left | right; intros Hin; apply H; by right])
              _ _ _ Hloop).
  assert (String.eqb u u' && String.eqb doc d' = false) as Hkey.
  { apply andb_false_iff. destruct Hother as [H | H]; [left | right]; apply String.eqb_neq.
    - congruence.
    - intros ->. apply H. by left. }
  apply UpsertFacts.find_upsert_miss.
  - intros r Hr. apply andb_true_iff in Hr as [H1 H2].
    apply String.eqb_eq in H1. apply String.eqb_eq in H2. by rewrite H1, H2.
  - exact Hkey.
Qed.

(** What the loop leaves for the documents of the list. *)
Lemma insert_points_find (u : string) (coordinates_2d : list vec) (labels : list Z)
    (docs : list string) :
  List.NoDup docs ->
  forall (i : nat) (rows rows' : list visualization_row),
    insert_points u coordinates_2d labels i docs rows = Ret rows' ->
    forall j doc,
      nth_error docs j = Some doc ->
      exists x y rest l,
        nth_error coordinates_2d (i + j) = Some (x :: y :: rest)
        /\ nth_error labels (i + j) = Some l
        /\ List.find (fun r => String.eqb (vz_user_id r) u
                               && String.eqb (vz_document_id r) doc) rows'
           = Some {| vz_user_id := u; vz_document_id := doc; vz_x := x; vz_y := y;
                     vz_cluster_id := l |}.
Proof.
  induction 1 as [|doc rest Hfresh Hnodup IH]; intros i rows rows' Hloop j d Hd.
  { by destruct j. }
  pose proof Hloop as Hloop'.
  cbn [insert_points] in Hloop. unfold index2, index in Hloop.
  destruct (nth_error coordinates_2d i) as [[|x [|y tl]]|] eqn:Hpoint;
    cbn [nth_error mbind res_bind] in Hloop; try discriminate.
  destruct (nth_error labels i) as [l|] eqn:Hlabel; cbn [mbind res_bind] in Hloop;
    [|discriminate].
  destruct j as [|j].
  - injection Hd as <-. exists x, y, tl, l. rewrite Nat.add_0_r.
    split; [done | split; [done |]].
    rewrite (insert_points_other u coordinates_2d labels rest u doc (or_intror Hfresh)
               _ _ _ Hloop).
    apply UpsertFacts.find_upsert_hit. cbn. by rewrite !String.eqb_refl.
  - replace (i + S j)%nat with (S i + j)%nat by lia.
    exact (IH _ _ _ Hloop j d Hd).
Qed.

(** X20.  What [save_visualization] leaves for a list of distinct
    documents: the point of the document at position [i] has the first two
    coordinates of row [i] of [coordinates_2d] and the cluster [labels[i]];
    the points of other owners, and the owner's points of documents that
    are not in the list, are neither changed nor deleted. *)
Theorem save_visualization_points (st st' : store) (u : string)
    (document_ids : list string) (coordinates_2d : list vec) (labels : list Z) :
  save_visualization st (Some u) document_ids coordinates_2d labels = Ret st' ->
  List.NoDup document_ids ->
  (forall i doc,
     nth_error document_ids i = Some doc ->
     exists x y rest l,
       nth_error coordinates_2d i = Some (x :: y :: rest)
       /\ nth_error labels i = Some l
       /\ find_point st' u doc
          = Some {| vz_user_id := u; vz_document_id := doc; vz_x := x; vz_y := y;
                    vz_cluster_id := l |})
  /\ (forall u' d', u' <> u \/ ~ In d' document_ids ->
                    find_point st' u' d' = find_point st u' d').
Proof.
  unfold save_visualization, find_point. intros Hsave Hnodup.
  destruct document_ids as [|d0 ids].
  { injection Hsave as <-. split; [|done]. intros i doc Hdoc. by destruct i. }
  cbn [key_param mbind res_bind] in Hsave.
  destruct (insert_points u coordinates_2d labels 0 (d0 :: ids) (ml_visualizations st))
    as [rows'|] eqn:Hloop; [|discriminate].
  cbn [mbind res_bind] in Hsave. injection Hsave as <-.
  cbn [ml_visualizations set_ml_visualizations]. split.
  - intros i doc Hdoc. exact (insert_points_find _ _ _ _ Hnodup _ _ _ Hloop i doc Hdoc).
  - intros u' d' Hother. exact (insert_points_other _ _ _ _ _ _ Hother _ _ _ Hloop).
Qed.

(** X21.  A run of [update_visualization] for an owner, forced or not,
    whatever it returns, never deletes or changes a point of another owner,
    nor a point of the owner for a document that is no longer among the
    documents of [get_embeddings_by_user]: the points of documents that
    left the collection stay in [ml_visualizations].  The run writes to no
    other table of the service. *)
Theorem update_visualization_keeps_points (env : Env) (u : string) (force_update : bool)
    (w : world) :
  (forall u' d',
     u' <> u \/ ~ In d' (fst (get_embeddings_by_user (db w) (Some u))) ->
     find_point (db (snd (UpdateVisualizationUseCase.execute env (Some u) force_update w)))
       u' d'
     = find_point (db w) u' d')
  /\ ml_clusters (db (snd (UpdateVisualizationUseCase.execute env (Some u) force_update w)))
     = ml_clusters (db w)
  /\ ml_document_clusters
       (db (snd (UpdateVisualizationUseCase.execute env (Some u) force_update w)))
     = ml_document_clusters (db w)
  /\ ml_recommendations
       (db (snd (UpdateVisualizationUseCase.execute env (Some u) force_update w)))
     = ml_recommendations (db w).
Proof.
  assert (forall st',
            (exists docs coords labels,
               docs = fst (get_embeddings_by_user (db w) (Some u))
               /\ save_visualization (db w) (Some u) docs coords labels = Ret st')
            \/ st' = db w ->
            (forall u' d',
               u' <> u \/ ~ In d' (fst (get_embeddings_by_user (db w) (Some u))) ->
               find_point st' u' d' = find_point (db w) u' d')
            /\ ml_clusters st' = ml_clusters (db w)
            /\ ml_document_clusters st' = ml_document_clusters (db w)
            /\ ml_recommendations st' = ml_recommendations (db w)) as Hframe.
  { intros st' [(docs & coords & labels & -> & Hsave) | ->]; [|done].
    split.
    - intros u' d' Hother. unfold save_visualization in Hsave.
      destruct (fst (get_embeddings_by_user (db w) (Some u))) as [|d0 ids];
        [by injection Hsave as <- |].
      cbn [key_param mbind res_bind] in Hsave.
      destruct (insert_points u coords labels 0 (d0 :: ids) _) as [rows'|] eqn:Hloop;
        [|discriminate].
      cbn [mbind res_bind] in Hsave. injection Hsave as <-.
      exact (insert_points_other _ _ _ _ _ _ Hother _ _ _ Hloop).
    - unfold save_visualization in Hsave.
      destruct (fst (get_embeddings_by_user (db w) (Some u))) as [|d0 ids];
        [by injection Hsave as <- |].
      cbn [key_param mbind res_bind] in Hsave.
      destruct (insert_points u coords labels 0 (d0 :: ids) _) as [rows'|];
        [|discriminate].
      cbn [mbind res_bind] in Hsave. by injection Hsave as <-. }
  apply Hframe.
  assert (forall m : M pydict,
            m = UpdateVisualizationUseCase.compute_visualization env (Some u) ->
            (exists docs coords labels,
               docs = fst (get_embeddings_by_user (db w) (Some u))
               /\ save_visualization (db w) (Some u) docs coords labels
                  = Ret (db (snd (orchestrate m w))))
            \/ db (snd (orchestrate m w)) = db w) as Hcompute.
  { intros m ->.
    unfold orchestrate, UpdateVisualizationUseCase.compute_visualization, query,
      query_res, umap, transaction, lift.
    cbv [mbind M_bind mret M_ret].
    destruct (get_embeddings_by_user (db w) (Some u)) as [doc_ids embeddings].
    cbn [fst].
    destruct (length doc_ids =? 0)%nat; [by right |].
    destruct embeddings as [items | rows]; [by right |].
    destruct (umap_fit_transform env _ rows) as [coordinates_2d | e];
      cbn [db ml_calls]; [|by right].
    destruct (save_visualization (db w) (Some u) doc_ids coordinates_2d _) as [st1|] eqn:E;
      cbn [snd db]; [|by right].
    left. exists doc_ids, coordinates_2d. eexists. split; [done |]. rewrite E.
    by destruct (get_visualization st1 (Some u)). }
  unfold UpdateVisualizationUseCase.execute, UpdateVisualizationUseCase.try_block.
  destruct force_update; [by apply Hcompute |].
  destruct (get_visualization (db w) (Some u)) as [[|v existing] | e] eqn:Hviz.
  - specialize (Hcompute _ eq_refl).
    unfold orchestrate, query_res in *. cbv [mbind M_bind] in *. by rewrite Hviz.
  - right. unfold orchestrate, query_res. cbv [mbind M_bind mret M_ret]. by rewrite Hviz.
  - right. unfold orchestrate, query_res. cbv [mbind M_bind mret M_ret]. by rewrite Hviz.
Qed.

End PointFacts.

(** X20 at two documents of alice, who has no point yet. *)
Lemma save_visualization_points_witness :
  List.NoDup [ "d1"; "d2" ]
  /\ exists st',
       PersistenceAdapter.save_visualization Examples.alice_store (Some "alice")
         [ "d1"; "d2" ] [ [ 1; 2 ]; [ 3; 4 ] ]%Q [ 0; -1 ]%Z = Ret st'
       /\ Observations.find_point st' "alice" "d2"
          = Some {| Store.vz_user_id := "alice"; Store.vz_document_id := "d2";
                    Store.vz_x := 3; Store.vz_y := 4; Store.vz_cluster_id := -1 |}
       /\ forall u' d',
            u' <> "alice" \/ ~ In d' [ "d1"; "d2" ] ->
            Observations.find_point st' u' d'
            = Observations.find_point Examples.alice_store u' d'.
Proof.
  assert (List.NoDup [ "d1"; "d2" ]) as Hnodup.
  { repeat constructor; cbn; intuition discriminate. }
  split; [exact Hnodup |]. eexists. split; [reflexivity |]. split; [reflexivity |].
  exact (proj2 (PointFacts.save_visualization_points Examples.alice_store _ "alice"
                  [ "d1"; "d2" ] [ [ 1; 2 ]; [ 3; 4 ] ]%Q [ 0; -1 ]%Z eq_refl Hnodup)).
Defined.

(** ** The recommendation cache and [RecommendSimilarUseCase] *)

Module RecommendationCacheFacts.
Import Store Observations.
Import PersistenceAdapter RecommendSimilarUseCase.

Lemma insert_recommendations_app (d : string) (recs : list recommendation) :
  forall (rank : Z) (rows : list recommendation_row),
    insert_recommendations d rank recs rows
    = rows ++ insert_recommendations d rank recs [].
Proof.
  induction recs as [|rec rest IH]; intros rank rows; cbn [insert_recommendations].
  - by rewrite app_nil_r.
  - rewrite (IH _ (rows ++ _)), (IH _ ([] ++ _)). by rewrite <- app_assoc.
Qed.

Lemma insert_recommendations_cons (d : string) (rank : Z) (rec : recommendation)
    (rest : list recommendation) :
  insert_recommendations d rank (rec :: rest) []
  = {| rc_document_id := d; rc_recommended_document_id := ri_document_id rec;
       rc_similarity_score := ri_similarity_score rec; rc_rank := rank |}
    :: insert_recommendations d (rank + 1) rest [].
Proof. cbn [insert_recommendations]. by rewrite insert_recommendations_app. Qed.

Lemma inserted_rows_document (d : string) (recs : list recommendation) :
  forall rank r, In r (insert_recommendations d rank recs []) -> rc_document_id r = d.
Proof.
  induction recs as [|rec rest IH]; intros rank r; [intros [] |].
  rewrite insert_recommendations_cons. intros [<- | Hr]; [done | by apply (IH (rank + 1)%Z)].
Qed.

(** The rows of a saved list are already in the order of their ranks. *)
Lemma inserted_rows_sorted {B} (d : string) (f : recommendation_row -> B)
    (recs : list recommendation) :
  forall rank,
    Sorted (fun a b : recommendation_row * B => (rc_rank (fst a) <=? rc_rank (fst b))%Z = true)
      (map (fun r => (r, f r)) (insert_recommendations d rank recs [])).
Proof.
  induction recs as [|rec rest IH]; intros rank; [constructor |].
  rewrite insert_recommendations_cons. cbn [map]. constructor; [apply IH |].
  destruct rest as [|rec' rest]; [constructor |].
  rewrite insert_recommendations_cons. cbn [map]. constructor. cbn. lia.
Qed.

Lemma inserted_rows_read (st : store) (d : string) (recs : list recommendation) :
  forall rank,
    map (fun '(r, doc) =>
           {| cr_document_id := rc_recommended_document_id r;
              cr_similarity_score := rc_similarity_score r;
              cr_rank := rc_rank r;
              cr_filename := doc_filename <$> doc |})
      (map (fun r => (r, List.find (fun doc => Uuid.text_is (rc_recommended_document_id r)
                                                 (doc_id doc)) (documents st)))
         (insert_recommendations d rank recs []))
    = cached_entries st rank recs.
Proof.
  induction recs as [|rec rest IH]; intros rank; [done |].
  rewrite insert_recommendations_cons. cbn [map cached_entries]. by rewrite IH.
Qed.

Lemma filter_none {A} (p : A -> bool) (l : list A) :
  (forall x, In x l -> p x = false) -> List.filter p l = [].
Proof.
  induction l as [|x l IH]; intros H; [done |]. cbn.
  rewrite (H x) by (by left). apply IH. intros y Hy. apply H. by right.
Qed.

Lemma filter_all {A} (p : A -> bool) (l : list A) :
  (forall x, In x l -> p x = true) -> List.filter p l = l.
Proof.
  induction l as [|x l IH]; intros H; [done |]. cbn.
  rewrite (H x) by (by left). f_equal. apply IH. intros y Hy. apply H. by right.
Qed.

Lemma filter_filter_weaker {A} (p q : A -> bool) (l : list A) :
  (forall x, p x = true -> q x = true) ->
  List.filter p (List.filter q l) = List.filter p l.
Proof.
  intros H. induction l as [|x l IH]; [done |]. cbn.
  destruct (q x) eqn:Eq; cbn.
  - by rewrite IH.
  - destruct (p x) eqn:Ep; [|exact IH]. apply H in Ep. congruence.
Qed.

(** What [save_recommendations] stores, for a document that is given. *)
Lemma save_recommendations_rows (st st' : store) (d : string)
    (recs : list recommendation) :
  save_recommendations st (Some d) recs = Ret st' ->
  st' = set_ml_recommendations
          (List.filter (fun r => negb (String.eqb (rc_document_id r) d))
             (ml_recommendations st)
           ++ insert_recommendations d 1 recs []) st.
Proof.
  unfold save_recommendations. destruct recs as [|rec rest].
  - intros [= <-]. cbn [insert_recommendations]. by rewrite app_nil_r.
  - cbn [key_param mbind res_bind]. intros [= <-].
    rewrite insert_recommendations_cons.
    rewrite (insert_recommendations_app d rest (1 + 1)%Z (_ ++ _)).
    by rewrite <- app_assoc.
Qed.

Lemma save_recommendations_returns (st : store) (d : string)
    (recs : list recommendation) :
  exists st', save_recommendations st (Some d) recs = Ret st'.
Proof. unfold save_recommendations. destruct recs; by eexists. Qed.

(** The rows of [d] after the list [recs] was saved for [d]. *)
Lemma saved_rows_same (st : store) (d : string) (recs : list recommendation) :
  List.filter (fun r => Sql.eq_param (rc_document_id r) (Some d))
    (List.filter (fun r => negb (String.eqb (rc_document_id r) d)) (ml_recommendations st)
     ++ insert_recommendations d 1 recs [])
  = insert_recommendations d 1 recs [].
Proof.
  rewrite List.filter_app, filter_none, filter_all; [done | |].
  - intros r Hr. cbn. apply String.eqb_eq. by apply (inserted_rows_document d recs 1%Z).
  - intros r Hr. apply filter_In in Hr as [_ Hr]. cbn.
    by destruct (String.eqb (rc_document_id r) d).
Qed.

(** The rows of another document. *)
Lemma saved_rows_other (st : store) (d d' : string) (recs : list recommendation) :
  d' <> d ->
  List.filter (fun r => Sql.eq_param (rc_document_id r) (Some d'))
    (List.filter (fun r => negb (String.eqb (rc_document_id r) d)) (ml_recommendations st)
     ++ insert_recommendations d 1 recs [])
  = List.filter (fun r => Sql.eq_param (rc_document_id r) (Some d')) (ml_recommendations st).
Proof.
  intros Hne. rewrite List.filter_app, (filter_none _ (insert_recommendations _ _ _ _)).
  - rewrite app_nil_r. apply filter_filter_weaker. intros r Hr. cbn in Hr.
    apply String.eqb_eq in Hr. apply negb_true_iff, String.eqb_neq. congruence.
  - intros r Hr. cbn. apply String.eqb_neq.
    rewrite (inserted_rows_document d recs 1%Z r Hr). congruence.
Qed.

Lemma inserted_rows_texts (d : string) (recs : list recommendation) :
  forall rank r,
    In r (insert_recommendations d rank recs []) ->
    exists rec, In rec recs /\ rc_recommended_document_id r = ri_document_id rec.
Proof.
  induction recs as [|rec rest IH]; intros rank r; [intros [] |].
  rewrite insert_recommendations_cons. intros [<- | Hr].
  - exists rec. split; [by left | done].
  - destruct (IH _ _ Hr) as (rec' & Hin & Heq). exists rec'. split; [by right | done].
Qed.

Lemma inserted_rows_cover (d : string) (recs : list recommendation) :
  forall rank rec,
    In rec recs ->
    exists r, In r (insert_recommendations d rank recs [])
              /\ rc_recommended_document_id r = ri_document_id rec.
Proof.
  induction recs as [|rec0 rest IH]; intros rank rec; [intros [] |].
  rewrite insert_recommendations_cons. intros [<- | Hin].
  - eexists. split; [by left | done].
  - destruct (IH (rank + 1)%Z rec Hin) as (r & Hr & Heq). exists r. split; [by right | done].
Qed.

(** Reading back the list saved for [d]: the join casts the recommended
    ids, and fails when one of them is not the text of a [uuid]. *)
Lemma saved_list_read (st st' : store) (d : string) (recs : list recommendation)
    (top_k : Z) :
  save_recommendations st (Some d) recs = Ret st' ->
  List.NoDup (map doc_id (documents st)) ->
  (0 < top_k)%Z ->
  match get_recommendations st' (Some d) top_k with
  | Ret cached =>
    (forall r, In r recs -> Uuid.of_text (ri_document_id r) <> None)
    /\ cached = firstn (Z.to_nat top_k) (cached_entries st 1 recs)
  | Raise e =>
    exn_cls e = DatabaseError
    /\ exists r, In r recs /\ Uuid.of_text (ri_document_id r) = None
  end.
Proof.
  intros Hsave Hdocs Hk. apply save_recommendations_rows in Hsave as ->.
  unfold get_recommendations. cbn [ml_recommendations documents set_ml_recommendations].
  rewrite saved_rows_same.
  unfold Sql.limit.
  destruct (Z.ltb_spec top_k 0) as [Hneg | _]; [lia |].
  destruct (Z.eqb_spec top_k 0) as [Hzero | _]; [lia |].
  pose proof (SqlFacts.left_join_uuid_cases rc_recommended_document_id doc_id
                (insert_recommendations d 1 recs []) (documents st)) as Hjoin.
  destruct (Sql.left_join_uuid _ _ _ _) as [joined | e]; cbn [mbind res_bind].
  - destruct Hjoin as [-> Hvalid]. split.
    + intros rec Hrec. destruct (inserted_rows_cover d recs 1%Z rec Hrec) as (r & Hr & Heq).
      rewrite <- Heq. by apply Hvalid.
    + rewrite (SqlFacts.left_join_key doc_id); [| |exact Hdocs].
      2: { intros a b1 b2 H1 H2. unfold Uuid.text_is in H1, H2.
           destruct (Uuid.of_text _); [|discriminate].
           apply N.eqb_eq in H1. apply N.eqb_eq in H2. congruence. }
      rewrite SqlFacts.order_by_sorted_same by apply inserted_rows_sorted.
      rewrite <- firstn_map. f_equal. apply inserted_rows_read.
  - destruct Hjoin as [Hcls (r & Hr & Hnone)]. split; [done |].
    destruct (inserted_rows_texts d recs 1%Z r Hr) as (rec & Hrec & Heq).
    exists rec. split; [done | by rewrite <- Heq].
Qed.

Lemma saved_list_read_valid (st st' : store) (d : string) (recs : list recommendation)
    (top_k : Z) :
  save_recommendations st (Some d) recs = Ret st' ->
  List.NoDup (map doc_id (documents st)) ->
  (0 < top_k)%Z ->
  (forall r, In r recs -> Uuid.of_text (ri_document_id r) <> None) ->
  get_recommendations st' (Some d) top_k
  = Ret (firstn (Z.to_nat top_k) (cached_entries st 1 recs)).
Proof.
  intros Hsave Hdocs Hk Hvalid.
  pose proof (saved_list_read st st' d recs top_k Hsave Hdocs Hk) as H.
  destruct (get_recommendations st' (Some d) top_k) as [cached | e].
  - destruct H as [_ ->]. done.
  - destruct H as [_ (r & Hr & Hnone)]. by destruct (Hvalid r Hr).
Qed.

(** [LIMIT 0] reads nothing. *)
Lemma get_recommendations_zero (st : store) (document_id : option string) :
  get_recommendations st document_id 0 = Ret [].
Proof. reflexivity. Qed.

(** X22.  The cache round trip: after [save_recommendations] stored a list
    for a document, [get_recommendations] for that document with a positive
    [top_k] casts the stored ids to [uuid] for the join with [documents]:
    it fails when one of them is not the text of a [uuid], and otherwise
    returns the first [top_k] entries of exactly that list, in its order,
    with ranks 1, 2, ... and the filenames of the [documents] table ([None]
    for a document that has no row there); with [top_k = 0] it returns the
    empty list; whatever was cached for the document before is gone, and
    what is cached for any other document reads as before.  [documents.id]
    is taken to be unique. *)
Theorem recommendations_round_trip (st st' : store) (d : string)
    (recs : list recommendation) :
  save_recommendations st (Some d) recs = Ret st' ->
  List.NoDup (map doc_id (documents st)) ->
  (forall top_k, (0 < top_k)%Z ->
     match get_recommendations st' (Some d) top_k with
     | Ret cached =>
       (forall r, In r recs -> Uuid.of_text (ri_document_id r) <> None)
       /\ cached = firstn (Z.to_nat top_k) (cached_entries st 1 recs)
     | Raise e =>
       exn_cls e = DatabaseError
       /\ exists r, In r recs /\ Uuid.of_text (ri_document_id r) = None
     end)
  /\ get_recommendations st' (Some d) 0 = Ret []
  /\ (forall d' top_k, d' <> d ->
        get_recommendations st' (Some d') top_k = get_recommendations st (Some d') top_k).
Proof.
  intros Hsave Hdocs. split; [|split].
  - intros top_k Hk. by apply saved_list_read.
  - reflexivity.
  - intros d' top_k Hne. apply save_recommendations_rows in Hsave as ->.
    unfold get_recommendations. cbn [ml_recommendations documents set_ml_recommendations].
    by rewrite saved_rows_other.
Qed.

Lemma left_join_left {A B} (on : A -> B -> bool) (l : list A) (r : list B)
    (a : A) (b : option B) :
  In (a, b) (Sql.left_join on l r) -> In a l.
Proof.
  unfold Sql.left_join. rewrite in_flat_map. intros (x & Hx & Hin).
  destruct (List.filter (on x) r) as [|m ms].
  - destruct Hin as [[= <- <-] | []]. done.
  - apply in_map_iff in Hin as (y & [= <- <-] & _). done.
Qed.

Lemma in_firstn {A} (n : nat) (l : list A) (x : A) : In x (firstn n l) -> In x l.
Proof.
  intros H. rewrite <- (firstn_skipn n l). apply in_or_app. by left.
Qed.

(** The documents that [_calculate_similarity] returns passed the cast of
    the join. *)
Lemma calculate_similarity_texts (env : Env) (st : store) (document_id : option string)
    (top_k : Z) (user_id : option string) (recs : list recommendation) :
  _calculate_similarity env st document_id top_k user_id = Ret recs ->
  forall r, In r recs -> Uuid.of_text (ri_document_id r) <> None.
Proof.
  unfold _calculate_similarity.
  destruct (List.find _ (langchain_pg_embedding st)) as [base|]; [|by intros [= <-] r []].
  unfold Sql.limit. destruct (top_k <? 0)%Z; [discriminate |].
  destruct (top_k =? 0)%Z; [by intros [= <-] r [] |].
  unfold candidates.
  match goal with
  | |- context [Sql.left_join_uuid ?t ?i ?l ?r] =>
    pose proof (SqlFacts.left_join_uuid_cases t i l r) as Hjoin;
    destruct (Sql.left_join_uuid t i l r) as [joined | e]
  end; cbn [mbind res_bind]; [|discriminate].
  destruct Hjoin as [-> Hvalid]. intros [= <-] r Hr.
  apply in_map_iff in Hr as (c & <- & Hc). cbn [ri_document_id].
  apply in_firstn in Hc.
  apply (SqlFacts.distinct_from_sub cand_document None) in Hc.
  apply (proj1 (SortFacts.order_by_elem by_document_then_distance _ _)) in Hc.
  apply in_map_iff in Hc as ([lpe dopt] & <- & Hjoin).
  apply left_join_left in Hjoin. cbn [cand_document]. by apply Hvalid.
Qed.

(** X23.  A computed ranking is reused as it is: when a call for a document
    misses the cache and [_calculate_similarity] finds a non-empty list,
    that list is returned and stored; every later call for the document
    with a positive [top_k], for whatever user, returns the first [top_k]
    entries of the stored list without computing anything and without
    writing -- so a later call that asks for more documents than the first
    one gets no more than the first one stored. *)
Theorem computed_ranking_is_reused (env : Env) (d : string) (top_k : Z)
    (user_id : option string) (w : world) (recs : list recommendation) :
  List.NoDup (map doc_id (documents (db w))) ->
  get_recommendations (db w) (Some d) top_k = Ret [] ->
  _calculate_similarity env (db w) (Some d) top_k user_id = Ret recs ->
  recs <> [] ->
  exists w1,
    execute env (Some d) top_k user_id w = (Ret (computed_result (Some d) recs), w1)
    /\ forall top_k' user_id',
         (0 < top_k')%Z ->
         execute env (Some d) top_k' user_id' w1
         = (Ret (cached_result (Some d)
                   (firstn (Z.to_nat top_k') (cached_entries (db w) 1 recs))), w1).
Proof.
  intros Hdocs Hmiss Hcalc Hrecs.
  destruct (save_recommendations_returns (db w) d recs) as [st' Hsave].
  exists {| db := st'; ml_calls := ml_calls w |}. split.
  - unfold execute, orchestrate, try_block, query_res, transaction.
    cbv [mbind M_bind mret M_ret]. rewrite Hmiss, Hcalc.
    destruct recs as [|rec rest]; [done |]. by rewrite Hsave.
  - intros top_k' user_id' Hk.
    unfold execute, orchestrate, try_block, query_res.
    cbv [mbind M_bind mret M_ret]. cbn [db].
    rewrite (saved_list_read_valid _ _ _ _ top_k' Hsave Hdocs Hk
               (calculate_similarity_texts _ _ _ _ _ _ Hcalc)).
    destruct recs as [|rec rest]; [done |].
    destruct (Z.to_nat top_k') as [|n] eqn:En; [lia |].
    cbn [cached_entries firstn]. reflexivity.
Qed.

(** X24.  Without room for a recommendation nothing is recommended and
    nothing is written: with [top_k = 0] every call, cached or not, answers
    that no similar documents were found, and with a negative [top_k] the
    [LIMIT] of the cache lookup is refused and the answer is that failure. *)
Theorem recommend_similar_without_room (env : Env) (document_id : option string)
    (top_k : Z) (user_id : option string) (w : world) :
  (top_k <= 0)%Z ->
  execute env document_id top_k user_id w
  = (Ret (failure (if (top_k =? 0)%Z then "No se encontraron documentos similares"
                   else "LIMIT must not be negative")), w).
Proof.
  intros Hk. unfold execute, orchestrate, try_block, query_res.
  cbv [mbind M_bind mret M_ret].
  unfold get_recommendations, _calculate_similarity, Sql.limit.
  destruct (Z.eqb_spec top_k 0) as [-> | Hne].
  - change (0 <? 0)%Z with false. change (0 =? 0)%Z with true.
    cbn [mbind res_bind map]. cbv beta iota.
    by destruct (List.find _ (langchain_pg_embedding (db w))).
  - destruct (Z.ltb_spec top_k 0) as [_ | Hpos]; [|lia]. reflexivity.
Qed.

(** X25.  What [_calculate_similarity] may return for a document: at most
    [top_k] recommendations, of pairwise distinct documents, none of them
    the base document; each recommended document is the text of a [uuid]
    (the join casts it), has an embedding row in the collection of the base
    row (the first embedding row of the base document) and its score is 1
    minus the cosine distance of that row to the base embedding.  The
    [user_id] argument has no influence. *)
Theorem calculate_similarity_sound (env : Env) (st : store) (d : string) (top_k : Z)
    (user_id : option string) (recs : list recommendation) :
  _calculate_similarity env st (Some d) top_k user_id = Ret recs ->
  (length recs <= Z.to_nat top_k)%nat
  /\ List.NoDup (map ri_document_id recs)
  /\ (forall r, In r recs ->
        ri_document_id r <> d
        /\ Uuid.of_text (ri_document_id r) <> None
        /\ exists base lpe,
             List.find (fun row => match emb_document row with
                                   | Some doc => String.eqb doc d
                                   | None => false
                                   end) (langchain_pg_embedding st) = Some base
             /\ In lpe (langchain_pg_embedding st)
             /\ emb_document lpe = Some (ri_document_id r)
             /\ emb_collection_id lpe = emb_collection_id base
             /\ ri_similarity_score r
                = (1 - cosine_distance env (emb_embedding lpe) (emb_embedding base))%Q)
  /\ forall user_id', _calculate_similarity env st (Some d) top_k user_id' = Ret recs.
Proof.
  intros Hcalc. split; [|split; [|split; [|done]]].
  - revert Hcalc. unfold _calculate_similarity.
    destruct (List.find _ (langchain_pg_embedding st)); [|intros [= <-]; cbn; lia].
    unfold Sql.limit. destruct (top_k <? 0)%Z; [discriminate |].
    destruct (top_k =? 0)%Z; [intros [= <-]; cbn; lia |].
    destruct (candidates env st _ _ (Some d)) as [rows|]; cbn [mbind res_bind];
      [|discriminate].
    intros [= <-]. rewrite length_map. apply firstn_le_length.
  - apply (OrderFacts.increasing_NoDup ri_document_id).
    exact (RecommendFacts.recommendations_in_document_order env st (Some d) top_k user_id
             recs Hcalc).
  - intros r Hr.
    pose proof (calculate_similarity_texts _ _ _ _ _ _ Hcalc r Hr) as Htext.
    revert Hcalc Hr. unfold _calculate_similarity. cbn [Sql.eq_param].
    destruct (List.find _ (langchain_pg_embedding st)) as [base|] eqn:Hbase;
      [|by intros [= <-] []].
    unfold Sql.limit. destruct (top_k <? 0)%Z; [discriminate |].
    destruct (top_k =? 0)%Z; [by intros [= <-] [] |].
    unfold candidates.
    match goal with
    | |- context [Sql.left_join_uuid ?t ?i ?l ?r] =>
      pose proof (SqlFacts.left_join_uuid_cases t i l r) as Hjoin;
      destruct (Sql.left_join_uuid t i l r) as [joined | e]
    end; cbn [mbind res_bind]; [|discriminate].
    destruct Hjoin as [-> _]. intros [= <-] Hr.
    apply in_map_iff in Hr as (c & <- & Hc). cbn [ri_document_id ri_similarity_score] in *.
    apply in_firstn in Hc.
    apply (SqlFacts.distinct_from_sub cand_document None) in Hc.
    apply (proj1 (SortFacts.order_by_elem by_document_then_distance _ _)) in Hc.
    apply in_map_iff in Hc as ([[doc lpe] dopt] & <- & Hjoin).
    apply left_join_left in Hjoin. apply filter_In in Hjoin as [Hrow Hkeep].
    apply EmbeddingFacts.with_document_elem in Hrow as [Hin Hdoc].
    cbn [fst snd] in Hkeep. apply andb_true_iff in Hkeep as [Hcol Hother].
    apply String.eqb_eq in Hcol. apply negb_true_iff, String.eqb_neq in Hother.
    cbn [cand_document cand_distance fst snd] in *. split; [done |]. split; [done |].
    by exists base, lpe.
Qed.

End RecommendationCacheFacts.

(** X22 in the library of three documents: a list of two recommendations
    saved for [doc_0] is read back; [doc_c] has no row in [documents]. *)
Lemma recommendations_round_trip_witness :
  List.NoDup (map Store.doc_id (Store.documents Examples.library_store))
  /\ exists st',
       PersistenceAdapter.save_recommendations Examples.library_store
         (Some Examples.doc_0)
         [ {| ri_document_id := Examples.doc_a; ri_filename := "otro.pdf";
              ri_similarity_score := 0 |};
           {| ri_document_id := Examples.doc_c; ri_filename := "Sin nombre";
              ri_similarity_score := 1 # 2 |} ] = Ret st'
       /\ PersistenceAdapter.get_recommendations st' (Some Examples.doc_0) 2
          = Ret [ {| cr_document_id := Examples.doc_a; cr_similarity_score := 0;
                     cr_rank := 1; cr_filename := Some "otro.pdf" |};
                  {| cr_document_id := Examples.doc_c; cr_similarity_score := 1 # 2;
                     cr_rank := 2; cr_filename := None |} ]
       /\ forall d' top_k,
            d' <> Examples.doc_0 ->
            PersistenceAdapter.get_recommendations st' (Some d') top_k
            = PersistenceAdapter.get_recommendations Examples.library_store (Some d') top_k.
Proof.
  assert (List.NoDup (map Store.doc_id (Store.documents Examples.library_store))) as Hdocs.
  { repeat constructor; cbn; intuition discriminate. }
  split; [exact Hdocs |]. eexists. split; [reflexivity |].
  split; [vm_compute; reflexivity |].
  exact (proj2 (proj2 (RecommendationCacheFacts.recommendations_round_trip
                         Examples.library_store _ Examples.doc_0
                         [ {| ri_document_id := Examples.doc_a; ri_filename := "otro.pdf";
                              ri_similarity_score := 0 |};
                           {| ri_document_id := Examples.doc_c;
                              ri_filename := "Sin nombre";
                              ri_similarity_score := 1 # 2 |} ] eq_refl Hdocs))).
Defined.

(** X23 in the library of three documents: the first call, with
    [top_k = 1], stores [doc_a]; a later call with [top_k = 5] returns that
    one entry. *)
Lemma computed_ranking_is_reused_witness :
  exists w1,
    RecommendSimilarUseCase.execute Reference.env (Some Examples.doc_0) 1 None
      (Reference.world_of Examples.library_store)
    = (Ret (RecommendSimilarUseCase.computed_result (Some Examples.doc_0)
              [ {| ri_document_id := Examples.doc_a; ri_filename := "otro.pdf";
                   ri_similarity_score := 1 - 1 |} ]), w1)
    /\ forall top_k' user_id',
         (0 < top_k')%Z ->
         RecommendSimilarUseCase.execute Reference.env (Some Examples.doc_0) top_k'
           user_id' w1
         = (Ret (RecommendSimilarUseCase.cached_result (Some Examples.doc_0)
                   (firstn (Z.to_nat top_k')
                      (Observations.cached_entries Examples.library_store 1
                         [ {| ri_document_id := Examples.doc_a; ri_filename := "otro.pdf";
                              ri_similarity_score := 1 - 1 |} ]))), w1).
Proof.
  apply (RecommendationCacheFacts.computed_ranking_is_reused Reference.env Examples.doc_0
           1 None (Reference.world_of Examples.library_store)).
  - repeat constructor; cbn; intuition discriminate.
  - reflexivity.
  - reflexivity.
  - discriminate.
Defined.

(** X24 at [top_k = 0] in the library of three documents. *)
Lemma recommend_similar_without_room_witness :
  RecommendSimilarUseCase.execute Reference.env (Some Examples.doc_0) 0 None
    (Reference.world_of Examples.library_store)
  = (Ret (failure "No se encontraron documentos similares"),
     Reference.world_of Examples.library_store).
Proof.
  apply (RecommendationCacheFacts.recommend_similar_without_room Reference.env
           (Some Examples.doc_0) 0 None (Reference.world_of Examples.library_store)).
  lia.
Defined.

(** X25 in the library of three documents, with [top_k = 2]. *)
Lemma calculate_similarity_sound_witness :
  exists recs,
    RecommendSimilarUseCase._calculate_similarity Reference.env Examples.library_store
      (Some Examples.doc_0) 2 None = Ret recs
    /\ map ri_document_id recs = [ Examples.doc_a; Examples.doc_b ]
    /\ List.NoDup (map ri_document_id recs).
Proof.
  eexists. split; [reflexivity |]. split; [reflexivity |].
  exact (proj1 (proj2 (RecommendationCacheFacts.calculate_similarity_sound Reference.env
                         Examples.library_store Examples.doc_0 2 None _ eq_refl))).
Defined.

(** ** The statistics and centroids of a clustering *)

Module StatisticsFacts.
Import HDBSCANAdapter.

Lemma unique_elem (a : list Z) (x : Z) : In x (Py.unique a) <-> In x a.
Proof.
  unfold Py.unique. rewrite <- (SortFacts.order_by_elem Z.leb x a).
  induction (Sql.order_by Z.leb a) as [|y l IH]; [done |].
  cbn [fold_right]. destruct (fold_right _ [] l) as [|z acc] eqn:E.
  - cbn in *. split; [intros [<- | []]; by left |].
    intros [<- | H]; [by left | by apply IH in H].
  - destruct (Z.eqb_spec y z) as [-> | Hne].
    + rewrite IH. split; [by right |].
      intros [<- | H]; [apply IH; by left | done].
    + cbn [In]. by rewrite IH.
Qed.

Lemma strongly_sorted_filter {A} (R : A -> A -> Prop) (p : A -> bool) (l : list A) :
  StronglySorted R l -> StronglySorted R (List.filter p l).
Proof.
  induction 1 as [|x l Hl IH Hx]; cbn; [constructor |].
  destruct (p x); [|exact IH]. constructor; [exact IH |].
  rewrite List.Forall_forall in *. intros y Hy. apply Hx.
  by apply filter_In in Hy as [Hy _].
Qed.

Lemma clusters_of_elem (labels : list Z) (c : Z) :
  In c (clusters_of labels) <-> In c labels /\ (0 <= c)%Z.
Proof.
  unfold clusters_of. rewrite filter_In, unique_elem.
  by rewrite Z.leb_le.
Qed.

Lemma count_eq_cons (v x : Z) (l : list Z) :
  Py.count_eq v (x :: l) = ((if (v =? x)%Z then 1 else 0) + Py.count_eq v l)%Z.
Proof. unfold Py.count_eq. cbn [List.filter]. destruct (v =? x)%Z; cbn [length]; lia. Qed.

Lemma count_eq_pos (v : Z) (l : list Z) : In v l -> (1 <= Py.count_eq v l)%Z.
Proof.
  induction l as [|x l IH]; [intros [] |]. rewrite count_eq_cons.
  intros [-> | H].
  - rewrite Z.eqb_refl. unfold Py.count_eq. lia.
  - specialize (IH H). destruct (v =? x)%Z; lia.
Qed.

Lemma count_eq_absent (v : Z) (l : list Z) : ~ In v l -> Py.count_eq v l = 0%Z.
Proof.
  induction l as [|x l IH]; [done |]. rewrite count_eq_cons. intros H.
  rewrite IH by (intros Hin; apply H; by right).
  destruct (Z.eqb_spec v x) as [-> | _]; [|done]. exfalso. apply H. by left.
Qed.

Lemma sum_add (f g : Z -> Z) (cs : list Z) :
  fold_right Z.add 0%Z (map (fun c => (f c + g c)%Z) cs)
  = (fold_right Z.add 0%Z (map f cs) + fold_right Z.add 0%Z (map g cs))%Z.
Proof. induction cs as [|c cs IH]; cbn; lia. Qed.

Lemma sum_indicator (x : Z) (cs : list Z) :
  List.NoDup cs ->
  fold_right Z.add 0%Z (map (fun c => if (c =? x)%Z then 1 else 0)%Z cs)
  = if in_dec Z.eq_dec x cs then 1%Z else 0%Z.
Proof.
  induction 1 as [|c cs Hc Hcs IH]; [done |]. cbn [map fold_right]. rewrite IH.
  destruct (Z.eqb_spec c x) as [-> | Hne].
  - destruct (in_dec Z.eq_dec x cs) as [Hin | _]; [done |].
    destruct (in_dec Z.eq_dec x (x :: cs)) as [_ | Hn]; [done |].
    exfalso. apply Hn. by left.
  - destruct (in_dec Z.eq_dec x cs) as [Hin | Hn];
      destruct (in_dec Z.eq_dec x (c :: cs)) as [Hin' | Hn']; try done.
    + exfalso. apply Hn'. by right.
    + exfalso. destruct Hin' as [-> | Hin']; [done | by apply Hn].
Qed.

(** Counting the members of every class of a list counts the list. *)
Lemma sum_counts (cs labels : list Z) :
  List.NoDup cs ->
  (forall l, In l labels -> In l cs) ->
  fold_right Z.add 0%Z (map (fun c => Py.count_eq c labels) cs)
  = Z.of_nat (length labels).
Proof.
  intros Hcs. induction labels as [|x labels IH]; intros Hcover.
  - clear. induction cs as [|c cs IH]; [done |]. cbn [map fold_right]. rewrite IH. done.
  - rewrite (map_ext _ (fun c => ((if (c =? x)%Z then 1 else 0) + Py.count_eq c labels)%Z))
      by (intros c; apply count_eq_cons).
    rewrite sum_add, (sum_indicator x cs Hcs), IH by (intros l Hl; apply Hcover; by right).
    destruct (in_dec Z.eq_dec x cs) as [_ | Hn]; [cbn [length]; lia |].
    exfalso. apply Hn, Hcover. by left.
Qed.

Lemma cluster_sizes_lookup (labels : list Z) (c : Z) :
  match cluster_sizes (get_cluster_statistics labels) !! c with
  | Some n => In c (clusters_of labels) /\ n = Py.count_eq c labels
  | None => ~ In c (clusters_of labels)
  end.
Proof.
  cbn [get_cluster_statistics cluster_sizes].
  pose proof (SqlFacts.fold_insert_lookup (fun c : Z => c) (fun c => Py.count_eq c labels)
                (clusters_of labels) ∅ c) as H.
  cbv beta in H.
  destruct (fold_left _ (clusters_of labels) ∅ !! c) as [n|].
  - destruct H as [(row & Hrow & -> & <-) | [Hempty _]]; [done |].
    by rewrite lookup_empty in Hempty.
  - destruct H as [_ Hnone]. intros Hin. by apply (Hnone c).
Qed.

(** X26.  The statistics of a clustering partition the documents: the
    cluster numbers are the distinct labels that are not negative, in
    increasing order; [cluster_sizes] has exactly these keys, each with the
    number of documents that carry the label, which is at least 1; and when
    no label is below [-1] (the labels of HDBSCAN), the outliers and the
    clusters together are all the documents. *)
Theorem cluster_statistics_partition (labels : list Z) :
  let stats := get_cluster_statistics labels in
  StronglySorted Z.lt (cluster_ids stats)
  /\ (forall c, In c (cluster_ids stats) <-> In c labels /\ (0 <= c)%Z)
  /\ (forall c, match cluster_sizes stats !! c with
                | Some n => In c (cluster_ids stats) /\ n = Py.count_eq c labels
                                                     /\ (1 <= n)%Z
                | None => ~ In c (cluster_ids stats)
                end)
  /\ num_clusters stats = Z.of_nat (length (cluster_ids stats))
  /\ (List.Forall (fun l => (-1 <= l)%Z) labels ->
      (num_outliers stats
       + fold_right Z.add 0%Z
           (map (fun c => default 0%Z (cluster_sizes stats !! c)) (cluster_ids stats))
       = total_documents stats)%Z).
Proof.
  cbv zeta. split; [|split; [|split; [|split; [done |]]]].
  - cbn [get_cluster_statistics cluster_ids]. unfold clusters_of.
    apply strongly_sorted_filter, SortFacts.unique_increasing.
  - intros c. apply clusters_of_elem.
  - intros c. pose proof (cluster_sizes_lookup labels c) as H.
    destruct (cluster_sizes (get_cluster_statistics labels) !! c) as [n|]; [|exact H].
    destruct H as [Hin ->]. split; [exact Hin | split; [done |]].
    apply count_eq_pos. by apply clusters_of_elem in Hin as [Hin _].
  - intros Hlabels.
    change (cluster_ids (get_cluster_statistics labels)) with (clusters_of labels).
    change (num_outliers (get_cluster_statistics labels)) with (Py.count_eq (-1) labels).
    change (total_documents (get_cluster_statistics labels)) with (Z.of_nat (length labels)).
    rewrite (map_ext_in _ (fun c => Py.count_eq c labels)).
    2: { intros c Hc. pose proof (cluster_sizes_lookup labels c) as H.
         destruct (cluster_sizes (get_cluster_statistics labels) !! c) as [n|];
           [by destruct H as [_ ->] | done]. }
    rewrite <- (sum_counts ((-1)%Z :: clusters_of labels) labels).
    + reflexivity.
    + constructor; [|apply SortFacts.clusters_of_NoDup].
      intros Hin. apply clusters_of_elem in Hin as [_ Hneg]. lia.
    + intros l Hl. rewrite List.Forall_forall in Hlabels. specialize (Hlabels l Hl).
      destruct (Z.eq_dec l (-1)%Z) as [-> | Hne]; [by left | right].
      apply clusters_of_elem. split; [done | lia].
Qed.

Lemma select_eq_same_length {A} (labels : list Z) (c : Z) (a : list A) :
  length labels = length a -> exists rows, Py.select_eq labels c a = Ret rows.
Proof. intros Hlen. unfold Py.select_eq. rewrite Hlen, Nat.eqb_refl. by eexists. Qed.

Lemma select_eq_mismatch {A} (labels : list Z) (c : Z) (a : list A) :
  length labels <> length a ->
  exists text, Py.select_eq labels c a = Raise (Exn IndexError text).
Proof.
  intros Hlen. unfold Py.select_eq. apply Nat.eqb_neq in Hlen. rewrite Hlen. by eexists.
Qed.

Lemma fold_centroids_raise (labels : list Z) (embeddings : list vec) (cs : list Z)
    (e : exn) :
  fold_left (fun acc c =>
               centroids ← acc;
               cluster_embeddings ← Py.select_eq labels c embeddings;
               Ret (<[c := Py.mean_rows cluster_embeddings]> centroids))
    cs (Raise e)
  = (Raise e : res (gmap Z vec)).
Proof. induction cs as [|c cs IH]; [done |]. cbn [fold_left mbind res_bind]. exact IH. Qed.

Lemma fold_centroids_keys (labels : list Z) (embeddings : list vec) (cs : list Z) :
  forall m0 m : gmap Z vec,
    fold_left (fun acc c =>
                 centroids ← acc;
                 cluster_embeddings ← Py.select_eq labels c embeddings;
                 Ret (<[c := Py.mean_rows cluster_embeddings]> centroids))
      cs (Ret m0)
    = Ret m ->
    forall c, is_Some (m !! c) <-> In c cs \/ is_Some (m0 !! c).
Proof.
  induction cs as [|x cs IH]; intros m0 m Hfold c.
  - cbn in Hfold. injection Hfold as <-. split; [by right | by intros [[] | H]].
  - cbn [fold_left mbind res_bind] in Hfold.
    destruct (Py.select_eq labels x embeddings) as [rows | e].
    + cbn [mbind res_bind] in Hfold. rewrite (IH _ _ Hfold c).
      destruct (decide (x = c)) as [-> | Hne].
      * rewrite lookup_insert_eq. cbn [In]. split; [intros _; by left; left |].
        intros _. right. by eexists.
      * rewrite lookup_insert_ne by done. cbn [In]. intuition.
    + cbn [mbind res_bind] in Hfold. by rewrite fold_centroids_raise in Hfold.
Qed.

Lemma fold_centroids_returns (labels : list Z) (embeddings : list vec) (cs : list Z) :
  length labels = length embeddings ->
  forall m0 : gmap Z vec,
    exists m,
      fold_left (fun acc c =>
                   centroids ← acc;
                   cluster_embeddings ← Py.select_eq labels c embeddings;
                   Ret (<[c := Py.mean_rows cluster_embeddings]> centroids))
        cs (Ret m0)
      = Ret m.
Proof.
  intros Hlen. induction cs as [|x cs IH]; intros m0; [by eexists |].
  cbn [fold_left mbind res_bind].
  destruct (select_eq_same_length labels x embeddings Hlen) as [rows ->].
  cbn [mbind res_bind]. apply IH.
Qed.

Lemma mapM_res_ret {A B} (f : A -> res B) (g : A -> B) (l : list A) :
  (forall x, In x l -> f x = Ret (g x)) -> mapM (M := res) f l = Ret (map g l).
Proof.
  induction l as [|x l IH]; intros H; [done |]. cbn.
  rewrite (H x) by (by left). cbn.
  rewrite IH by (intros y Hy; apply H; by right). done.
Qed.

(** X27.  [get_cluster_centroids] returns exactly when the embeddings are
    as many as the labels, or there is no cluster at all; otherwise the
    boolean mask raises [IndexError].  When it returns, the centroids have
    the cluster numbers as their keys, and step 6 of
    [ClusterDocumentsUseCase.execute] cannot raise [KeyError]: it builds
    one element per cluster number, in increasing order, with the number of
    documents of the cluster as its size, which is at least 1. *)
Theorem cluster_data_for_every_cluster (env : Env) (labels : list Z)
    (embeddings : list vec) (cluster_labels : gmap Z string) (doc_ids : list string)
    (metadata : gmap dict_key string) :
  match get_cluster_centroids labels embeddings with
  | Ret centroids =>
    (length labels = length embeddings \/ clusters_of labels = [])
    /\ (forall c, is_Some (centroids !! c) <-> In c labels /\ (0 <= c)%Z)
    /\ exists data,
         ClusterDocumentsUseCase.build_cluster_data env (get_cluster_statistics labels)
           cluster_labels centroids doc_ids labels metadata = Ret data
         /\ map ci_cluster_id data = clusters_of labels
         /\ List.Forall (fun ci => ci_size ci = Py.count_eq (ci_cluster_id ci) labels
                                   /\ (1 <= ci_size ci)%Z) data
  | Raise e =>
    length labels <> length embeddings /\ clusters_of labels <> []
    /\ exn_cls e = IndexError
  end.
Proof.
  destruct (get_cluster_centroids labels embeddings) as [centroids | e] eqn:Hcentroids.
  - assert (forall c, is_Some (centroids !! c) <-> In c (clusters_of labels)) as Hkeys.
    { intros c. unfold get_cluster_centroids in Hcentroids.
      rewrite (fold_centroids_keys _ _ _ _ _ Hcentroids c), lookup_empty.
      split; [intros [H | [v [=]]]; exact H | by left]. }
    split; [|split].
    + destruct (Nat.eq_dec (length labels) (length embeddings)) as [Hlen | Hlen];
        [by left | right].
      unfold get_cluster_centroids in Hcentroids.
      destruct (clusters_of labels) as [|c cs]; [done |].
      cbn [fold_left mbind res_bind] in Hcentroids.
      destruct (select_eq_mismatch labels c embeddings Hlen) as [text Hselect].
      rewrite Hselect in Hcentroids.
      cbn [mbind res_bind] in Hcentroids. by rewrite fold_centroids_raise in Hcentroids.
    + intros c. by rewrite Hkeys, clusters_of_elem.
    + set (info := fun c : Z =>
                     {| ci_cluster_id := c;
                        ci_label := default ("Cluster " +:+ pretty c) (cluster_labels !! c);
                        ci_size := Py.count_eq c labels;
                        ci_keywords := extract_keywords_from_filenames env doc_ids labels c
                                         metadata;
                        ci_centroid := default ([] : vec) (centroids !! c) |}).
      exists (map info (clusters_of labels)). split; [|split].
      * unfold ClusterDocumentsUseCase.build_cluster_data.
        change (cluster_ids (get_cluster_statistics labels)) with (clusters_of labels).
        apply mapM_res_ret. intros c Hc.
        pose proof (cluster_sizes_lookup labels c) as Hsize.
        destruct (cluster_sizes (get_cluster_statistics labels) !! c) as [n|];
          [|by destruct Hsize].
        destruct Hsize as [_ ->]. cbn [mbind res_bind].
        apply Hkeys in Hc as [v Hv]. unfold info. rewrite Hv. reflexivity.
      * rewrite map_map. cbn [info ci_cluster_id]. apply map_id.
      * apply List.Forall_forall. intros ci Hci.
        apply in_map_iff in Hci as (c & <- & Hc). cbn [info ci_size ci_cluster_id].
        split; [done |]. apply count_eq_pos. by apply clusters_of_elem in Hc as [Hc _].
  - assert (length labels <> length embeddings) as Hlen.
    { intros Hlen.
      destruct (fold_centroids_returns labels embeddings (clusters_of labels) Hlen ∅)
        as [m Hm].
      unfold get_cluster_centroids in Hcentroids. congruence. }
    split; [exact Hlen |].
    unfold get_cluster_centroids in Hcentroids.
    destruct (clusters_of labels) as [|c cs]; [discriminate |]. split; [done |].
    cbn [fold_left mbind res_bind] in Hcentroids.
    destruct (select_eq_mismatch labels c embeddings Hlen) as [text Hselect].
    rewrite Hselect in Hcentroids.
    cbn [mbind res_bind] in Hcentroids. rewrite fold_centroids_raise in Hcentroids.
    by injection Hcentroids as <-.
Qed.

End StatisticsFacts.

(** ** Step 7 of [cluster_documents] and the owner of a cluster *)

Module AssignmentFacts.
Import Store Observations Views.
Import PersistenceAdapter ClusterDocumentsUseCase.







End AssignmentFacts.


(** ** The words of the filenames of a cluster *)

Module LabelWordsFacts.
Import FilenameLabels.

(** *** [Counter] *)

Lemma counter_add_other (w v : string) (n : nat) (counter : list (string * nat)) :
  v <> w -> In (v, n) (counter_add w counter) <-> In (v, n) counter.
Proof.
  intros Hne. induction counter as [|[k m] rest IH]; cbn [counter_add].
  - split; [|intros []]. intros [[= <- _] | []]. done.
  - destruct (String.eqb_spec k w) as [-> | Hk]; cbn [In].
    + split; (intros [[= <- _] | H]; [done | by right]).
    + by rewrite IH.
Qed.

Lemma counter_add_keys (w : string) (counter : list (string * nat)) :
  map fst (counter_add w counter)
  = if in_dec string_dec w (map fst counter) then map fst counter
    else map fst counter ++ [w].
Proof.
  induction counter as [|[k m] rest IH]; cbn [counter_add map fst]; [done |].
  destruct (String.eqb_spec k w) as [-> | Hk]; cbn [map fst].
  - destruct (in_dec string_dec w (w :: map fst rest)) as [_ | Hn]; [done |].
    exfalso. apply Hn. by left.
  - rewrite IH.
    destruct (in_dec string_dec w (map fst rest)) as [Hin | Hn];
      destruct (in_dec string_dec w (k :: map fst rest)) as [Hin' | Hn']; try done.
    + exfalso. apply Hn'. by right.
    + exfalso. destruct Hin' as [-> | Hin']; [done | by apply Hn].
Qed.

Lemma counter_add_seen (w : string) (m n : nat) (counter : list (string * nat)) :
  List.NoDup (map fst counter) ->
  In (w, m) counter ->
  In (w, n) (counter_add w counter) <-> n = S m.
Proof.
  induction counter as [|[k m'] rest IH]; [intros _ [] |].
  cbn [map fst counter_add]. intros Hnodup Hin.
  inversion Hnodup as [|? ? Hk Hrest]; subst.
  destruct (String.eqb_spec k w) as [-> | Hne]; cbn [In].
  - assert (m' = m) as ->.
    { destruct Hin as [[= ->] | Hin]; [done |].
      exfalso. apply Hk. apply in_map_iff. by exists (w, m). }
    split; [|intros ->; by left].
    intros [[= <-] | H]; [done |].
    exfalso. apply Hk. apply in_map_iff. by exists (w, n).
  - destruct Hin as [[= -> _] | Hin]; [done |].
    rewrite (IH Hrest Hin). split; [|by right].
    intros [[= -> _] | H]; done.
Qed.

Lemma counter_add_new (w : string) (n : nat) (counter : list (string * nat)) :
  ~ In w (map fst counter) ->
  In (w, n) (counter_add w counter) <-> n = 1%nat.
Proof.
  induction counter as [|[k m] rest IH]; cbn [map fst counter_add]; intros Hnew.
  - cbn. split; [intros [[= <-] | []]; done | intros ->; by left].
  - destruct (String.eqb_spec k w) as [-> | Hne].
    + exfalso. apply Hnew. by left.
    + cbn [In]. rewrite IH by (intros H; apply Hnew; by right).
      split; [|by right]. intros [[= -> _] | H]; done.
Qed.

(** [Counter(words)] has one item per distinct word, with the number of its
    occurrences. *)
Lemma Counter_spec (words : list string) :
  List.NoDup (map fst (Counter words))
  /\ forall v n, In (v, n) (Counter words)
                 <-> n = count_occ string_dec words v /\ In v words.
Proof.
  induction words as [|w words [IHkeys IHitems]] using rev_ind.
  { split; [constructor |]. intros v n. cbn. intuition. }
  unfold Counter in *. rewrite fold_left_app. cbn [fold_left].
  set (counter := fold_left (fun counter w => counter_add w counter) words []) in *.
  assert (In w (map fst counter) <-> In w words) as Hkey.
  { rewrite in_map_iff. split.
    - intros ([v n] & <- & Hin). by apply IHitems in Hin as [_ Hin].
    - intros Hin. exists (w, count_occ string_dec words w). split; [done |].
      by apply IHitems. }
  split.
  - rewrite counter_add_keys. destruct (in_dec string_dec w (map fst counter)); [done |].
    by apply ClusterTableFacts.NoDup_snoc.
  - intros v n. rewrite count_occ_app, in_app_iff. cbn [count_occ In].
    destruct (string_dec w v) as [<- | Hne].
    + destruct (in_dec string_dec w (map fst counter)) as [Hin | Hn].
      * apply Hkey in Hin as Hw.
        assert (In (w, count_occ string_dec words w) counter) as Hitem by (by apply IHitems).
        rewrite (counter_add_seen w _ n counter IHkeys Hitem).
        split; [intros ->; split; [lia | by left] | intros [-> _]; lia].
      * rewrite (counter_add_new w n counter Hn).
        assert (count_occ string_dec words w = 0%nat) as ->.
        { apply count_occ_not_In. by rewrite <- Hkey. }
        split; [intros ->; split; [done | right; by left] | by intros [-> _]].
    + rewrite counter_add_other by congruence. rewrite IHitems.
      split; [intros [-> Hin]; split; [lia | by left] |].
      intros [-> [Hin | [Heq | []]]]; [split; [lia | done] | done].
Qed.

(** *** Sorted lists *)

Lemma strongly_sorted_app {A} (R : A -> A -> Prop) (l1 l2 : list A) :
  StronglySorted R (l1 ++ l2) ->
  StronglySorted R l1 /\ forall a b, In a l1 -> In b l2 -> R a b.
Proof.
  induction l1 as [|x l1 IH]; cbn; intros H.
  - split; [constructor | intros a b []].
  - inversion H as [|? ? Hrest Hx]; subst. destruct (IH Hrest) as [Hl1 Hcross].
    rewrite List.Forall_forall in Hx. split.
    + constructor; [exact Hl1 |]. apply List.Forall_forall. intros y Hy.
      apply Hx, in_or_app. by left.
    + intros a b [<- | Ha] Hb; [apply Hx, in_or_app; by right | by apply Hcross].
Qed.

Lemma strongly_sorted_impl_in {A} (R R' : A -> A -> Prop) (l : list A) :
  (forall a b, In a l -> In b l -> R a b -> R' a b) ->
  StronglySorted R l -> StronglySorted R' l.
Proof.
  intros Himpl H. induction H as [|x l Hl IH Hx]; constructor.
  - apply IH. intros a b Ha Hb. apply Himpl; by right.
  - rewrite List.Forall_forall in *. intros y Hy.
    apply Himpl; [by left | by right | by apply Hx].
Qed.

Lemma strongly_sorted_map {A B} (f : A -> B) (R : B -> B -> Prop) (l : list A) :
  StronglySorted (fun a b => R (f a) (f b)) l -> StronglySorted R (map f l).
Proof.
  induction 1 as [|x l Hl IH Hx]; cbn; constructor; [exact IH |].
  rewrite List.Forall_forall in *. intros y Hy.
  apply in_map_iff in Hy as (a & <- & Ha). by apply Hx.
Qed.

Section WithStr.
Context (py : PyStr).

(** The items of the counter of the words of [filenames], most common
    first. *)
Lemma ranked_items (filenames : list string) (min_length : Z) :
  let all_words := flat_map (words_of py min_length) filenames in
  let ranked := Sql.order_by (fun a b : string * nat => (snd b <=? snd a)%nat)
                  (Counter all_words) in
  List.NoDup (map fst ranked)
  /\ (forall v n, In (v, n) ranked
                  <-> n = count_occ string_dec all_words v /\ In v all_words)
  /\ StronglySorted (fun a b : string * nat =>
                       (count_occ string_dec all_words (fst b)
                        <= count_occ string_dec all_words (fst a))%nat) ranked.
Proof.
  intros all_words ranked.
  destruct (Counter_spec all_words) as [Hkeys Hitems].
  assert (forall x y : string * nat,
            (snd y <=? snd x)%nat = true \/ (snd x <=? snd y)%nat = true) as Htotal.
  { intros x y. destruct (Nat.leb_spec (snd y) (snd x)); [by left | right].
    apply Nat.leb_le. lia. }
  assert (forall v n, In (v, n) ranked
                      <-> n = count_occ string_dec all_words v /\ In v all_words) as Hranked.
  { intros v n. unfold ranked. by rewrite SortFacts.order_by_elem, Hitems. }
  split; [by apply SqlFacts.order_by_NoDup | split; [exact Hranked |]].
  apply (strongly_sorted_impl_in
           (fun a b : string * nat => (snd b <=? snd a)%nat = true)).
  - intros [v n] [v' n'] Ha Hb H. apply Hranked in Ha as [-> _].
    apply Hranked in Hb as [-> _]. cbn [fst snd] in *. by apply Nat.leb_le.
  - apply Sorted_StronglySorted.
    + intros x y z Hxy Hyz. apply Nat.leb_le in Hxy. apply Nat.leb_le in Hyz.
      apply Nat.leb_le. lia.
    + by apply SortFacts.order_by_sorted.
Qed.

Lemma no_elements {A} (l : list A) : (forall x, ~ In x l) -> l = [].
Proof. destruct l as [|x l]; [done |]. intros H. exfalso. apply (H x). by left. Qed.

Lemma label_of_words (cluster_id : Z) (filenames : list string) :
  filenames <> [] ->
  label_of py cluster_id filenames
  = match _find_common_words py filenames 4 with
    | w :: _ => title py w
    | [] => "Documentos - Grupo " +:+ pretty cluster_id
    end.
Proof. by destruct filenames. Qed.

(** X28.  [_find_common_words] returns at most three words, pairwise
    distinct, each a word of one of the filenames (lower-cased, cut at the
    last dot, split at hyphens, underscores and spaces) that is at least
    [min_length] long and not a number.  They are in order of decreasing
    number of occurrences, no word left out occurs more often than a word
    returned, and no word is left out unless three are returned.  The
    label of a cluster that has filenames is the first of them in title
    case, and "Documentos - Grupo <id>" exactly when no filename has such
    a word.  [_extract_keywords_from_filenames] returns at most three
    keywords: its cut at ten never removes any. *)
Theorem common_words_ranked (filenames : list string) (min_length : Z) :
  let all_words := flat_map (words_of py min_length) filenames in
  let words := _find_common_words py filenames min_length in
  let occurrences := count_occ string_dec all_words in
  (length words <= 3)%nat
  /\ List.NoDup words
  /\ (forall w, In w words ->
        (min_length <= str_len w)%Z /\ isdigit py w = false
        /\ exists filename,
             In filename filenames
             /\ In w (split_words py (lower py (rsplit_dot_head filename))))
  /\ StronglySorted (fun a b => (occurrences b <= occurrences a)%nat) words
  /\ (forall w, In w all_words ->
        In w words
        \/ (length words = 3%nat
            /\ forall w', In w' words -> (occurrences w <= occurrences w')%nat))
  /\ (words = [] <-> forall w, ~ In w all_words)
  /\ (forall cluster_id,
        min_length = 4%Z -> filenames <> [] ->
        label_of py cluster_id filenames
        = match words with
          | w :: _ => title py w
          | [] => "Documentos - Grupo " +:+ pretty cluster_id
          end)
  /\ forall doc_ids labels cluster_id metadata keywords,
       _extract_keywords_from_filenames py doc_ids labels cluster_id metadata
       = Ret keywords ->
       (length keywords <= 3)%nat.
Proof.
  intros all_words words occurrences.
  destruct (ranked_items filenames min_length) as (Hkeys & Hitems & Hsorted).
  cbv zeta in Hkeys, Hitems, Hsorted. fold all_words in Hkeys, Hitems, Hsorted.
  set (ranked := Sql.order_by (fun a b : string * nat => (snd b <=? snd a)%nat)
                   (Counter all_words)) in *.
  assert (words = map fst (firstn 3 ranked)) as Hwords by reflexivity.
  rewrite <- (firstn_skipn 3 ranked) in Hsorted.
  apply strongly_sorted_app in Hsorted as [Hfirst Hcross].
  assert (forall w, In w words -> In w all_words) as Hsub.
  { intros w Hw. rewrite Hwords in Hw. apply in_map_iff in Hw as ([v n] & <- & Hin).
    assert (In (v, n) ranked) as Hr.
    { rewrite <- (firstn_skipn 3 ranked). apply in_or_app. by left. }
    by apply Hitems in Hr as [_ Hr]. }
  assert (forall fs n, (length (_find_common_words py fs n) <= 3)%nat) as Hlen.
  { intros fs n. unfold _find_common_words, most_common. rewrite length_map.
    apply firstn_le_length. }
  assert (forall w, In w all_words ->
            In w words
            \/ (length words = 3%nat
                /\ forall w', In w' words -> (occurrences w <= occurrences w')%nat))
    as Hcover.
  { intros w Hw.
    assert (In (w, occurrences w) ranked) as Hr by (by apply Hitems).
    rewrite <- (firstn_skipn 3 ranked) in Hr. apply in_app_or in Hr as [Hr | Hr].
    + left. rewrite Hwords. apply in_map_iff. by exists (w, occurrences w).
    + right. split.
      * rewrite Hwords, length_map. apply firstn_length_le.
        assert (0 < length (skipn 3 ranked))%nat as Hpos.
        { destruct (skipn 3 ranked); [destruct Hr | cbn; lia]. }
        rewrite length_skipn in Hpos. lia.
      * intros w' Hw'. rewrite Hwords in Hw'.
        apply in_map_iff in Hw' as ([v n] & <- & Hin).
        exact (Hcross (v, n) (w, occurrences w) Hin Hr). }
  split; [apply Hlen |]. split; [|split; [|split; [|split; [exact Hcover |]]]].
  4: split; [|split].
  - rewrite Hwords. rewrite <- (firstn_skipn 3 ranked), map_app in Hkeys.
    by apply NoDup_app_remove_r in Hkeys.
  - intros w Hw. apply Hsub in Hw. unfold all_words in Hw.
    apply in_flat_map in Hw as (filename & Hfile & Hw).
    unfold words_of in Hw. apply filter_In in Hw as [Hw Hkeep].
    apply andb_true_iff in Hkeep as [Hlong Hdigit].
    apply Z.leb_le in Hlong. apply negb_true_iff in Hdigit.
    split; [done | split; [done |]]. by exists filename.
  - rewrite Hwords. by apply strongly_sorted_map.
  - split.
    + intros Hnil w Hw. destruct (Hcover w Hw) as [Hin | [Hthree _]];
        rewrite Hnil in *; [destruct Hin | discriminate].
    + intros Hnone. apply no_elements. intros w Hw. by apply (Hnone w), Hsub.
  - intros cluster_id Hmin Hne. rewrite (label_of_words _ _ Hne).
    unfold words. by rewrite Hmin.
  - intros doc_ids labels cluster_id metadata keywords.
    unfold _extract_keywords_from_filenames.
    destruct (cluster_doc_ids doc_ids labels cluster_id) as [ids|]; [|discriminate].
    cbn [mbind res_bind]. intros [= <-].
    rewrite length_firstn.
    pose proof (Hlen (cluster_filenames metadata ids) 3%Z). lia.
Qed.

End WithStr.
End LabelWordsFacts.

(** ** The statistics of the topics *)

Module TopicStatisticsFacts.
Import BERTopicAdapter.

Lemma distribution_lookup (topics l : list Z) (c : Z) :
  foldr (fun topic_id dist =>
           if (topic_id =? -1)%Z then dist
           else <[topic_id := Py.count_eq topic_id topics]> dist) (∅ : gmap Z Z) l !! c
  = if bool_decide (c <> (-1)%Z /\ c ∈ l) then Some (Py.count_eq c topics) else None.
Proof.
  induction l as [|x l IH]; cbn [foldr].
  - rewrite lookup_empty. case_bool_decide as H; [|done].
    destruct H as [_ H]. by apply elem_of_nil in H.
  - destruct (Z.eqb_spec x (-1)) as [-> | Hx].
    + rewrite IH.
      apply (f_equal (fun b : bool => if b then Some (Py.count_eq c topics) else None)).
      apply bool_decide_ext. rewrite elem_of_cons. intuition congruence.
    + destruct (decide (x = c)) as [-> | Hne].
      * rewrite lookup_insert_eq. rewrite bool_decide_eq_true_2; [done |].
        split; [done | by left].
      * rewrite lookup_insert_ne by done. rewrite IH.
        apply (f_equal (fun b : bool => if b then Some (Py.count_eq c topics) else None)).
        apply bool_decide_ext. rewrite elem_of_cons. intuition congruence.
Qed.

Lemma distribution_sum_size (topics l : list Z) :
  NoDup l ->
  sum_values
    (foldr (fun topic_id dist =>
              if (topic_id =? -1)%Z then dist
              else <[topic_id := Py.count_eq topic_id topics]> dist) (∅ : gmap Z Z) l)
  = fold_right Z.add 0%Z
      (map (fun c => if (c =? -1)%Z then 0%Z else Py.count_eq c topics) l)
  /\ Z.of_nat
       (size (foldr (fun topic_id dist =>
                       if (topic_id =? -1)%Z then dist
                       else <[topic_id := Py.count_eq topic_id topics]> dist)
                (∅ : gmap Z Z) l))
     = (Z.of_nat (length l) - (if bool_decide ((-1)%Z ∈ l) then 1 else 0))%Z.
Proof.
  induction 1 as [|x l Hx Hl [IHsum IHsize]].
  { split; [done |]. cbn. rewrite map_size_empty.
    case_bool_decide as H; [by apply elem_of_nil in H | done]. }
  cbn [foldr map fold_right length].
  destruct (Z.eqb_spec x (-1)) as [-> | Hne].
  - split; [by rewrite IHsum |]. rewrite IHsize.
    rewrite (bool_decide_eq_false_2 _ Hx), bool_decide_eq_true_2 by (by left). lia.
  - assert (foldr (fun topic_id dist =>
                     if (topic_id =? -1)%Z then dist
                     else <[topic_id := Py.count_eq topic_id topics]> dist)
              (∅ : gmap Z Z) l !! x = None) as Hfresh.
    { rewrite distribution_lookup. rewrite bool_decide_eq_false_2; [done |].
      by intros [_ H]. }
    split.
    + unfold sum_values in *. rewrite map_fold_insert_L; [by rewrite IHsum | | done].
      intros. lia.
    + rewrite map_size_insert_None by done. rewrite Nat2Z.inj_succ, IHsize.
      assert (bool_decide ((-1)%Z ∈ x :: l) = bool_decide ((-1)%Z ∈ l)) as ->.
      { apply bool_decide_ext. rewrite elem_of_cons. intuition congruence. }
      lia.
Qed.

Lemma sum_without_outliers (topics l : list Z) :
  fold_right Z.add 0%Z (map (fun c => Py.count_eq c topics) l)
  = (fold_right Z.add 0%Z
       (map (fun c => if (c =? -1)%Z then 0%Z else Py.count_eq c topics) l)
     + Py.count_eq (-1) topics
       * fold_right Z.add 0%Z (map (fun c => if (c =? -1)%Z then 1 else 0)%Z l))%Z.
Proof.
  induction l as [|x l IH]; cbn [map fold_right]; [lia |]. rewrite IH.
  destruct (Z.eqb_spec x (-1)) as [-> | _]; lia.
Qed.

(** X29.  [get_topic_statistics] raises [ValueError] before [fit] and
    [ZeroDivisionError] for an empty list of topics.  Otherwise
    [topic_distribution] has one key per topic other than [-1], with the
    number of documents of the topic; [num_topics] is the number of its
    keys; and the outliers and the documents of the topics together are all
    the documents. *)
Theorem topic_statistics_partition (topics : option (list Z)) :
  match get_topic_statistics topics with
  | inl NotFitted => topics = None
  | inl ZeroDivisionError => topics = Some []
  | inr stats =>
    exists ts,
      topics = Some ts /\ ts <> []
      /\ (forall c, match topic_distribution stats !! c with
                    | Some n => c <> (-1)%Z /\ In c ts /\ n = Py.count_eq c ts
                    | None => c = (-1)%Z \/ ~ In c ts
                    end)
      /\ num_topics stats = Z.of_nat (size (topic_distribution stats))
      /\ (num_outliers stats + sum_values (topic_distribution stats)
          = total_documents stats)%Z
  end.
Proof.
  destruct topics as [[|t ts]|]; [done | | done].
  cbv beta iota zeta delta [get_topic_statistics].
  exists (t :: ts). split; [done | split; [done |]].
  cbn [topic_distribution num_topics num_outliers total_documents].
  unfold set_fold. cbn [compose].
  set (l := elements (list_to_set (t :: ts) : gset Z)).
  assert (NoDup l) as Hl by apply NoDup_elements.
  assert (forall c, c ∈ l <-> In c (t :: ts)) as Hin.
  { intros c. unfold l. by rewrite elem_of_elements, elem_of_list_to_set, list_elem_of_In. }
  destruct (distribution_sum_size (t :: ts) l Hl) as [Hsum Hsize].
  split; [|split].
  - intros c. rewrite distribution_lookup.
    destruct (decide (c <> (-1)%Z /\ c ∈ l)) as [H | H].
    + rewrite (bool_decide_eq_true_2 _ H). destruct H as [Hc H]. by apply Hin in H.
    + rewrite (bool_decide_eq_false_2 _ H).
      destruct (decide (c = (-1)%Z)) as [-> | Hc]; [by left | right].
      intros H'. apply H. split; [done | by apply Hin].
  - rewrite Hsize.
    assert (bool_decide ((-1)%Z ∈ (list_to_set (t :: ts) : gset Z))
            = bool_decide ((-1)%Z ∈ l)) as ->.
    { apply bool_decide_ext. unfold l. by rewrite elem_of_elements. }
    reflexivity.
  - rewrite Hsum.
    pose proof (StatisticsFacts.sum_counts l (t :: ts)) as Hcount.
    rewrite sum_without_outliers in Hcount.
    assert (List.NoDup l) as Hl' by (by apply NoDup_ListNoDup).
    rewrite (StatisticsFacts.sum_indicator (-1) l Hl') in Hcount.
    specialize (Hcount Hl' (fun c Hc => proj1 (list_elem_of_In _ _) (proj2 (Hin c) Hc))).
    destruct (in_dec Z.eq_dec (-1)%Z l) as [_ | Hn]; [lia |].
    assert (Py.count_eq (-1) (t :: ts) = 0%Z) as Hzero; [|lia].
    apply StatisticsFacts.count_eq_absent. intros H. apply Hn.
    apply list_elem_of_In. by apply Hin.
Qed.

End TopicStatisticsFacts.

(** ** [get_cluster_details] *)

Module ClusterDetailsFacts.
Import Store ClusterDetails.

(** X30.  [get_cluster_details] looks a cluster up by its generated key
    alone, whoever owns it: it returns [None] when no row of [ml_clusters]
    has the key; otherwise the row, with the documents assigned to it in
    [ml_document_clusters], and the one-element list [[None]] when no
    document is assigned to it.  The key [id] is taken to be unique. *)
Theorem cluster_details_by_key (st : store) (cluster_id : Z) :
  List.NoDup (map cl_id (ml_clusters st)) ->
  match get_cluster_details st cluster_id with
  | Some details =>
    List.find (fun c => (cl_id c =? cluster_id)%Z) (ml_clusters st)
    = Some (cd_cluster details)
    /\ cd_document_ids details
       = match List.filter (fun dc => bool_decide (dc_cluster_id dc = Some cluster_id))
                 (ml_document_clusters st) with
         | [] => [None]
         | assigned => map (fun dc => Some (dc_document_id dc)) assigned
         end
  | None => forall c, In c (ml_clusters st) -> cl_id c <> cluster_id
  end.
Proof.
  intros Hkeys. unfold get_cluster_details.
  rewrite (SqlFacts.filter_key cl_id (fun c => (cl_id c =? cluster_id)%Z) _); [| |exact Hkeys].
  2: { intros b1 b2 H1 H2. apply Z.eqb_eq in H1. apply Z.eqb_eq in H2. congruence. }
  destruct (List.find _ (ml_clusters st)) as [c|] eqn:Hfind.
  - apply find_some in Hfind as Hc. destruct Hc as [_ Hc]. apply Z.eqb_eq in Hc.
    unfold Sql.left_join. cbn [flat_map]. rewrite app_nil_r, Hc.
    destruct (List.filter _ (ml_document_clusters st)) as [|dc assigned]; [done |].
    cbn [map]. split; [done |]. cbn [snd fmap option_fmap option_map]. f_equal.
    by rewrite map_map.
  - cbn. intros c Hc. apply Z.eqb_neq. exact (find_none _ _ Hfind c Hc).
Qed.

End ClusterDetailsFacts.

(** X30 in the store of two owners, where no document is assigned to the
    cluster with the key 1. *)
Lemma cluster_details_by_key_witness :
  List.NoDup (map Store.cl_id (Store.ml_clusters Examples.shared_store))
  /\ exists details,
       ClusterDetails.get_cluster_details Examples.shared_store 1 = Some details
       /\ ClusterDetails.cd_document_ids details = [ None ].
Proof.
  assert (List.NoDup (map Store.cl_id (Store.ml_clusters Examples.shared_store))) as Hkeys.
  { repeat constructor; cbn; intuition discriminate. }
  split; [exact Hkeys |]. eexists. split; [reflexivity |].
  exact (proj2 (ClusterDetailsFacts.cluster_details_by_key Examples.shared_store 1 Hkeys)).
Defined.
